(** * flutter_pub_cleaner: a shallow embedding of [flutter_pub_cleaner.py]

    The script measures a project directory, runs [flutter clean] in it,
    measures again and reports the difference, for every Flutter project
    found directly under a parent folder.

    Python values are embedded as follows:
    - [int] is [Z] (unbounded);
    - the [float] of a size is the exact rational it denotes, a [Q], its
      roundings being made explicit ([float_of_int], [format_fixed2]); the
      [float] of the percentage is a [Float64], a binary64 value with its
      sign, every operation on it rounding as binary64 does;
    - [str] is [string], a character being a code point below 256;
    - an exception is a value of [PyExn], and a computation that may raise
      returns a [Res];
    - the console, the file system and the child process are threaded
      through a state-and-exception monad [M].

    The file system is a tree of directories, regular files and symbolic
    links, a link holding what it leads to.  The child process is a
    parameter [spawn] of the program, and so is the resolution of the path
    that the operator types. *)

From Stdlib Require Import ZArith QArith Qround Qabs Bool List Lia Ascii String.
From Stdlib Require Import DecimalString DecimalZ Qpower Lqa.
Import ListNotations.

Set Warnings "-register-all".

Local Open Scope string_scope.
Local Open Scope Z_scope.

(** ** Exceptions *)

(** The subclasses of [OSError] that the script can meet. *)
Inductive OSErrorKind : Type :=
| FileNotFoundError
| PermissionError
| NotADirectoryError
| OtherOSError.

Inductive PyExn : Type :=
| OSError (k : OSErrorKind)
| CalledProcessError (returncode : Z) (stderr : string)
| OverflowError
| ZeroDivisionError
| EOFError
| KeyboardInterrupt
| OtherException (message : string).

Inductive Res (A : Type) : Type :=
| Ok (a : A)
| Raise (e : PyExn).
Arguments Ok {A} a.
Arguments Raise {A} e.

(** [isinstance(e, OSError)] *)
Definition is_OSError (e : PyExn) : bool :=
  match e with OSError _ => true | _ => false end.

(** [isinstance(e, FileNotFoundError)] *)
Definition is_FileNotFoundError (e : PyExn) : bool :=
  match e with OSError FileNotFoundError => true | _ => false end.

(** [isinstance(e, PermissionError)] *)
Definition is_PermissionError (e : PyExn) : bool :=
  match e with OSError PermissionError => true | _ => false end.

(** [isinstance(e, subprocess.CalledProcessError)] *)
Definition is_CalledProcessError (e : PyExn) : bool :=
  match e with CalledProcessError _ _ => true | _ => false end.

(** [isinstance(e, Exception)]: [KeyboardInterrupt] derives from
    [BaseException] only. *)
Definition is_Exception (e : PyExn) : bool :=
  match e with KeyboardInterrupt => false | _ => true end.

(** ** Strings *)

(** [str(n)] for an [int]. *)
Definition str_of_int (n : Z) : string := NilZero.string_of_int (Z.to_int n).

Definition is_digit (c : ascii) : bool :=
  let n := nat_of_ascii c in (48 <=? n)%nat && (n <=? 57)%nat.

Fixpoint all_digits (s : string) : bool :=
  match s with
  | EmptyString => true
  | String c s' => is_digit c && all_digits s'
  end.

(** A decimal numeral without sign: one digit at least. *)
Definition is_numeral (s : string) : bool :=
  (0 <? String.length s)%nat && all_digits s.

(** [c.isspace()] on code points below 256. *)
Definition isspace (c : ascii) : bool :=
  let n := nat_of_ascii c in
  ((9 <=? n) && (n <=? 13) || (28 <=? n) && (n <=? 32)
   || (n =? 133) || (n =? 160))%nat.

(** [c.lower()] on code points below 256. *)
Definition lower_char (c : ascii) : ascii :=
  let n := nat_of_ascii c in
  if ((65 <=? n) && (n <=? 90)
      || (192 <=? n) && (n <=? 222) && negb (n =? 215))%nat
  then ascii_of_nat (n + 32) else c.

Fixpoint lower (s : string) : string :=
  match s with
  | EmptyString => EmptyString
  | String c s' => String (lower_char c) (lower s')
  end.

Fixpoint lstrip (s : string) : string :=
  match s with
  | EmptyString => EmptyString
  | String c s' => if isspace c then lstrip s' else s
  end.

(** Drops the white space at the end: a character is kept when it is not
    white space or when something is kept after it. *)
Fixpoint rstrip (s : string) : string :=
  match s with
  | EmptyString => EmptyString
  | String c s' =>
      match rstrip s' with
      | EmptyString => if isspace c then EmptyString else String c EmptyString
      | t => String c t
      end
  end.

(** [s.strip()] *)
Definition strip (s : string) : string := rstrip (lstrip s).

(** [s.startswith(p)] *)
Definition startswith (p s : string) : bool := String.prefix p s.

(** ** Floats *)

(** [float(n)] for an [int]: the nearest binary64 value, ties to even, and
    [OverflowError] when that value would not be finite.  The value is kept
    as the integer it denotes. *)
Definition round_to_binary64 (n : Z) : Z :=
  let a := Z.abs n in
  let e := Z.log2 a + 1 - 53 in
  if e <=? 0 then n
  else
    let q := Z.shiftr a e in
    let r := a mod 2 ^ e in
    let half := 2 ^ (e - 1) in
    let q' := if r <? half then q
              else if half <? r then q + 1
              else if Z.even q then q else q + 1 in
    Z.sgn n * (q' * 2 ^ e).

Definition float_of_int (n : Z) : Res Q :=
  let m := round_to_binary64 n in
  if 2 ^ 1024 <=? Z.abs m then Raise OverflowError else Ok (inject_Z m).

(** [int(x)] for a [float]: truncation towards zero. *)
Definition int_of_float (x : Q) : Z :=
  if Qle_bool 0 x then Qfloor x else Qceiling x.

(** The integer nearest to [x], ties to even. *)
Definition round_half_even (x : Q) : Z :=
  let f := Qfloor x in
  match ((x - inject_Z f) ?= (1 # 2))%Q with
  | Lt => f
  | Gt => f + 1
  | Eq => if Z.even f then f else f + 1
  end.

Definition two_digits (n : Z) : string :=
  str_of_int (n / 10) ++ str_of_int (n mod 10).

(** [f"{x:.2f}"]: the decimal expansion of [x] correctly rounded to two
    places, ties to even; the sign is kept even when every digit is 0. *)
Definition format_fixed2 (x : Q) : string :=
  let h := round_half_even (Qabs x * 100)%Q in
  (if Qle_bool 0 x then EmptyString else "-")
  ++ str_of_int (h / 100) ++ "." ++ two_digits (h mod 100).

(** ** Floats that are no integers *)

(** A binary64 value that is no NaN: a sign with a magnitude, a rational
    that binary64 holds, or with an infinity.  The sign tells the two
    zeros apart. *)
Inductive Float64 : Type :=
| Finite (negative : bool) (magnitude : Q)
| Infinite (negative : bool).

(** The exponent [e] of [x > 0]: [2^e <= x < 2^(e+1)]. *)
Definition exponent_of (x : Q) : Z :=
  let k := Z.log2 (Qnum x) - Z.log2 (Z.pos (Qden x)) in
  if Qle_bool (2 ^ k) x then k else k - 1.

(** The step between the binary64 values around [x > 0]: 53 bits are
    kept, and below [2^-1022] the steps are of [2^-1074]. *)
Definition ulp (x : Q) : Q := (2 ^ Z.max (exponent_of x - 52) (-1074))%Q.

(** The binary64 magnitude nearest to [x >= 0], ties to even; a result of
    [2^1024] stands for what is not finite. *)
Definition nearest_binary64 (x : Q) : Q :=
  if Qle_bool x 0 then 0
  else Qred (inject_Z (round_half_even (x / ulp x)) * ulp x).

(** [a / b] on [int]s: the binary64 value nearest to the quotient, ties to
    even, and [OverflowError] when that is not finite; a quotient too
    small for binary64 gives a zero.  The sign is that of the quotient,
    and that of [b] when [a] is 0. *)
Definition truediv (a b : Z) : Res Float64 :=
  if b =? 0 then Raise ZeroDivisionError
  else
    let magnitude := nearest_binary64 (Qabs (inject_Z a / inject_Z b)) in
    if Qle_bool (2 ^ 1024) magnitude then Raise OverflowError
    else Ok (Finite (xorb (a <? 0) (b <? 0)) magnitude).

(** [x * 100] for a [float]: the product rounded to binary64, an infinity
    when it is not finite. *)
Definition times_100 (x : Float64) : Float64 :=
  match x with
  | Finite negative magnitude =>
      let product := nearest_binary64 (magnitude * 100) in
      if Qle_bool (2 ^ 1024) product then Infinite negative
      else Finite negative product
  | Infinite negative => Infinite negative
  end.

(** [f"{x:.1f}"]: the decimal expansion of [x] correctly rounded to one
    place, ties to even; the sign is kept even when every digit is 0. *)
Definition format_fixed1 (x : Float64) : string :=
  match x with
  | Finite negative magnitude =>
      let h := round_half_even (magnitude * 10) in
      (if negative then "-" else EmptyString)
      ++ str_of_int (h / 10) ++ "." ++ str_of_int (h mod 10)
  | Infinite negative => (if negative then "-" else EmptyString) ++ "inf"
  end.

(** ** format_size (lines 29-50) *)

Definition size_units : list string := ["B"; "KB"; "MB"; "GB"; "TB"].

(** The loop [while size >= 1024.0 and unit_index < len(size_units) - 1].
    Dividing a binary64 value of magnitude 1024 or more by 1024.0 only
    lowers its exponent, so the quotient is exact. *)
Fixpoint convert_loop (fuel : nat) (size : Q) (unit_index : nat) : Q * nat :=
  match fuel with
  | O => (size, unit_index)
  | S fuel' =>
      if Qle_bool 1024 size && (unit_index <? List.length size_units - 1)%nat
      then convert_loop fuel' (size / 1024)%Q (unit_index + 1)%nat
      else (size, unit_index)
  end.

(** The loop leaves after [len(size_units) - 1] rounds at the latest. *)
Definition convert_fuel : nat := List.length size_units - 1.

Definition format_size (size_bytes : Z) : Res string :=
  if size_bytes =? 0 then Ok "0 B"
  else
    match float_of_int size_bytes with
    | Raise e => Raise e
    | Ok size0 =>
        let '(size, unit_index) := convert_loop convert_fuel size0 0 in
        if (unit_index =? 0)%nat
        then Ok (str_of_int (int_of_float size) ++ " "
                 ++ nth unit_index size_units EmptyString)
        else Ok (format_fixed2 size ++ " " ++ nth unit_index size_units EmptyString)
    end.

(** ** The file system *)

(** A path is the list of its components below the root directory. *)
Definition path : Type := list string.

(** [os.path.join(p, name)] for a [name] without separator. *)
Definition os_path_join (p : path) (name : string) : path :=
  (p ++ [name])%list.

(** [os.path.basename(p)] *)
Definition os_path_basename (p : path) : string := last p EmptyString.

(** What [os.stat] finds at a name that a directory lists and that is not a
    directory. *)
Inductive FileState : Type :=
| Present (st_size : N)
    (** [os.stat] succeeds. *)
| Absent
    (** [os.stat] fails (removed since the listing, not permitted):
        [os.path.exists] is [False]. *)
| Vanishing (k : OSErrorKind).
    (** [os.path.exists] is [True] and the following [os.path.getsize]
        raises: the file went away between the two calls. *)

(** A symbolic link holds what it leads to, as the calls that follow links
    see it: a file, a directory, or another link.  A link that leads
    nowhere, or round in a circle of links, is a link to a file that is
    [Absent]; a link to a directory above it holds that directory as far
    down as the paths that are looked at go. *)
Inductive node : Type :=
| File (st : FileState)
| Dir (st_size : N) (readable : bool) (entries : list (string * node))
| Link (target : node).

(** [os.path.islink] on the node itself. *)
Definition is_link (n : node) : bool :=
  match n with Link _ => true | _ => false end.

(** What [os.stat] sees at a node: links are followed to their end. *)
Fixpoint resolve (n : node) : node :=
  match n with
  | Link target => resolve target
  | _ => n
  end.

Fixpoint entry_lookup (name : string) (entries : list (string * node))
  : option node :=
  match entries with
  | [] => None
  | (name', n) :: entries' =>
      if String.eqb name name' then Some n else entry_lookup name entries'
  end.

(** The file or directory a path leads to: every link on the way is
    followed, the one at the end of the path too, as [os.stat] does. *)
Fixpoint lookup (n : node) (p : path) : option node :=
  match p with
  | [] => Some (resolve n)
  | name :: p' =>
      match resolve n with
      | Dir _ _ entries =>
          match entry_lookup name entries with
          | Some child => lookup child p'
          | None => None
          end
      | _ => None
      end
  end.

(** A directory, or a link that leads to one. *)
Definition is_dir (n : node) : bool :=
  match resolve n with Dir _ _ _ => true | _ => false end.

(** [os.stat] succeeds, links followed. *)
Definition node_exists (n : node) : bool :=
  match resolve n with
  | File (Present _) => true
  | File Absent => false
  | File (Vanishing _) => true
  | _ => true
  end.

(** [os.path.exists(p)]: never raises. *)
Definition os_path_exists (fs : node) (p : path) : bool :=
  match lookup fs p with
  | Some n => node_exists n
  | None => false
  end.

(** [os.path.isdir(p)]: never raises. *)
Definition os_path_isdir (fs : node) (p : path) : bool :=
  match lookup fs p with
  | Some n => is_dir n
  | None => false
  end.

(** [os.path.getsize(p)]: [os.stat(p).st_size]. *)
Definition os_path_getsize (fs : node) (p : path) : Res Z :=
  match lookup fs p with
  | Some (File (Present size)) => Ok (Z.of_N size)
  | Some (File Absent) => Raise (OSError FileNotFoundError)
  | Some (File (Vanishing k)) => Raise (OSError k)
  | Some (Dir size _ _) => Ok (Z.of_N size)
  | _ => Raise (OSError FileNotFoundError)
  end.

(** [os.listdir(p)] *)
Definition os_listdir (fs : node) (p : path) : Res (list string) :=
  match lookup fs p with
  | Some (Dir _ true entries) => Ok (map fst entries)
  | Some (Dir _ false _) => Raise (OSError PermissionError)
  | Some (File Absent) => Raise (OSError FileNotFoundError)
  | Some (File _) => Raise (OSError NotADirectoryError)
  | _ => Raise (OSError FileNotFoundError)
  end.

(** The names [os.walk] puts in [dirnames] and in [filenames]: the test is
    [entry.is_dir()], which follows links, so a link to a directory is
    among the [dirnames], and a link to a file, or to nothing, among the
    [filenames]. *)
Definition dirnames (entries : list (string * node)) : list string :=
  map fst (filter (fun e => is_dir (snd e)) entries).

Definition filenames (entries : list (string * node)) : list string :=
  map fst (filter (fun e => negb (is_dir (snd e))) entries).

(** [os.walk(top)] with its defaults: top-down, [onerror=None], so a
    directory that cannot be listed yields nothing and stops nothing, and
    [followlinks=False]: below [top] the walk goes on in
    [os.path.join(top, name)] for every [name] of [dirnames] for which
    [os.path.islink] is false, that is, whose entry is not a link.  [n]
    is what [os.scandir(top)] opens, a link at [top] being followed.  The
    depth of the recursion is not bounded here: the limit that an
    interpreter sets on it is not modelled. *)
Fixpoint walk_node (top : path) (n : node)
  : list (path * list string * list string) :=
  match n with
  | Dir _ true entries =>
      (top, dirnames entries, filenames entries)
      :: flat_map (fun e => if is_dir (snd e) && negb (is_link (snd e))
                            then walk_node (os_path_join top (fst e)) (snd e)
                            else [])
                  entries
  | _ => []
  end.

Definition os_walk (fs : node) (top : path)
  : list (path * list string * list string) :=
  match lookup fs top with
  | Some n => walk_node top n
  | None => []
  end.

(** ** get_folder_size (lines 6-27) *)

(** A [for] loop over [l] whose body updates the local state [s] and may
    raise: the loop stops at the first exception, the state as it is. *)
Fixpoint for_each {A S : Type} (body : S -> A -> S * option PyExn)
  (s : S) (l : list A) : S * option PyExn :=
  match l with
  | [] => (s, None)
  | x :: l' =>
      match body s x with
      | (s', None) => for_each body s' l'
      | (s', Some e) => (s', Some e)
      end
  end.

(** The body of the inner loop, with its [try]. *)
Definition add_file_size (fs : node) (dirpath : path) (total_size : Z)
  (filename : string) : Z * option PyExn :=
  let filepath := os_path_join dirpath filename in
  let attempt :=
    if os_path_exists fs filepath
    then match os_path_getsize fs filepath with
         | Ok size => Ok (total_size + size)
         | Raise e => Raise e
         end
    else Ok total_size in
  match attempt with
  | Ok total_size' => (total_size', None)
  | Raise e =>
      (* except (OSError, FileNotFoundError): continue *)
      if is_OSError e then (total_size, None) else (total_size, Some e)
  end.

(** The body of the outer loop: the inner loop. *)
Definition walk_body (fs : node) (total_size : Z)
  (step : path * list string * list string) : Z * option PyExn :=
  let '(dirpath, _, filenames) := step in
  for_each (add_file_size fs dirpath) total_size filenames.

Definition get_folder_size (fs : node) (folder_path : path) : Res Z :=
  let total_size := 0 in
  match for_each (walk_body fs) total_size (os_walk fs folder_path) with
  | (total_size, None) => Ok total_size
  | (total_size, Some e) =>
      (* except (OSError, PermissionError): pass *)
      if is_OSError e then Ok total_size else Raise e
  end.

(** ** is_flutter_project (lines 52-57) *)

Definition is_flutter_project (fs : node) (folder_path : path) : bool :=
  let pubspec_path := os_path_join folder_path "pubspec.yaml" in
  os_path_exists fs pubspec_path.

(** ** Well-formed file systems *)

Fixpoint nodupb (l : list string) : bool :=
  match l with
  | [] => true
  | x :: l' => negb (existsb (String.eqb x) l') && nodupb l'
  end.

(** A directory lists a name once. *)
Fixpoint wf_node (n : node) : bool :=
  match n with
  | File _ => true
  | Dir _ _ entries =>
      nodupb (map fst entries) && forallb (fun e => wf_node (snd e)) entries
  | Link target => wf_node target
  end.

Definition file_bytes (st : FileState) : Z :=
  match st with Present size => Z.of_N size | _ => 0 end.

(** The sizes of all the files of a tree, added up, those that a link leads
    to being counted at the link. *)
Fixpoint tree_bytes (n : node) : Z :=
  match n with
  | File st => file_bytes st
  | Dir _ _ entries =>
      fold_right (fun e acc => tree_bytes (snd e) + acc) 0 entries
  | Link target => tree_bytes target
  end.

(** A volume: names are unique in every directory and the sizes that
    [os.stat] gives for the files add up to less than 2^64, a file being
    counted at every link that leads to it. *)
Record FileSystem : Type := {
  root : node;
  root_wf : wf_node root = true;
  root_bounded : (tree_bytes root <? 2 ^ 64) = true
}.

(** ** Console, child process and program state *)

(** What the operator does at a prompt; the end of the list is the end of
    standard input. *)
Inductive Keyboard : Type :=
| Line (text : string)
| CtrlC.

Inductive Prompt : Type :=
| PromptChoice
    (** "\nEnter your choice (1 or 2): " *)
| PromptParent
    (** "Enter the parent folder path containing Flutter projects: " *)
| PromptConfirm (command_description : string) (count : nat).
    (** "Do you want to run '{command_description}' on all {count}
        project(s)? (y/N): " *)

(** The lines the script prints, in the order of the source: one
    constructor for each [print], a title standing for its lines and for
    the rules around it. *)
Inductive Message : Type :=
| MsgCleaning (project_name : string)
| MsgMeasuringBefore
| MsgSizeBefore (size : string)
| MsgRunning (command_name : string)
| MsgMeasuringAfter
| MsgSizeAfter (size : string)
| MsgSpaceSaved (size : string)
| MsgFlutterOutput (output : string)
| MsgCleaned (project_name : string)
| MsgErrorCleaning (project_name : string) (e : PyExn)
| MsgErrorDetails (details : string)
| MsgFvmNotFound
| MsgFlutterNotFound
| MsgModeMenu
    (** the five lines that head [ask_fvm_preference] *)
| MsgUsingFvm
| MsgUsingFlutter
| MsgInvalidChoice
| MsgBlank
| MsgNoPath
| MsgNotExist (parent_folder : path)
| MsgNotDir (parent_folder : path)
| MsgScanning (parent_folder : path)
| MsgRule (width : nat)
| MsgFound (item : string)
| MsgPermissionDenied (parent_folder : path)
| MsgNoProjects
| MsgFoundCount (count : nat)
| MsgCommand (command_description : string)
| MsgCancelled
| MsgStarting
| MsgProcessing (i count : nat)
| MsgSummaryTitle
| MsgCommandUsed (command_description : string)
| MsgSucceeded (successful_cleans : Z)
| MsgFailed (failed_cleans : Z)
| MsgTotalProjects (count : nat)
| MsgSpaceTitle
| MsgTotalBefore (size : string)
| MsgTotalAfter (size : string)
| MsgTotalSaved (size : string)
| MsgReduction (percentage_saved : string)
    (** "Space reduction: {percentage_saved:.1f}%" *)
| MsgInterrupted
| MsgUnexpected (e : PyExn).

(** What can be observed of a run, in order.  [Run] is a call of
    [subprocess.run] with its command line and working directory; it is
    there whether or not a process could be started. *)
Inductive Event : Type :=
| Printed (m : Message)
| Input (p : Prompt) (k : option Keyboard)
| Run (command : list string) (cwd : path).

(** How a child process ends. *)
Record ProcessExit : Type := {
  returncode : Z;
  stdout : string;
  stderr : string
}.

Record CleanOutcome : Type := {
  success : bool;
  size_before : Z;
  size_after : Z;
  size_saved : Z
}.

Record BatchTotals : Type := {
  successful_cleans : Z;
  failed_cleans : Z;
  total_size_before : Z;
  total_size_after : Z;
  total_size_saved : Z
}.

Definition nonempty (s : string) : bool :=
  negb (String.eqb s EmptyString).

Section Program.

(** The part of the machine that the script does not look at but that
    decides what a child process does. *)
Variable Env : Type.

Record World : Type := {
  fs : FileSystem;
  env : Env
}.

(** Starting [command] in [cwd] and waiting for it: the world it leaves,
    and how it ended or why it could not be started. *)
Variable spawn : list string -> path -> World -> World * Res ProcessExit.

(** [os.path.abspath(os.path.expanduser(text))], which depends on the home
    and working directories of the run. *)
Variable resolve_path : string -> path.

Record State : Type := {
  stdin : list Keyboard;
  world : World;
  out : list Event
}.

Definition emit (ev : Event) (s : State) : State :=
  {| stdin := stdin s; world := world s; out := (out s ++ [ev])%list |}.

(** Computations that read the keyboard, write the console, change the
    world and may raise.  What was done before an exception stays done. *)
Definition M (A : Type) : Type := State -> State * Res A.

Definition ret {A : Type} (a : A) : M A := fun s => (s, Ok a).

Definition bind {A B : Type} (m : M A) (k : A -> M B) : M B :=
  fun s =>
    match m s with
    | (s', Ok a) => k a s'
    | (s', Raise e) => (s', Raise e)
    end.

Notation "x <- m ;; k" := (bind m (fun x => k))
  (at level 61, m at next level, right associativity).
Notation "m ;; k" := (bind m (fun _ => k))
  (at level 61, right associativity).

Definition lift {A : Type} (r : Res A) : M A := fun s => (s, r).

(** [try: m except ...]: [handler e] is the first clause that matches
    [e], if any. *)
Definition try_except {A : Type} (m : M A) (handler : PyExn -> option (M A))
  : M A :=
  fun s =>
    match m s with
    | (s', Ok a) => (s', Ok a)
    | (s', Raise e) =>
        match handler e with
        | Some h => h s'
        | None => (s', Raise e)
        end
    end.

Fixpoint for_M {A S : Type} (body : S -> A -> M S) (acc : S) (l : list A)
  : M S :=
  match l with
  | [] => ret acc
  | x :: l' => acc' <- body acc x ;; for_M body acc' l'
  end.

Definition print (m : Message) : M unit :=
  fun s => (emit (Printed m) s, Ok tt).

(** [input(p)] *)
Definition input (p : Prompt) : M string :=
  fun s =>
    match stdin s with
    | Line text :: keys =>
        ({| stdin := keys; world := world s;
            out := (out s ++ [Input p (Some (Line text))])%list |}, Ok text)
    | CtrlC :: keys =>
        ({| stdin := keys; world := world s;
            out := (out s ++ [Input p (Some CtrlC)])%list |},
         Raise KeyboardInterrupt)
    | [] => (emit (Input p None) s, Raise EOFError)
    end.

(** A call that reads the file system as it is now. *)
Definition with_fs {A : Type} (f : node -> A) : M A :=
  fun s => (s, Ok (f (root (fs (world s))))).

(** [subprocess.run(command, cwd=cwd, capture_output=True, text=True,
    check=True)] *)
Definition subprocess_run (command : list string) (cwd : path)
  : M ProcessExit :=
  fun s =>
    let s1 := emit (Run command cwd) s in
    let '(w, r) := spawn command cwd (world s) in
    let s2 := {| stdin := stdin s1; world := w; out := out s1 |} in
    match r with
    | Ok result =>
        if returncode result =? 0 then (s2, Ok result)
        else (s2, Raise (CalledProcessError (returncode result)
                           (stderr result)))
    | Raise e => (s2, Raise e)
    end.

(** ** clean_flutter_project (lines 59-131) *)

Definition failed_outcome : CleanOutcome :=
  {| success := false; size_before := 0; size_after := 0; size_saved := 0 |}.

Definition clean_flutter_project (project_path : path) (use_fvm : bool)
  : M CleanOutcome :=
  let project_name := os_path_basename project_path in
  let command_name :=
    if use_fvm then "fvm flutter clean" else "flutter clean" in
  try_except
    (print (MsgCleaning project_name) ;;
     print MsgMeasuringBefore ;;
     measured <- with_fs (fun fs => get_folder_size fs project_path) ;;
     size_before <- lift measured ;;
     text <- lift (format_size size_before) ;;
     print (MsgSizeBefore text) ;;
     let command :=
       if use_fvm then ["fvm"; "flutter"; "clean"]
       else ["flutter"; "clean"] in
     print (MsgRunning command_name) ;;
     result <- subprocess_run command project_path ;;
     print MsgMeasuringAfter ;;
     measured <- with_fs (fun fs => get_folder_size fs project_path) ;;
     size_after <- lift measured ;;
     let size_saved := size_before - size_after in
     text <- lift (format_size size_after) ;;
     print (MsgSizeAfter text) ;;
     text <- lift (format_size size_saved) ;;
     print (MsgSpaceSaved text) ;;
     (if nonempty (strip (stdout result))
      then print (MsgFlutterOutput (strip (stdout result)))
      else ret tt) ;;
     print (MsgCleaned project_name) ;;
     ret {| success := true;
            size_before := size_before;
            size_after := size_after;
            size_saved := size_saved |})
    (fun e =>
       match e with
       | CalledProcessError _ e_stderr =>
           Some (print (MsgErrorCleaning project_name e) ;;
                 (if nonempty e_stderr
                  then print (MsgErrorDetails (strip e_stderr))
                  else ret tt) ;;
                 ret failed_outcome)
       | OSError FileNotFoundError =>
           Some ((if use_fvm then print MsgFvmNotFound
                  else print MsgFlutterNotFound) ;;
                 ret failed_outcome)
       | _ => None
       end).

(** ** ask_fvm_preference (lines 133-153) *)

(** The loop [while True] of [ask_fvm_preference]: every round reads one
    line as [input] does, so the keyboard input decreases and the loop is a
    recursion on it. *)
Fixpoint choice_loop (keys : list Keyboard) (w : World) (o : list Event)
  : State * Res bool :=
  match keys with
  | Line text :: keys' =>
      let o := (o ++ [Input PromptChoice (Some (Line text))])%list in
      let choice := strip text in
      if String.eqb choice "1"
      then ({| stdin := keys'; world := w;
               out := (o ++ [Printed MsgUsingFvm])%list |}, Ok true)
      else if String.eqb choice "2"
      then ({| stdin := keys'; world := w;
               out := (o ++ [Printed MsgUsingFlutter])%list |}, Ok false)
      else choice_loop keys' w (o ++ [Printed MsgInvalidChoice])%list
  | CtrlC :: keys' =>
      ({| stdin := keys'; world := w;
          out := (o ++ [Input PromptChoice (Some CtrlC)])%list |},
       Raise KeyboardInterrupt)
  | [] =>
      ({| stdin := []; world := w;
          out := (o ++ [Input PromptChoice None])%list |}, Raise EOFError)
  end.

Definition ask_fvm_preference : M bool :=
  print MsgModeMenu ;;
  (fun s => choice_loop (stdin s) (world s) (out s)).

(** ** scan_and_clean_flutter_projects (lines 155-284) *)

(** The body of the loop over [items] (lines 196-210). *)
Definition discover_item (parent_folder : path) (flutter_projects : list path)
  (item : string) : M (list path) :=
  let item_path := os_path_join parent_folder item in
  isdir <- with_fs (fun fs => os_path_isdir fs item_path) ;;
  if negb isdir then ret flutter_projects
  else if startswith "." item then ret flutter_projects
  else
    found <- with_fs (fun fs => is_flutter_project fs item_path) ;;
    if found
    then print (MsgFound item) ;; ret (flutter_projects ++ [item_path])%list
    else ret flutter_projects.

(** The statements under the inner [try] (lines 192-210): the projects
    found. *)
Definition discover_projects (parent_folder : path) : M (list path) :=
  let flutter_projects := [] in
  listed <- with_fs (fun fs => os_listdir fs parent_folder) ;;
  items <- lift listed ;;
  for_M (discover_item parent_folder) flutter_projects items.

Definition no_totals : BatchTotals :=
  {| successful_cleans := 0; failed_cleans := 0; total_size_before := 0;
     total_size_after := 0; total_size_saved := 0 |}.

(** The statements of the loop body after the call (lines 249-257): what a
    result adds to the totals. *)
Definition add_outcome (t : BatchTotals) (result : CleanOutcome)
  : BatchTotals :=
  {| successful_cleans :=
       if success result then successful_cleans t + 1
       else successful_cleans t;
     failed_cleans :=
       if success result then failed_cleans t else failed_cleans t + 1;
     total_size_before := total_size_before t + size_before result;
     total_size_after := total_size_after t + size_after result;
     total_size_saved := total_size_saved t + size_saved result |}.

(** The body of the loop over [enumerate(flutter_projects, 1)] (lines
    245-257), [count] being [len(flutter_projects)]. *)
Definition clean_one (use_fvm : bool) (count : nat)
  (acc : nat * BatchTotals) (project_path : path) : M (nat * BatchTotals) :=
  let '(i, t) := acc in
  print (MsgProcessing i count) ;;
  result <- clean_flutter_project project_path use_fvm ;;
  ret (S i, add_outcome t result).

(** The loop, from statistics [t] and index [i] on. *)
Definition clean_loop (use_fvm : bool) (count : nat) (i : nat)
  (t : BatchTotals) (projects : list path) : M (nat * BatchTotals) :=
  for_M (clean_one use_fvm count) (i, t) projects.

(** The final summary (lines 259-279). *)
Definition print_summary (command_description : string) (count : nat)
  (t : BatchTotals) : M unit :=
  print MsgSummaryTitle ;;
  print (MsgCommandUsed command_description) ;;
  print (MsgSucceeded (successful_cleans t)) ;;
  (if 0 <? failed_cleans t then print (MsgFailed (failed_cleans t))
   else ret tt) ;;
  print (MsgTotalProjects count) ;;
  print MsgSpaceTitle ;;
  text <- lift (format_size (total_size_before t)) ;;
  print (MsgTotalBefore text) ;;
  text <- lift (format_size (total_size_after t)) ;;
  print (MsgTotalAfter text) ;;
  text <- lift (format_size (total_size_saved t)) ;;
  print (MsgTotalSaved text) ;;
  (if 0 <? total_size_before t
   then
     ratio <- lift (truediv (total_size_saved t) (total_size_before t)) ;;
     let percentage_saved := times_100 ratio in
     print (MsgReduction (format_fixed1 percentage_saved))
   else ret tt) ;;
  print (MsgRule 80).

(** The statements from the count of the projects found to the end (lines
    220-279). *)
Definition confirm_and_clean (use_fvm : bool) (flutter_projects : list path)
  : M unit :=
  let count := List.length flutter_projects in
  print (MsgFoundCount count) ;;
  print (MsgRule 60) ;;
  let command_description :=
    if use_fvm then "fvm flutter clean" else "flutter clean" in
  print (MsgCommand command_description) ;;
  answer <- input (PromptConfirm command_description count) ;;
  let response := lower (strip answer) in
  if negb (String.eqb response "y" || String.eqb response "yes")
  then print MsgCancelled
  else
    print MsgStarting ;;
    print (MsgRule 60) ;;
    totals <- clean_loop use_fvm count 1 no_totals flutter_projects ;;
    print_summary command_description count (snd totals).

(** The statements under the outer [try] (lines 161-279). *)
Definition scan_body : M unit :=
  use_fvm <- ask_fvm_preference ;;
  print MsgBlank ;;
  answer <- input PromptParent ;;
  let parent_folder := strip answer in
  if negb (nonempty parent_folder) then print MsgNoPath
  else
    let parent_folder := resolve_path parent_folder in
    found <- with_fs (fun fs => os_path_exists fs parent_folder) ;;
    if negb found then print (MsgNotExist parent_folder)
    else
      isdir <- with_fs (fun fs => os_path_isdir fs parent_folder) ;;
      if negb isdir then print (MsgNotDir parent_folder)
      else
        print (MsgScanning parent_folder) ;;
        print (MsgRule 60) ;;
        discovered <-
          try_except
            (flutter_projects <- discover_projects parent_folder ;;
             ret (Some flutter_projects))
            (fun e =>
               if is_PermissionError e
               then Some (print (MsgPermissionDenied parent_folder) ;;
                          ret None)
               else None) ;;
        match discovered with
        | None => ret tt
        | Some [] => print MsgNoProjects
        | Some flutter_projects => confirm_and_clean use_fvm flutter_projects
        end.

(** The outer [try] with its two clauses (lines 281-284). *)
Definition scan_and_clean_flutter_projects : M unit :=
  try_except scan_body
    (fun e =>
       match e with
       | KeyboardInterrupt => Some (print MsgInterrupted)
       | _ => if is_Exception e then Some (print (MsgUnexpected e)) else None
       end).

End Program.

Arguments fs {Env} w.
Arguments env {Env} w.
Arguments stdin {Env} s.
Arguments world {Env} s.
Arguments out {Env} s.

(** ** Vocabulary of the properties *)

(** [x] divided [k] times by 1024. *)
Definition scale (x : Q) (k : nat) : Q :=
  Nat.iter k (fun y => (y / 1024)%Q) x.

(** A numeral, a point and two digits. *)
Definition two_decimals (s : string) : Prop :=
  exists ip fp,
    s = ip ++ "." ++ fp /\ is_numeral ip = true
    /\ String.length fp = 2%nat /\ all_digits fp = true.

Definition zsum (l : list Z) : Z := fold_right Z.add 0 l.

(** What an entry of a directory adds to the measure when it is listed
    among the files: the size of the file, or of the file that the link
    leads to. *)
Definition entry_file_bytes (n : node) : Z :=
  match resolve n with
  | File st => file_bytes st
  | _ => 0
  end.

(** The bytes below a directory that can be reached: the files whose
    [os.stat] succeeds, in the directories that can be listed, a link to a
    directory not being entered. *)
Fixpoint walk_bytes (n : node) : Z :=
  match n with
  | Dir _ true entries =>
      zsum (map (fun e => entry_file_bytes (snd e)) entries)
      + zsum (map (fun e => walk_bytes (snd e)) entries)
  | _ => 0
  end.

(** The sizes of the regular files of a tree, added up: a link is no
    regular file, and what it leads to is not in the tree. *)
Fixpoint regular_bytes (n : node) : Z :=
  match n with
  | File st => file_bytes st
  | Dir _ _ entries =>
      fold_right (fun e acc => regular_bytes (snd e) + acc) 0 entries
  | Link _ => 0
  end.

(** The sizes of the files that the links listed in the directories of a
    tree lead to, added up. *)
Fixpoint linked_bytes (n : node) : Z :=
  match n with
  | File _ => 0
  | Dir _ _ entries =>
      fold_right (fun e acc => linked_bytes (snd e) + acc) 0 entries
  | Link target => entry_file_bytes target
  end.

(** No name of the tree is a link. *)
Fixpoint link_free (n : node) : bool :=
  match n with
  | File _ => true
  | Dir _ _ entries => forallb (fun e => link_free (snd e)) entries
  | Link _ => false
  end.

(** Every directory can be listed and every file can be measured, the
    files that links lead to as well; what is below a link to a directory
    does not matter, the walk not going there. *)
Fixpoint all_accessible (n : node) : bool :=
  match n with
  | File (Present _) => true
  | File _ => false
  | Dir _ readable entries =>
      readable && forallb (fun e => all_accessible (snd e)) entries
  | Link target =>
      match resolve target with
      | File (Present _) => true
      | File _ => false
      | _ => true
      end
  end.

(** Induction on a tree, the hypothesis holding for every entry of a
    directory and for what a link leads to. *)
Fixpoint node_induction (P : node -> Prop)
  (HF : forall st, P (File st))
  (HD : forall size readable entries,
      Forall (fun e => P (snd e)) entries -> P (Dir size readable entries))
  (HL : forall target, P target -> P (Link target))
  (n : node) : P n :=
  match n with
  | File st => HF st
  | Dir size readable entries =>
      HD size readable entries
         ((fix all (l : list (string * node)) : Forall (fun e => P (snd e)) l :=
             match l with
             | [] => Forall_nil _
             | e :: l' =>
                 Forall_cons e (node_induction P HF HD HL (snd e)) (all l')
             end) entries)
  | Link target => HL target (node_induction P HF HD HL target)
  end.

(** A parent folder [work] with the four kinds of children: [A] holds a
    [pubspec.yaml], [B] holds none but a folder below it does, [.hidden]
    holds one, and [C] is a file. *)
Definition demo_root : node :=
  Dir 4096 true
    [("work",
      Dir 4096 true
        [("A", Dir 4096 true
                 [("pubspec.yaml", File (Present 120));
                  ("build", Dir 4096 true
                              [("app.bin", File (Present 1000))])]);
         ("B", Dir 4096 true
                 [("README.md", File (Present 10));
                  ("nested", Dir 4096 true
                               [("pubspec.yaml", File (Present 3))])]);
         (".hidden", Dir 4096 true
                       [("pubspec.yaml", File (Present 5))]);
         ("C", File (Present 7))])].

Definition demo_fs : FileSystem :=
  {| root := demo_root; root_wf := eq_refl; root_bounded := eq_refl |}.

(** A folder [T] with a regular file, a link to a file that is not below
    [T], a link to a folder and a folder of its own. *)
Definition linked_folder : node :=
  Dir 4096 true
    [("a.bin", File (Present 1000));
     ("link_out", Link (File (Present 6000)));
     ("dirlink", Link (Dir 4096 true [("c.bin", File (Present 300))]));
     ("sub", Dir 4096 true [])].

Definition linked_fs : FileSystem :=
  {| root := Dir 4096 true
               [("T", linked_folder);
                ("out.bin", File (Present 6000));
                ("elsewhere", Dir 4096 true [("c.bin", File (Present 300))])];
     root_wf := eq_refl; root_bounded := eq_refl |}.

(** The test that the discovery loop makes on an item. *)
Definition keeps (fs : node) (parent_folder : path) (item : string) : bool :=
  os_path_isdir fs (os_path_join parent_folder item)
  && negb (startswith "." item)
  && is_flutter_project fs (os_path_join parent_folder item).

(** The same test on the entry itself. *)
Definition has_marker (n : node) : bool :=
  match resolve n with
  | Dir _ _ entries =>
      match entry_lookup "pubspec.yaml" entries with
      | Some marker => node_exists marker
      | None => false
      end
  | _ => false
  end.

Definition keeps_entry (e : string * node) : bool :=
  is_dir (snd e) && negb (startswith "." (fst e)) && has_marker (snd e).

(** The state after the events [evs]. *)
Definition emit_all {Env : Type} (evs : list Event) (s : State Env)
  : State Env :=
  {| stdin := stdin s; world := world s; out := (out s ++ evs)%list |}.

Definition demo_world : World unit := {| fs := demo_fs; env := tt |}.

(** A run on the volume [demo_fs] with the lines [keys] typed. *)
Definition demo_state (keys : list Keyboard) : State unit :=
  {| stdin := keys; world := demo_world; out := [] |}.

(** The command that [clean_flutter_project] runs. *)
Definition clean_command (use_fvm : bool) : list string :=
  if use_fvm then ["fvm"; "flutter"; "clean"] else ["flutter"; "clean"].

(** The calls of [subprocess.run] that a trace shows, in order. *)
Fixpoint invocations (evs : list Event) : list (list string * path) :=
  match evs with
  | [] => []
  | Run command cwd :: evs' => (command, cwd) :: invocations evs'
  | _ :: evs' => invocations evs'
  end.

(** The answers read at the prompts that a trace shows, in order. *)
Fixpoint inputs (evs : list Event) : list (Prompt * option Keyboard) :=
  match evs with
  | [] => []
  | Input p k :: evs' => (p, k) :: inputs evs'
  | _ :: evs' => inputs evs'
  end.

(** What [clean_flutter_project] makes of the end [r] of the child process,
    the sizes measured being [before] and [after]. *)
Definition outcome_of (r : Res ProcessExit) (before after : Z)
  : Res CleanOutcome :=
  match r with
  | Ok result =>
      if returncode result =? 0
      then Ok {| success := true; size_before := before;
                 size_after := after; size_saved := before - after |}
      else Ok failed_outcome
  | Raise (CalledProcessError _ _) => Ok failed_outcome
  | Raise (OSError FileNotFoundError) => Ok failed_outcome
  | Raise e => Raise e
  end.

(** A child process that cannot be started: the executable is there and
    may not be executed. *)
Definition demo_spawn_denied (command : list string) (cwd : path)
  (w : World unit) : World unit * Res ProcessExit :=
  (w, Raise (OSError PermissionError)).

(** [demo_root] once [flutter clean] has emptied the folder [build] of [A]
    and has left a log of 2000 bytes in [.hidden]. *)
Definition demo_root_cleaned : node :=
  Dir 4096 true
    [("work",
      Dir 4096 true
        [("A", Dir 4096 true
                 [("pubspec.yaml", File (Present 120));
                  ("build", Dir 4096 true [])]);
         ("B", Dir 4096 true
                 [("README.md", File (Present 10));
                  ("nested", Dir 4096 true
                               [("pubspec.yaml", File (Present 3))])]);
         (".hidden", Dir 4096 true
                       [("pubspec.yaml", File (Present 5));
                        ("clean.log", File (Present 2000))]);
         ("C", File (Present 7))])].

Definition demo_fs_cleaned : FileSystem :=
  {| root := demo_root_cleaned; root_wf := eq_refl;
     root_bounded := eq_refl |}.

(** A child process that cleans and ends with status 0. *)
Definition demo_spawn (command : list string) (cwd : path)
  (w : World unit) : World unit * Res ProcessExit :=
  ({| fs := demo_fs_cleaned; env := tt |},
   Ok {| returncode := 0; stdout := "Deleting build..."; stderr := EmptyString |}).

(** The invariant of the totals after [k] projects. *)
Definition totals_consistent (t : BatchTotals) (k : nat) : Prop :=
  total_size_saved t = total_size_before t - total_size_after t
  /\ successful_cleans t + failed_cleans t = Z.of_nat k.

(** The exceptions at the start of a child process for which
    [clean_flutter_project] has a clause. *)
Definition handled (r : Res ProcessExit) : bool :=
  match r with
  | Ok _ => true
  | Raise e => is_CalledProcessError e || is_FileNotFoundError e
  end.

(** The lines of the summary that report totals. *)
Definition is_summary (m : Message) : bool :=
  match m with
  | MsgSummaryTitle | MsgCommandUsed _ | MsgSucceeded _ | MsgFailed _
  | MsgTotalProjects _ | MsgSpaceTitle | MsgTotalBefore _ | MsgTotalAfter _
  | MsgTotalSaved _ | MsgReduction _ => true
  | _ => false
  end.

(** The answers that the confirmation takes for a yes. *)
Definition affirmative (answer : string) : bool :=
  let response := lower (strip answer) in
  String.eqb response "y" || String.eqb response "yes".

(** The answers that the choice of the mode does not accept. *)
Definition invalid_choice (text : string) : bool :=
  negb (String.eqb (strip text) "1") && negb (String.eqb (strip text) "2").

Definition command_description (use_fvm : bool) : string :=
  if use_fvm then "fvm flutter clean" else "flutter clean".

(** What the script shows up to the answer to the confirmation. *)
Definition confirm_events (use_fvm : bool) (count : nat) (answer : string)
  : list Event :=
  [Printed (MsgFoundCount count);
   Printed (MsgRule 60);
   Printed (MsgCommand (command_description use_fvm));
   Input (PromptConfirm (command_description use_fvm) count)
         (Some (Line answer))].

(** The percentage as the specification has it. *)
Definition exact_percentage (saved before : Z) : Q :=
  (100 * inject_Z saved / inject_Z before)%Q.

(** Totals with 23 bytes saved of 80. *)
Definition rounded_totals : BatchTotals :=
  {| successful_cleans := 1; failed_cleans := 0; total_size_before := 80;
     total_size_after := 57; total_size_saved := 23 |}.

Definition demo_totals : BatchTotals :=
  {| successful_cleans := 1; failed_cleans := 1; total_size_before := 100;
     total_size_after := 40; total_size_saved := 60 |}.

(** The state once the answer to the confirmation is read. *)
Definition answered {Env : Type} (use_fvm : bool) (count : nat)
  (answer : string) (keys : list Keyboard) (s : State Env) : State Env :=
  {| stdin := keys; world := world s;
     out := (out s ++ confirm_events use_fvm count answer)%list |}.

(** What the script shows for an answer to the choice of the mode that is
    not accepted: the prompt with the answer, and the complaint. *)
Definition rejected_choice (text : string) : list Event :=
  [Input PromptChoice (Some (Line text)); Printed MsgInvalidChoice].

(** And for one that is accepted. *)
Definition accepted_choice (text : string) : list Event :=
  [Input PromptChoice (Some (Line text));
   Printed (if String.eqb (strip text) "1" then MsgUsingFvm
          else MsgUsingFlutter)].

(** A relative path is taken from the root. *)
Definition demo_resolve (text : string) : path := [text].

(** The events before the run is confirmed: no child process, no line of
    the summary, no answer to the confirmation. *)
Definition quiet_event (ev : Event) : bool :=
  match ev with
  | Run _ _ => false
  | Printed m => negb (is_summary m)
  | Input (PromptConfirm _ _) (Some (Line _)) => false
  | Input _ _ => true
  end.

Definition quiet (evs : list Event) : bool := forallb quiet_event evs.

(** The state in which a run starts. *)
Definition start {Env : Type} (keys : list Keyboard) (w : World Env)
  : State Env :=
  {| stdin := keys; world := w; out := [] |}.

(** ** Vocabulary of the further properties *)

(** The unit that the size [n] is shown in. *)
Definition unit_for (n : Z) : string :=
  if n <? 1024 then "B"
  else if n <? 1024 ^ 2 then "KB"
  else if n <? 1024 ^ 3 then "MB"
  else if n <? 1024 ^ 4 then "GB"
  else "TB".

(** The line that the handlers at the top print for an exception. *)
Definition last_words (e : PyExn) : Message :=
  match e with
  | KeyboardInterrupt => MsgInterrupted
  | _ => MsgUnexpected e
  end.

(** What the handlers at the top print for what the body of the run
    returned or raised. *)
Definition report_of (r : Res unit) : list Event :=
  match r with
  | Ok _ => []
  | Raise e => [Printed (last_words e)]
  end.

(** What [clean_flutter_project] shows up to the start of the command,
    [text] being the size before. *)
Definition narration_before (project_path : path) (use_fvm : bool)
  (text : string) : list Event :=
  [Printed (MsgCleaning (os_path_basename project_path));
   Printed MsgMeasuringBefore;
   Printed (MsgSizeBefore text);
   Printed (MsgRunning (command_description use_fvm));
   Run (clean_command use_fvm) project_path].

(** The totals count sizes of successful projects only. *)
Definition totals_sane (t : BatchTotals) : Prop :=
  0 <= successful_cleans t
  /\ 0 <= failed_cleans t
  /\ 0 <= total_size_before t
  /\ 0 <= total_size_after t
  /\ (successful_cleans t = 0 ->
      total_size_before t = 0 /\ total_size_after t = 0
      /\ total_size_saved t = 0).

(** The bytes that a walk from the path [p] reaches, links to files
    counted for the files they lead to, 0 when nothing is there. *)
Definition reachable_bytes (fs : node) (p : path) : Z :=
  match lookup fs p with
  | Some n => walk_bytes n
  | None => 0
  end.

(** The world after the child processes [invs], started one after the
    other from the world [w]. *)
Definition replay {Env : Type}
  (spawn : list string -> path -> World Env -> World Env * Res ProcessExit)
  (invs : list (list string * path)) (w : World Env) : World Env :=
  fold_left (fun w inv => fst (spawn (fst inv) (snd inv) w)) invs w.

(** A prompt is answered by a line; the keys Ctrl-C and the end of the
    input answer none. *)
Definition answer_given (k : option Keyboard) : bool :=
  match k with
  | Some (Line _) => true
  | _ => false
  end.

(** Every prompt of the trace was answered. *)
Definition calm (evs : list Event) : bool :=
  forallb (fun pk => answer_given (snd pk)) (inputs evs).

(** What [input] raises at a prompt that is not answered. *)
Definition input_failure (k : option Keyboard) : PyExn :=
  match k with
  | Some CtrlC => KeyboardInterrupt
  | _ => EOFError
  end.

(** The events [evs] with the result [r]: every prompt was answered, or
    the last event is a prompt that was not and [r] is what [input]
    raised there. *)
Definition stops {A : Type} (evs : list Event) (r : Res A) : Prop :=
  calm evs = true
  \/ exists pre p k,
       evs = (pre ++ [Input p k])%list
       /\ calm pre = true
       /\ answer_given k = false
       /\ r = Raise (input_failure k).

(** Of the sizes [subfolders] measured at the entries of a directory, those
    of the entries that are no links. *)
Definition own_folders (entries : list (string * node))
  (subfolders : list Z) : list Z :=
  map (fun et => if is_link (snd (fst et)) then 0 else snd et)
    (combine entries subfolders).

(** * Properties *)

(** ** Decimal numerals *)

Lemma all_digits_app (s t : string) :
  all_digits (s ++ t) = all_digits s && all_digits t.
Proof.
  induction s as [|c s IH]; simpl; [reflexivity|].
  now rewrite IH, andb_assoc.
Qed.

Lemma length_app (s t : string) :
  String.length (s ++ t) = (String.length s + String.length t)%nat.
Proof. induction s as [|c s IH]; simpl; [reflexivity|now rewrite IH]. Qed.

Lemma uint_digits (d : Decimal.uint) :
  all_digits (NilEmpty.string_of_uint d) = true.
Proof. induction d; simpl; auto. Qed.

Lemma uint_length (d : Decimal.uint) :
  d <> Decimal.Nil -> (0 < String.length (NilEmpty.string_of_uint d))%nat.
Proof. destruct d; simpl; try lia; congruence. Qed.

Lemma str_of_int_numeral (n : Z) :
  0 <= n -> is_numeral (str_of_int n) = true.
Proof.
  intros Hn. unfold is_numeral, str_of_int.
  destruct n as [|p|p]; [reflexivity| |lia].
  simpl. unfold NilZero.string_of_uint.
  pose proof (DecimalPos.Unsigned.to_uint_nonnil p) as Hnil.
  destruct (Pos.to_uint p) eqn:E; try congruence;
    rewrite <- E; rewrite uint_digits, andb_true_r;
    apply Nat.ltb_lt, uint_length; congruence.
Qed.

Lemma str_of_digit (d : Z) :
  0 <= d < 10 ->
  String.length (str_of_int d) = 1%nat /\ all_digits (str_of_int d) = true.
Proof.
  intros H.
  assert (d = 0 \/ d = 1 \/ d = 2 \/ d = 3 \/ d = 4 \/ d = 5 \/ d = 6
          \/ d = 7 \/ d = 8 \/ d = 9) as E by lia.
  repeat (destruct E as [E|E]; [subst d; split; reflexivity|]).
  subst d; split; reflexivity.
Qed.

Lemma two_digits_shape (n : Z) :
  0 <= n < 100 ->
  String.length (two_digits n) = 2%nat /\ all_digits (two_digits n) = true.
Proof.
  intros H. unfold two_digits.
  assert (0 <= n / 10 < 10) as H1.
  { split; [apply Z.div_pos; lia|apply Z.div_lt_upper_bound; lia]. }
  assert (0 <= n mod 10 < 10) as H2 by (apply Z.mod_pos_bound; lia).
  destruct (str_of_digit _ H1) as [L1 D1], (str_of_digit _ H2) as [L2 D2].
  rewrite length_app, all_digits_app, L1, L2, D1, D2. split; reflexivity.
Qed.

(** ** Conversion of an [int] to a [float] *)

Lemma binary64_split (a : Z) :
  2 ^ 53 <= a ->
  let e := Z.log2 a + 1 - 53 in
  exists q r half,
    0 < e /\ Z.shiftr a e = q /\ a mod 2 ^ e = r /\ 2 ^ (e - 1) = half
    /\ 2 ^ e = 2 * half /\ 0 < half
    /\ a = q * (2 * half) + r /\ 0 <= r < 2 * half
    /\ 2 ^ 52 <= q < 2 ^ 53
    /\ 2 ^ Z.log2 a = 2 ^ 52 * (2 * half).
Proof.
  intros Ha e.
  assert (0 < a) as Hpos by (pose proof (Z.pow_pos_nonneg 2 53); lia).
  assert (53 <= Z.log2 a) as HL by (apply Z.log2_le_pow2; lia).
  destruct (Z.log2_spec a Hpos) as [Hlo Hhi].
  assert (0 < e) as He by (unfold e; lia).
  set (half := 2 ^ (e - 1)).
  assert (0 < half) as Hhalf by (apply Z.pow_pos_nonneg; lia).
  assert (2 ^ e = 2 * half) as HB.
  { unfold half. replace e with (1 + (e - 1)) at 1 by lia.
    rewrite Z.pow_add_r by lia. reflexivity. }
  assert (2 ^ Z.log2 a = 2 ^ 52 * (2 * half)) as HLB.
  { rewrite <- HB. rewrite <- Z.pow_add_r by lia. f_equal. unfold e. lia. }
  assert (2 ^ Z.succ (Z.log2 a) = 2 ^ 53 * (2 * half)) as HLB'.
  { rewrite <- HB. rewrite <- Z.pow_add_r by lia. f_equal. unfold e. lia. }
  exists (a / 2 ^ e), (a mod 2 ^ e), half.
  rewrite Z.shiftr_div_pow2 by lia.
  repeat split; try assumption; try lia.
  - rewrite HB. pose proof (Z.div_mod a (2 * half)). lia.
  - apply Z.mod_pos_bound. lia.
  - rewrite HB. apply Z.mod_pos_bound. lia.
  - rewrite HB. apply Z.div_le_lower_bound; lia.
  - rewrite HB. apply Z.div_lt_upper_bound; lia.
Qed.

(** [float(n)] is exact up to 2^53. *)
Lemma round_to_binary64_small (n : Z) :
  Z.abs n <= 2 ^ 53 -> round_to_binary64 n = n.
Proof.
  intros H.
  destruct (Z.eq_dec (Z.abs n) (2 ^ 53)) as [E|E].
  - assert (n = 2 ^ 53 \/ n = - 2 ^ 53) as [-> | ->] by lia;
      vm_compute; reflexivity.
  - unfold round_to_binary64.
    assert (Z.log2 (Z.abs n) + 1 - 53 <= 0) as He.
    { destruct (Z.eq_dec (Z.abs n) 0) as [Z0|Z0].
      - rewrite Z0. simpl. lia.
      - assert (Z.log2 (Z.abs n) < 53); [|lia].
        apply Z.log2_lt_pow2; lia. }
    apply Z.leb_le in He. now rewrite He.
Qed.

(** Above 2^53 the magnitude is [q' * 2^e] for the 53-bit [q'] that the
    rounding chooses. *)
Lemma round_to_binary64_large (n : Z) :
  2 ^ 53 <= Z.abs n ->
  exists q r half q',
    Z.abs n = q * (2 * half) + r /\ 0 <= r < 2 * half /\ 0 < half
    /\ 2 ^ 52 <= q < 2 ^ 53
    /\ 2 ^ Z.log2 (Z.abs n) = 2 ^ 52 * (2 * half)
    /\ half = 2 ^ (Z.log2 (Z.abs n) - 53)
    /\ q' = (if r <? half then q
             else if half <? r then q + 1
             else if Z.even q then q else q + 1)
    /\ round_to_binary64 n = Z.sgn n * (q' * (2 * half)).
Proof.
  intros H.
  destruct (binary64_split _ H)
    as (q & r & half & He & Hq & Hr & Hh & HB & Hhalf & Ha & Hrb & Hqb & HL).
  exists q, r, half.
  eexists. repeat split; try eassumption; try lia.
  - rewrite <- Hh. f_equal. lia.
  - unfold round_to_binary64.
    apply Z.leb_gt in He. rewrite He, Hq, Hr, Hh, HB. reflexivity.
Qed.

Lemma float_range_cases (n : Z) :
  Z.abs n <= 2 ^ 53 \/ 2 ^ 53 <= Z.abs n.
Proof. lia. Qed.

Lemma round_to_binary64_sign (n : Z) :
  Z.sgn (round_to_binary64 n) = Z.sgn n
  /\ (2 ^ 53 <= Z.abs n -> 2 ^ 53 <= Z.abs (round_to_binary64 n)).
Proof.
  destruct (float_range_cases n) as [H|H].
  - rewrite round_to_binary64_small by assumption. split; [reflexivity|lia].
  - destruct (round_to_binary64_large _ H)
      as (q & r & half & q' & Ha & Hr & Hh & Hq & _ & _ & Hq' & ->).
    assert (q <= q' <= q + 1) as Hqq.
    { subst q'. destruct (r <? half), (half <? r), (Z.even q); lia. }
    assert (2 ^ 53 <= q' * (2 * half)) as Hm by nia.
    assert (0 < 2 ^ 53) by (apply Z.pow_pos_nonneg; lia).
    remember (q' * (2 * half)) as m eqn:Em. clear Em.
    destruct (Z.sgn_spec n) as [[Hn E]|[[Hn E]|[Hn E]]]; rewrite E; lia.
Qed.

Lemma abs_sgn_mul (n m : Z) : n <> 0 -> 0 <= m -> Z.abs (Z.sgn n * m) = m.
Proof.
  intros Hn Hm.
  destruct (Z.sgn_spec n) as [[H E]|[[H E]|[H E]]]; rewrite E; lia.
Qed.

(** [float(n)] succeeds below 2^1024 - 2^970, the middle of the largest
    binary64 value and 2^1024. *)
Lemma float_of_int_ok (n : Z) :
  Z.abs n < 2 ^ 1024 - 2 ^ 970 ->
  float_of_int n = Ok (inject_Z (round_to_binary64 n)).
Proof.
  intros H. unfold float_of_int.
  assert (Z.abs (round_to_binary64 n) < 2 ^ 1024) as Hb.
  { destruct (float_range_cases n) as [Hs|Hl].
    - rewrite round_to_binary64_small by assumption. lia.
    - destruct (round_to_binary64_large _ Hl)
        as (q & r & half & q' & Ha & Hr & Hh & Hq & HL & Hhalf & Hq' & ->).
      assert (Z.log2 (Z.abs n) < 1024) as HL'.
      { apply Z.log2_lt_pow2; lia. }
      assert (half <= 2 ^ 970) as Hle.
      { rewrite Hhalf. apply Z.pow_le_mono_r; lia. }
      assert (q' = q \/ q' = q + 1 /\ half <= r) as Hcase.
      { subst q'. destruct (Z.ltb_spec r half); [now left|].
        destruct (Z.ltb_spec half r); [right; lia|].
        destruct (Z.even q); [now left|right; lia]. }
      rewrite abs_sgn_mul by nia.
      destruct Hcase as [->|[-> Hr']]; nia. }
  apply Z.leb_gt in Hb. now rewrite Hb.
Qed.

(** From there on it raises [OverflowError]. *)
Lemma float_of_int_overflow (n : Z) :
  2 ^ 1024 - 2 ^ 970 <= Z.abs n ->
  float_of_int n = Raise OverflowError.
Proof.
  intros H. unfold float_of_int.
  assert (2 ^ 1024 <= Z.abs (round_to_binary64 n)) as Hb.
  { assert (2 ^ 53 <= Z.abs n) as Hl by lia.
    destruct (round_to_binary64_large _ Hl)
      as (q & r & half & q' & Ha & Hr & Hh & Hq & HL & Hhalf & Hq' & ->).
    assert (q <= q' <= q + 1) as Hqq.
    { subst q'. destruct (r <? half), (half <? r), (Z.even q); lia. }
    rewrite abs_sgn_mul by nia.
    destruct (Z_lt_le_dec (Z.abs n) (2 ^ 1024)) as [Hlt|Hge].
    - assert (Z.log2 (Z.abs n) = 1023) as E.
      { apply Z.log2_unique; lia. }
      rewrite E in Hhalf. change (1023 - 53) with 970 in Hhalf.
      assert (q = 2 ^ 53 - 1) as Eq by nia.
      assert (half <= r) as Hr' by nia.
      assert (q' = q + 1) as ->.
      { subst q'. destruct (Z.ltb_spec r half); [lia|].
        destruct (Z.ltb_spec half r); [reflexivity|].
        rewrite Eq. reflexivity. }
      nia.
    - assert (1024 <= Z.log2 (Z.abs n)) as HL'.
      { apply Z.log2_le_pow2; lia. }
      assert (2 ^ 1024 <= 2 ^ Z.log2 (Z.abs n)) as Hp.
      { apply Z.pow_le_mono_r; lia. }
      nia. }
  apply Z.leb_le in Hb. now rewrite Hb.
Qed.

(** ** The conversion loop *)

(** Fuel beyond the rounds that are left changes nothing: the loop of the
    source ends, with this result. *)
Lemma convert_loop_fuel (fuel : nat) : forall (x : Q) (k : nat),
  (convert_fuel - k <= fuel)%nat ->
  convert_loop fuel x k = convert_loop (convert_fuel - k) x k.
Proof.
  unfold convert_fuel. simpl List.length. simpl (5 - 1)%nat.
  induction fuel as [|fuel IH]; intros x k H.
  - replace (4 - k)%nat with 0%nat by lia. reflexivity.
  - destruct (Nat.ltb_spec k 4) as [Hk|Hk].
    + replace (4 - k)%nat with (S (4 - (k + 1)))%nat by lia.
      cbn [convert_loop]. simpl List.length. simpl (5 - 1)%nat.
      destruct (Qle_bool 1024 x && (k <? 4)%nat); [|reflexivity].
      apply IH. lia.
    + replace (4 - k)%nat with 0%nat by lia.
      cbn [convert_loop]. simpl List.length. simpl (5 - 1)%nat.
      apply Nat.ltb_ge in Hk. rewrite Hk, andb_false_r. reflexivity.
Qed.

Lemma Qle_bool_false (a b : Q) : Qle_bool a b = false -> (b < a)%Q.
Proof.
  intros H. apply Qnot_le_lt. intros Hle.
  apply Qle_bool_iff in Hle. congruence.
Qed.

Lemma one_le_div_1024 (y : Q) : Qle_bool 1024 y = true -> (1 <= y / 1024)%Q.
Proof.
  intros H. apply Qle_bool_iff in H.
  apply Qle_shift_div_l; [reflexivity|]. exact H.
Qed.

Lemma int_of_float_inject (m : Z) : int_of_float (inject_Z m) = m.
Proof.
  unfold int_of_float.
  destruct (Qle_bool 0 (inject_Z m)); [apply Qfloor_Z|apply Qceiling_Z].
Qed.

Lemma round_half_even_nonneg (x : Q) : (0 <= x)%Q -> 0 <= round_half_even x.
Proof.
  intros H. unfold round_half_even.
  assert (0 <= Qfloor x) as Hf.
  { change 0 with (Qfloor 0). now apply Qfloor_resp_le. }
  destruct (_ ?= _)%Q; [destruct (Z.even _)| |]; lia.
Qed.

(** The shape of ["{x:.2f}"] for a float that is not negative. *)
Lemma format_fixed2_shape (x : Q) :
  (0 <= x)%Q -> two_decimals (format_fixed2 x).
Proof.
  intros H. unfold format_fixed2.
  assert (Qle_bool 0 x = true) as -> by now apply Qle_bool_iff.
  set (h := round_half_even (Qabs x * 100)).
  assert (0 <= h) as Hh.
  { apply round_half_even_nonneg.
    apply Qmult_le_0_compat; [apply Qabs_nonneg|discriminate]. }
  exists (str_of_int (h / 100)), (two_digits (h mod 100)).
  assert (0 <= h mod 100 < 100) as Hm by (apply Z.mod_pos_bound; lia).
  destruct (two_digits_shape _ Hm) as [L D].
  repeat split; try assumption.
  apply str_of_int_numeral. apply Z.div_pos; lia.
Qed.

Lemma one_le_nonneg (x : Q) : (1 <= x)%Q -> (0 <= x)%Q.
Proof. intros H. eapply Qle_trans; [|exact H]. discriminate. Qed.

(** What [format_size] does on an [int] that [float] accepts and that is
    not negative. *)
Lemma format_size_nonneg (n : Z) :
  0 <= n < 2 ^ 1024 - 2 ^ 970 ->
  exists x k value,
    float_of_int n = Ok x
    /\ format_size n = Ok (value ++ " " ++ nth k size_units EmptyString)
    /\ (k < List.length size_units)%nat
    /\ (k = 0%nat ->
        n < 1024 /\ value = str_of_int n /\ is_numeral value = true)
    /\ (k <> 0%nat ->
        (1 <= scale x k)%Q /\ value = format_fixed2 (scale x k)
        /\ two_decimals value)
    /\ ((k < 4)%nat -> (scale x k < 1024)%Q).
Proof.
  intros H.
  rewrite float_of_int_ok by lia.
  exists (inject_Z (round_to_binary64 n)).
  destruct (Z.eq_dec n 0) as [->|Hn].
  { exists 0%nat, "0". repeat split; try reflexivity; simpl; try lia. }
  unfold format_size.
  destruct (Z.eqb_spec n 0); [lia|].
  rewrite float_of_int_ok by lia.
  unfold convert_fuel. simpl List.length. simpl (5 - 1)%nat.
  cbn [convert_loop]. simpl List.length. simpl (5 - 1)%nat.
  set (m := round_to_binary64 n).
  set (x := inject_Z m).
  cbn [Nat.ltb Nat.leb Nat.add andb].
  rewrite !andb_true_r.
  destruct (Qle_bool 1024 x) eqn:E1.
  2:{ exists 0%nat, (str_of_int n).
      apply Qle_bool_false in E1.
      assert (m < 1024) as Hm.
      { rewrite Zlt_Qlt. exact E1. }
      assert (m = n) as Em.
      { destruct (float_range_cases n) as [Hs|Hl];
          [now apply round_to_binary64_small|].
        destruct (round_to_binary64_sign n) as [Hsgn Hbig].
        specialize (Hbig Hl). fold m in Hbig, Hsgn.
        assert (1024 < 2 ^ 53) by reflexivity.
        lia. }
      cbn [Nat.eqb nth]. unfold x. rewrite int_of_float_inject, Em.
      repeat split; try lia.
      - apply str_of_int_numeral; lia.
      - intros _. unfold x in E1. rewrite Em in E1. exact E1. }
  pose proof (one_le_div_1024 _ E1) as G1.
  destruct (Qle_bool 1024 (x / 1024)) eqn:E2.
  2:{ exists 1%nat, (format_fixed2 (x / 1024)). cbn [Nat.eqb nth].
      repeat split; try lia; try congruence; try exact G1.
      - apply format_fixed2_shape, one_le_nonneg, G1.
      - intros _. now apply Qle_bool_false. }
  pose proof (one_le_div_1024 _ E2) as G2.
  destruct (Qle_bool 1024 (x / 1024 / 1024)) eqn:E3.
  2:{ exists 2%nat, (format_fixed2 (x / 1024 / 1024)). cbn [Nat.eqb nth].
      repeat split; try lia; try congruence; try exact G2.
      - apply format_fixed2_shape, one_le_nonneg, G2.
      - intros _. now apply Qle_bool_false. }
  pose proof (one_le_div_1024 _ E3) as G3.
  destruct (Qle_bool 1024 (x / 1024 / 1024 / 1024)) eqn:E4.
  2:{ exists 3%nat, (format_fixed2 (x / 1024 / 1024 / 1024)).
      cbn [Nat.eqb nth].
      repeat split; try lia; try congruence; try exact G3.
      - apply format_fixed2_shape, one_le_nonneg, G3.
      - intros _. now apply Qle_bool_false. }
  pose proof (one_le_div_1024 _ E4) as G4.
  exists 4%nat, (format_fixed2 (x / 1024 / 1024 / 1024 / 1024)).
  cbn [Nat.eqb nth].
  repeat split; try lia; try congruence; try exact G4.
  apply format_fixed2_shape, one_le_nonneg, G4.
Qed.

(** [format_size] returns whenever [float] accepts its argument. *)
Lemma format_size_ok (n : Z) :
  Z.abs n < 2 ^ 1024 - 2 ^ 970 -> exists text, format_size n = Ok text.
Proof.
  intros H. unfold format_size.
  destruct (n =? 0); [eauto|].
  rewrite float_of_int_ok by assumption.
  destruct (convert_loop _ _ _) as [size k].
  destruct (k =? 0)%nat; eauto.
Qed.

(** A negative [float] never enters the loop. *)
Lemma convert_loop_negative (m : Z) :
  m < 0 -> convert_loop convert_fuel (inject_Z m) 0 = (inject_Z m, 0%nat).
Proof.
  intros H. unfold convert_fuel. simpl List.length. simpl (5 - 1)%nat.
  cbn [convert_loop]. simpl List.length. simpl (5 - 1)%nat.
  assert (Qle_bool 1024 (inject_Z m) = false) as ->; [|reflexivity].
  destruct (Qle_bool 1024 (inject_Z m)) eqn:E; [|reflexivity].
  apply Qle_bool_iff in E.
  change 1024%Q with (inject_Z 1024) in E. rewrite <- Zle_Qle in E. lia.
Qed.

Lemma round_to_binary64_negative (n : Z) : n < 0 -> round_to_binary64 n < 0.
Proof.
  intros H. destruct (round_to_binary64_sign n) as [Hs _]. lia.
Qed.

Lemma format_size_negative_value (n : Z) :
  - (2 ^ 1024 - 2 ^ 970) < n < 0 ->
  format_size n = Ok (str_of_int (round_to_binary64 n) ++ " B").
Proof.
  intros H. unfold format_size.
  destruct (Z.eqb_spec n 0); [lia|].
  rewrite float_of_int_ok by lia.
  rewrite convert_loop_negative by (apply round_to_binary64_negative; lia).
  cbn [Nat.eqb nth size_units]. now rewrite int_of_float_inject.
Qed.

(** C4 (as amended).  For every integer [n] with
    [0 <= n < 2^1024 - 2^970], the integers that [float] accepts,
    [format_size n] returns ["<value> <unit>"] with the unit in B, KB, MB,
    GB, TB: the float of [n] is divided by 1024 once for each unit step,
    [k] times, until it is below 1024 or the unit is TB, where it stops
    whatever the value; with the unit B the value is the integer [n]
    written without a point, with every other unit it is written with
    exactly two decimal digits.  In particular 0 gives "0 B", 1023 gives
    "1023 B", 1024 gives "1.00 KB", 1536 gives "1.50 KB", 1024^4 gives
    "1.00 TB", and 1024^6 gives "1048576.00 TB". *)
Theorem format_size_contract :
  (forall n : Z,
     0 <= n < 2 ^ 1024 - 2 ^ 970 ->
     exists x k value,
       float_of_int n = Ok x
       /\ format_size n = Ok (value ++ " " ++ nth k size_units EmptyString)
       /\ In (nth k size_units EmptyString) ["B"; "KB"; "MB"; "GB"; "TB"]
       /\ (k < List.length size_units)%nat
       /\ (k = 0%nat ->
           n < 1024 /\ value = str_of_int n /\ is_numeral value = true)
       /\ (k <> 0%nat ->
           (1 <= scale x k)%Q /\ value = format_fixed2 (scale x k)
           /\ two_decimals value)
       /\ ((k < 4)%nat -> (scale x k < 1024)%Q))
  /\ format_size 0 = Ok "0 B"
  /\ format_size 1023 = Ok "1023 B"
  /\ format_size 1024 = Ok "1.00 KB"
  /\ format_size 1536 = Ok "1.50 KB"
  /\ format_size (1024 ^ 4) = Ok "1.00 TB"
  /\ format_size (1024 ^ 6) = Ok "1048576.00 TB".
Proof.
  split.
  - intros n H.
    destruct (format_size_nonneg n H) as (x & k & value & Hx & Hf & Hk & R).
    exists x, k, value. repeat split; try tauto.
    apply (nth_In size_units EmptyString), Hk.
  - repeat split; vm_compute; reflexivity.
Qed.

Lemma format_size_contract_witness :
  0 <= 1536 < 2 ^ 1024 - 2 ^ 970
  /\ exists x k value,
       float_of_int 1536 = Ok x
       /\ format_size 1536 = Ok (value ++ " " ++ nth k size_units EmptyString)
       /\ In (nth k size_units EmptyString) ["B"; "KB"; "MB"; "GB"; "TB"]
       /\ (k < List.length size_units)%nat
       /\ (k = 0%nat ->
           1536 < 1024 /\ value = str_of_int 1536
           /\ is_numeral value = true)
       /\ (k <> 0%nat ->
           (1 <= scale x k)%Q /\ value = format_fixed2 (scale x k)
           /\ two_decimals value)
       /\ ((k < 4)%nat -> (scale x k < 1024)%Q).
Proof.
  assert (0 <= 1536 < 2 ^ 1024 - 2 ^ 970) as H.
  { split; [discriminate|reflexivity]. }
  split; [exact H|].
  exact (proj1 format_size_contract 1536 H).
Defined.

(** C4 as stated fails: 2^1024 is a non-negative integer and
    [format_size] raises [OverflowError] on it. *)
Lemma format_size_overflow :
  0 <= 2 ^ 1024 /\ format_size (2 ^ 1024) = Raise OverflowError.
Proof. split; [discriminate|vm_compute; reflexivity]. Qed.

(** C10 (as amended).  For every negative integer [n] above
    [-(2^1024 - 2^970)] the conversion loop does not run and
    [format_size n] returns ["<m> B"], where [m] is the integer value of
    [float(n)], the nearest binary64 value to [n]: a negative integer,
    equal to [n] when [n >= -2^53], with the unit B and no fraction.  At
    and below [-(2^1024 - 2^970)], [format_size n] raises
    [OverflowError]. *)
Theorem format_size_negative (n : Z) :
  n < 0 ->
  (- (2 ^ 1024 - 2 ^ 970) < n ->
   float_of_int n = Ok (inject_Z (round_to_binary64 n))
   /\ convert_loop convert_fuel (inject_Z (round_to_binary64 n)) 0
      = (inject_Z (round_to_binary64 n), 0%nat)
   /\ round_to_binary64 n < 0
   /\ format_size n = Ok (str_of_int (round_to_binary64 n) ++ " B"))
  /\ (- 2 ^ 53 <= n -> format_size n = Ok (str_of_int n ++ " B"))
  /\ (n <= - (2 ^ 1024 - 2 ^ 970) -> format_size n = Raise OverflowError).
Proof.
  intros Hn. split; [|split].
  - intros H. repeat split.
    + apply float_of_int_ok. lia.
    + apply convert_loop_negative, round_to_binary64_negative, Hn.
    + apply round_to_binary64_negative, Hn.
    + apply format_size_negative_value. lia.
  - intros H.
    assert (2 ^ 53 < 2 ^ 1024 - 2 ^ 970) as Hc by reflexivity.
    rewrite format_size_negative_value by lia.
    rewrite round_to_binary64_small by lia. reflexivity.
  - intros H. unfold format_size.
    destruct (Z.eqb_spec n 0); [lia|].
    rewrite float_of_int_overflow by lia. reflexivity.
Qed.

Lemma format_size_negative_witness :
  -5 < 0 /\ format_size (-5) = Ok "-5 B".
Proof.
  assert (-5 < 0) as H by reflexivity.
  split; [exact H|].
  apply (proj1 (proj2 (format_size_negative (-5) H))). discriminate.
Defined.

(** C10 as stated fails: [-(2^53 + 1)] is a negative integer and
    [format_size] does not print it but the float next to it. *)
Lemma format_size_negative_rounded :
  - (2 ^ 53 + 1) < 0
  /\ format_size (- (2 ^ 53 + 1)) = Ok "-9007199254740992 B"
  /\ str_of_int (- (2 ^ 53 + 1)) = "-9007199254740993"
  /\ format_size (- (2 ^ 53 + 1)) <> Ok (str_of_int (- (2 ^ 53 + 1)) ++ " B").
Proof.
  repeat split; try (vm_compute; reflexivity).
  vm_compute. discriminate.
Qed.

(** ** The file system *)

Lemma resolve_idem (n : node) : resolve (resolve n) = resolve n.
Proof.
  induction n as [st|size r entries _|target IH] using node_induction;
    simpl; auto.
Qed.

Lemma resolve_not_link (n : node) : is_link (resolve n) = false.
Proof.
  induction n as [st|size r entries _|target IH] using node_induction;
    simpl; auto.
Qed.

Lemma is_dir_resolve (n : node) : is_dir (resolve n) = is_dir n.
Proof. unfold is_dir. now rewrite resolve_idem. Qed.

Lemma node_exists_resolve (n : node) : node_exists (resolve n) = node_exists n.
Proof. unfold node_exists. now rewrite resolve_idem. Qed.

Lemma has_marker_resolve (n : node) : has_marker (resolve n) = has_marker n.
Proof. unfold has_marker. now rewrite resolve_idem. Qed.

Lemma lookup_resolve (n : node) (p : path) :
  lookup (resolve n) p = lookup n p.
Proof. destruct p; simpl; now rewrite resolve_idem. Qed.

(** A path leads to a file or to a directory, never to a link. *)
Lemma lookup_resolved (p : path) : forall n c : node,
  lookup n p = Some c -> resolve c = c.
Proof.
  induction p as [|name p IH]; intros n c H; simpl in H.
  - inversion H. apply resolve_idem.
  - destruct (resolve n) as [st|size r entries|target]; try discriminate.
    destruct (entry_lookup name entries) as [child|] eqn:E; [|discriminate].
    exact (IH child c H).
Qed.

Lemma lookup_not_link (p : path) (n target : node) :
  lookup n p <> Some (Link target).
Proof.
  intros H. apply lookup_resolved in H. simpl in H.
  pose proof (resolve_not_link target) as R. rewrite H in R. discriminate R.
Qed.

Lemma lookup_app (n : node) (p q : path) :
  lookup n (p ++ q)%list =
  match lookup n p with Some c => lookup c q | None => None end.
Proof.
  revert n. induction p as [|name p IH]; intros n; simpl.
  - now rewrite lookup_resolve.
  - destruct (resolve n) as [st|size r entries|target]; try reflexivity.
    destruct (entry_lookup name entries); [apply IH|reflexivity].
Qed.

Lemma lookup_join (fs : node) (p : path) (name : string) size r entries :
  lookup fs p = Some (Dir size r entries) ->
  lookup fs (os_path_join p name)
  = option_map resolve (entry_lookup name entries).
Proof.
  intros H. unfold os_path_join. rewrite lookup_app, H. simpl.
  destruct (entry_lookup name entries); reflexivity.
Qed.

Lemma existsb_eqb_In (x : string) (l : list string) :
  existsb (String.eqb x) l = true <-> In x l.
Proof.
  rewrite existsb_exists. split.
  - intros (y & Hy & E). apply String.eqb_eq in E. now subst.
  - intros H. exists x. split; [assumption|apply String.eqb_refl].
Qed.

(** In a directory that lists every name once, a name leads to its
    entry. *)
Lemma entry_lookup_nodup (entries : list (string * node)) name n :
  nodupb (map fst entries) = true ->
  In (name, n) entries -> entry_lookup name entries = Some n.
Proof.
  induction entries as [|[name' n'] entries IH]; simpl; [contradiction|].
  intros Hnd Hin. apply andb_true_iff in Hnd as [Hnot Hnd].
  destruct Hin as [E|Hin].
  - inversion E; subst. now rewrite String.eqb_refl.
  - destruct (String.eqb_spec name name') as [->|Hne]; [|now apply IH].
    exfalso. apply negb_true_iff in Hnot.
    assert (existsb (String.eqb name') (map fst entries) = true) as Hex.
    { apply existsb_eqb_In, in_map_iff. now exists (name', n). }
    congruence.
Qed.

Lemma for_each_app {A S : Type} (body : S -> A -> S * option PyExn)
  (s : S) (l1 l2 : list A) :
  for_each body s (l1 ++ l2)%list =
  match for_each body s l1 with
  | (s', None) => for_each body s' l2
  | r => r
  end.
Proof.
  revert s. induction l1 as [|x l1 IH]; intros s; simpl; [reflexivity|].
  destruct (body s x) as [s' [e|]]; [reflexivity|apply IH].
Qed.

(** One round of the inner loop on a name that leads to a file. *)
Lemma add_file_size_file (fs : node) (dirpath : path) (total : Z) name st :
  lookup fs (os_path_join dirpath name) = Some (File st) ->
  add_file_size fs dirpath total name = (total + file_bytes st, None).
Proof.
  intros H. unfold add_file_size, os_path_exists, os_path_getsize.
  rewrite H. destruct st as [size| |k]; simpl; f_equal; lia.
Qed.

(** The inner loop over the files of a directory. *)
Lemma for_each_filenames (fs : node) (p : path) size r entries :
  lookup fs p = Some (Dir size r entries) ->
  forall (l : list (string * node)) (total : Z),
    (forall name n, In (name, n) l -> entry_lookup name entries = Some n) ->
    for_each (add_file_size fs p) total (filenames l)
    = (total + zsum (map (fun e => entry_file_bytes (snd e)) l), None).
Proof.
  intros Hp. induction l as [|[name n] l IH]; intros total Hl.
  - simpl. f_equal. lia.
  - unfold filenames in *. cbn [filter map snd fst zsum fold_right].
    assert (entry_lookup name entries = Some n) as Hn
        by (apply Hl; now left).
    assert (lookup fs (os_path_join p name) = Some (resolve n)) as Hlook.
    { rewrite (lookup_join fs p name size r entries Hp), Hn. reflexivity. }
    pose proof (resolve_not_link n) as Hnl.
    assert (is_dir n = false
            /\ (exists st, resolve n = File st
                            /\ entry_file_bytes n = file_bytes st)
            \/ is_dir n = true /\ entry_file_bytes n = 0) as Hkind.
    { unfold is_dir, entry_file_bytes.
      destruct (resolve n) as [st|size' r' entries'|target];
        [left; split; [reflexivity|now exists st]
        |right; split; reflexivity
        |discriminate Hnl]. }
    destruct Hkind as [[Hd (st & Hst & Hb)]|[Hd Hb]];
      rewrite Hd, Hb; cbn [negb map fst for_each].
    + rewrite Hst in Hlook.
      rewrite (add_file_size_file fs p total name st Hlook).
      rewrite IH by (intros; apply Hl; now right).
      f_equal. unfold zsum. lia.
    + rewrite IH by (intros; apply Hl; now right). f_equal.
Qed.

Lemma wf_node_entries size r entries :
  wf_node (Dir size r entries) = true ->
  nodupb (map fst entries) = true
  /\ Forall (fun e => wf_node (snd e) = true) entries.
Proof.
  simpl. intros H. apply andb_true_iff in H as [H1 H2].
  split; [assumption|]. now apply Forall_forall, forallb_forall.
Qed.

Lemma wf_node_resolve (n : node) :
  wf_node n = true -> wf_node (resolve n) = true.
Proof.
  induction n as [st|size r entries _|target IH] using node_induction;
    simpl; auto.
Qed.

(** The walk from a well-formed tree adds [walk_bytes] to the total and
    raises nothing. *)
Lemma for_each_walk_node (fs : node) (n : node) :
  wf_node n = true ->
  forall (p : path) (total : Z),
    lookup fs p = Some n ->
    for_each (walk_body fs) total (walk_node p n)
    = (total + walk_bytes n, None).
Proof.
  induction n as [st|size r entries IH|target _] using node_induction;
    intros Hwf p total Hp.
  - simpl. f_equal. lia.
  - destruct r; [|simpl; f_equal; lia].
    destruct (wf_node_entries _ _ _ Hwf) as [Hnd Hsub].
    cbn [walk_node for_each walk_body walk_bytes].
    rewrite (for_each_filenames fs p size true entries Hp entries)
      by (intros; now apply entry_lookup_nodup).
    set (t0 := total + zsum (map (fun e => entry_file_bytes (snd e)) entries)).
    assert (forall (l : list (string * node)) (t : Z),
               incl l entries ->
               for_each (walk_body fs) t
                 (flat_map (fun e => if is_dir (snd e)
                                        && negb (is_link (snd e))
                                     then walk_node (os_path_join p (fst e))
                                            (snd e)
                                     else []) l)
               = (t + zsum (map (fun e => walk_bytes (snd e)) l), None)) as G.
    { induction l as [|[name c] l IHl]; intros t Hincl.
      - simpl. f_equal. lia.
      - assert (In (name, c) entries) as Hin by (apply Hincl; now left).
        assert (incl l entries) as Hincl'
            by (intros x Hx; apply Hincl; now right).
        simpl flat_map. rewrite for_each_app.
        destruct c as [st|size' r' entries'|target].
        + simpl. rewrite IHl by assumption. f_equal.
        + cbn [is_dir resolve is_link negb andb snd fst].
          rewrite Forall_forall in IH, Hsub.
          rewrite (IH _ Hin (Hsub _ Hin)).
          * rewrite IHl by assumption. cbn [map zsum fold_right snd].
            f_equal. fold (zsum (map (fun e => walk_bytes (snd e)) l)). lia.
          * rewrite (lookup_join fs p name size true entries Hp).
            now rewrite (entry_lookup_nodup entries name _ Hnd Hin).
        + cbn [is_link negb snd]. rewrite andb_false_r.
          cbn [for_each]. rewrite IHl by assumption. f_equal. }
    rewrite G by apply incl_refl. f_equal. unfold t0. lia.
  - simpl. f_equal. lia.
Qed.

Lemma entry_lookup_In (entries : list (string * node)) name n :
  entry_lookup name entries = Some n -> In (name, n) entries.
Proof.
  induction entries as [|[name' n'] entries IH]; simpl; [discriminate|].
  destruct (String.eqb_spec name name') as [->|Hne].
  - intros E. inversion E. now left.
  - intros E. right. now apply IH.
Qed.

Lemma lookup_wf (p : path) : forall n c : node,
  wf_node n = true -> lookup n p = Some c -> wf_node c = true.
Proof.
  induction p as [|name p IH]; intros n c Hwf H; simpl in H.
  - inversion H. now apply wf_node_resolve.
  - apply wf_node_resolve in Hwf.
    destruct (resolve n) as [st|size r entries|target]; try discriminate.
    destruct (entry_lookup name entries) as [child|] eqn:E; [|discriminate].
    destruct (wf_node_entries _ _ _ Hwf) as [_ Hsub].
    rewrite Forall_forall in Hsub.
    apply (IH child c); [|assumption].
    apply (Hsub (name, child)). now apply entry_lookup_In.
Qed.

(** [get_folder_size] on a well-formed tree: it returns, and what. *)
Lemma get_folder_size_walk (fs : node) (p : path) :
  wf_node fs = true ->
  get_folder_size fs p =
  Ok (match lookup fs p with Some n => walk_bytes n | None => 0 end).
Proof.
  intros Hwf. unfold get_folder_size, os_walk.
  destruct (lookup fs p) as [n|] eqn:E; [|reflexivity].
  rewrite (for_each_walk_node fs n (lookup_wf _ _ _ Hwf E) p 0 E).
  reflexivity.
Qed.

Lemma file_bytes_nonneg (st : FileState) : 0 <= file_bytes st.
Proof. destruct st; simpl; lia. Qed.

Lemma tree_bytes_resolve (n : node) : tree_bytes (resolve n) = tree_bytes n.
Proof.
  induction n as [st|size r entries _|target IH] using node_induction;
    simpl; auto.
Qed.

Lemma tree_bytes_nonneg (n : node) : 0 <= tree_bytes n.
Proof.
  induction n as [st|size r entries IH|target IH] using node_induction.
  - apply file_bytes_nonneg.
  - simpl. induction IH as [|e l He Hl IHl]; simpl; lia.
  - exact IH.
Qed.

Lemma entry_file_bytes_bounds (n : node) :
  0 <= entry_file_bytes n <= tree_bytes n.
Proof.
  unfold entry_file_bytes. rewrite <- (tree_bytes_resolve n).
  pose proof (tree_bytes_nonneg (resolve n)).
  destruct (resolve n) as [st|size r entries|target]; simpl in *; lia.
Qed.

(** The walk counts no byte twice and none that is not there. *)
Lemma walk_bytes_bounds (n : node) :
  0 <= walk_bytes n
  /\ entry_file_bytes n + walk_bytes n <= tree_bytes n.
Proof.
  induction n as [st|size r entries IH|target IH] using node_induction.
  - unfold entry_file_bytes. simpl. pose proof (file_bytes_nonneg st). lia.
  - assert (0 <= zsum (map (fun e => entry_file_bytes (snd e)) entries)
            /\ 0 <= zsum (map (fun e => walk_bytes (snd e)) entries)
            /\ zsum (map (fun e => entry_file_bytes (snd e)) entries)
               + zsum (map (fun e => walk_bytes (snd e)) entries)
               <= tree_bytes (Dir size r entries)) as G.
    { simpl. induction IH as [|e l He Hl IHl]; simpl; [lia|].
      pose proof (entry_file_bytes_bounds (snd e)). lia. }
    pose proof (tree_bytes_nonneg (Dir size r entries)).
    change (entry_file_bytes (Dir size r entries)) with 0.
    destruct r; cbn [walk_bytes]; lia.
  - pose proof (entry_file_bytes_bounds (Link target)).
    cbn [walk_bytes]. lia.
Qed.

Lemma entry_lookup_bytes (entries : list (string * node)) name n size r :
  entry_lookup name entries = Some n ->
  tree_bytes n <= tree_bytes (Dir size r entries).
Proof.
  simpl. induction entries as [|[name' n'] entries IH]; simpl; [discriminate|].
  pose proof (tree_bytes_nonneg n').
  destruct (String.eqb name name').
  - intros E. inversion E. subst.
    assert (0 <= tree_bytes (Dir size r entries))
      by apply tree_bytes_nonneg.
    simpl in *. lia.
  - intros E. specialize (IH E). lia.
Qed.

Lemma lookup_bytes (p : path) : forall n c : node,
  lookup n p = Some c -> tree_bytes c <= tree_bytes n.
Proof.
  induction p as [|name p IH]; intros n c H; simpl in H.
  - inversion H. rewrite tree_bytes_resolve. lia.
  - rewrite <- (tree_bytes_resolve n).
    destruct (resolve n) as [st|size r entries|target]; try discriminate.
    destruct (entry_lookup name entries) as [child|] eqn:E; [|discriminate].
    pose proof (entry_lookup_bytes _ _ _ size r E).
    specialize (IH _ _ H). lia.
Qed.

(** On a volume the measure is a number of bytes below 2^64. *)
Lemma get_folder_size_bounded (fs : FileSystem) (p : path) :
  exists total,
    get_folder_size (root fs) p = Ok total /\ 0 <= total < 2 ^ 64.
Proof.
  rewrite get_folder_size_walk by apply root_wf.
  eexists. split; [reflexivity|].
  pose proof (root_bounded fs) as Hb. apply Z.ltb_lt in Hb.
  destruct (lookup (root fs) p) as [n|] eqn:E; [|lia].
  pose proof (lookup_bytes _ _ _ E).
  pose proof (walk_bytes_bounds n) as [H1 H2].
  pose proof (entry_file_bytes_bounds n).
  lia.
Qed.

(** When nothing is out of reach the walk counts every regular file, and
    every file that a link leads to. *)
Lemma walk_bytes_accessible (n : node) :
  all_accessible n = true ->
  entry_file_bytes n + walk_bytes n = regular_bytes n + linked_bytes n.
Proof.
  induction n as [st|size r entries IH|target _] using node_induction;
    intros H.
  - unfold entry_file_bytes. simpl. lia.
  - simpl in H. apply andb_true_iff in H as [-> H].
    unfold entry_file_bytes at 1.
    cbn [walk_bytes resolve regular_bytes linked_bytes].
    induction IH as [|e l He Hl IHl]; simpl; [reflexivity|].
    simpl in H. apply andb_true_iff in H as [H1 H2].
    specialize (He H1). specialize (IHl H2). simpl in IHl.
    unfold zsum in *. lia.
  - cbn [walk_bytes regular_bytes linked_bytes].
    unfold entry_file_bytes. cbn [resolve]. lia.
Qed.

(** In a tree without links the regular files are all the files. *)
Lemma link_free_bytes (n : node) :
  link_free n = true -> linked_bytes n = 0.
Proof.
  induction n as [st|size r entries IH|target _] using node_induction;
    intros H; [reflexivity| |discriminate H].
  simpl in *. induction IH as [|e l He Hl IHl]; simpl; [reflexivity|].
  simpl in H. apply andb_true_iff in H as [H1 H2].
  rewrite (He H1), (IHl H2). reflexivity.
Qed.

Lemma zsum_app (l1 l2 : list Z) : zsum (l1 ++ l2) = zsum l1 + zsum l2.
Proof. induction l1 as [|x l1 IH]; simpl; [reflexivity|]. unfold zsum in *. simpl. lia. Qed.

(** C3.  On every volume and for every path, [get_folder_size] returns a
    number that is not negative, and raises nothing.  When every
    directory below the path can be listed and every file measured, it is
    the sum of the sizes of the regular files in the directory and in the
    directories below it, plus the sizes of the files that the links
    listed there lead to: [os.path.getsize] follows a link, and [os.walk]
    enters no directory through a link; so it is the sum of the sizes of
    the regular files when the tree holds no link.  It is 0 when the
    directory cannot be listed and when the path leads nowhere.  In
    general it is the sum over the files that can be reached: a file that
    cannot be measured, or that has gone, or a link that leads to such a
    file or to nothing, adds 0, and the files after it are counted as if
    it were not listed. *)
Theorem get_folder_size_contract (fs : FileSystem) (p : path) :
  (exists total, get_folder_size (root fs) p = Ok total /\ 0 <= total)
  /\ (forall size entries,
        lookup (root fs) p = Some (Dir size true entries) ->
        all_accessible (Dir size true entries) = true ->
        get_folder_size (root fs) p
        = Ok (regular_bytes (Dir size true entries)
              + linked_bytes (Dir size true entries))
        /\ (link_free (Dir size true entries) = true ->
            get_folder_size (root fs) p
            = Ok (regular_bytes (Dir size true entries))))
  /\ (forall size entries,
        lookup (root fs) p = Some (Dir size false entries) ->
        get_folder_size (root fs) p = Ok 0)
  /\ (lookup (root fs) p = None -> get_folder_size (root fs) p = Ok 0)
  /\ (forall n,
        lookup (root fs) p = Some n ->
        get_folder_size (root fs) p = Ok (walk_bytes n))
  /\ (forall size before name n st after,
        lookup (root fs) p
        = Some (Dir size true (before ++ (name, n) :: after)%list) ->
        resolve n = File st ->
        (st = Absent \/ exists k, st = Vanishing k) ->
        get_folder_size (root fs) p
        = Ok (walk_bytes (Dir size true (before ++ after)%list))).
Proof.
  pose proof (get_folder_size_walk (root fs) p (root_wf fs)) as G.
  split; [|split; [|split; [|split; [|split]]]].
  - destruct (get_folder_size_bounded fs p) as (total & E & H).
    exists total. split; [assumption|lia].
  - intros size entries E Hacc. rewrite G, E.
    pose proof (walk_bytes_accessible _ Hacc) as Hw.
    change (entry_file_bytes (Dir size true entries)) with 0 in Hw.
    split; [f_equal; lia|].
    intros Hfree. f_equal. rewrite (link_free_bytes _ Hfree) in Hw. lia.
  - intros size entries E. now rewrite G, E.
  - intros E. now rewrite G, E.
  - intros n E. now rewrite G, E.
  - intros size before name n st after E Hn Hst. rewrite G, E. f_equal.
    cbn [walk_bytes]. rewrite !map_app, !zsum_app. cbn [map snd zsum fold_right].
    assert (entry_file_bytes n = 0) as ->.
    { unfold entry_file_bytes. rewrite Hn.
      destruct Hst as [->|[k ->]]; reflexivity. }
    assert (walk_bytes n = 0) as ->.
    { destruct n as [st'|size' r' entries'|target];
        [reflexivity|discriminate Hn|reflexivity]. }
    unfold zsum. lia.
Qed.

Lemma get_folder_size_contract_witness :
  get_folder_size (root demo_fs) ["work"; "A"] = Ok 1120.
Proof.
  exact (proj2 (proj1 (proj2 (get_folder_size_contract demo_fs ["work"; "A"]))
                  4096%N
                  [("pubspec.yaml", File (Present 120));
                   ("build", Dir 4096 true [("app.bin", File (Present 1000))])]
                  eq_refl eq_refl) eq_refl).
Defined.

(** C3 as stated fails on a folder that holds a link to a file: the
    folder [T] of [linked_fs] holds one regular file of 1000 bytes, every
    file can be measured, and 7000 bytes are measured. *)
Lemma get_folder_size_follows_links :
  lookup (root linked_fs) ["T"] = Some linked_folder
  /\ all_accessible linked_folder = true
  /\ regular_bytes linked_folder = 1000
  /\ get_folder_size (root linked_fs) ["T"] = Ok 7000
  /\ get_folder_size (root linked_fs) ["T"]
     <> Ok (regular_bytes linked_folder).
Proof. repeat split. discriminate. Qed.

(** The folder that the link [dirlink] leads to is not entered from [T],
    and it is walked when the path of the link is the one to measure. *)
Example get_folder_size_at_a_link :
  os_walk (root linked_fs) ["T"]
  = [(["T"], ["dirlink"; "sub"], ["a.bin"; "link_out"]);
     (["T"; "sub"], [], [])]
  /\ get_folder_size (root linked_fs) ["T"; "dirlink"] = Ok 300.
Proof. split; reflexivity. Qed.

(** ** is_flutter_project *)

Lemma is_flutter_project_has_marker (fs : node) (dir : path) (n : node) :
  lookup fs dir = Some n -> is_flutter_project fs dir = has_marker n.
Proof.
  intros H.
  unfold is_flutter_project, os_path_exists, os_path_join, has_marker.
  rewrite lookup_app, H. simpl.
  destruct (resolve n) as [st|size r entries|target]; try reflexivity.
  destruct (entry_lookup "pubspec.yaml" entries) as [marker|];
    [apply node_exists_resolve|reflexivity].
Qed.

(** C6.  [is_flutter_project fs dir] is true if and only if [dir] is a
    directory that lists an entry [pubspec.yaml] that exists, the entry
    being its own and not one of a folder below; it is the same for two
    directories that agree on that entry, whatever else they hold; and
    without such an entry, or without the directory, it is false, nothing
    being raised. *)
Theorem is_flutter_project_contract (fs : node) (dir : path) :
  (is_flutter_project fs dir = true <->
   exists size readable entries marker,
     lookup fs dir = Some (Dir size readable entries)
     /\ entry_lookup "pubspec.yaml" entries = Some marker
     /\ node_exists marker = true)
  /\ (forall fs' dir' size readable entries size' readable' entries',
        lookup fs dir = Some (Dir size readable entries) ->
        lookup fs' dir' = Some (Dir size' readable' entries') ->
        entry_lookup "pubspec.yaml" entries
        = entry_lookup "pubspec.yaml" entries' ->
        is_flutter_project fs dir = is_flutter_project fs' dir')
  /\ (forall size readable entries,
        lookup fs dir = Some (Dir size readable entries) ->
        entry_lookup "pubspec.yaml" entries = None ->
        is_flutter_project fs dir = false)
  /\ (lookup fs dir = None -> is_flutter_project fs dir = false).
Proof.
  repeat split.
  - intros H. destruct (lookup fs dir) as [n|] eqn:E.
    + rewrite (is_flutter_project_has_marker _ _ _ E) in H.
      destruct n as [st|size r entries|target];
        [discriminate| |destruct (lookup_not_link _ _ _ E)].
      unfold has_marker in H. simpl in H.
      destruct (entry_lookup "pubspec.yaml" entries) as [marker|] eqn:Em;
        [|discriminate].
      now exists size, r, entries, marker.
    + unfold is_flutter_project, os_path_exists, os_path_join in H.
      rewrite lookup_app, E in H. discriminate.
  - intros (size & r & entries & marker & E & Em & Hex).
    rewrite (is_flutter_project_has_marker _ _ _ E). unfold has_marker. simpl. now rewrite Em.
  - intros fs' dir' size r entries size' r' entries' E E' Hm.
    rewrite (is_flutter_project_has_marker _ _ _ E),
      (is_flutter_project_has_marker _ _ _ E'). unfold has_marker. simpl.
    now rewrite Hm.
  - intros size r entries E Hm.
    rewrite (is_flutter_project_has_marker _ _ _ E). unfold has_marker. simpl. now rewrite Hm.
  - intros E. unfold is_flutter_project, os_path_exists, os_path_join.
    now rewrite lookup_app, E.
Qed.

Lemma is_flutter_project_contract_witness :
  is_flutter_project demo_root ["work"; "A"] = true
  /\ is_flutter_project demo_root ["work"; "B"] = false.
Proof.
  split.
  - apply (proj2 (proj1 (is_flutter_project_contract demo_root ["work"; "A"]))).
    exists 4096%N, true,
      [("pubspec.yaml", File (Present 120));
       ("build", Dir 4096 true [("app.bin", File (Present 1000))])],
      (File (Present 120)).
    repeat split; reflexivity.
  - apply (proj1 (proj2 (proj2
             (is_flutter_project_contract demo_root ["work"; "B"])))
             4096%N true
             [("README.md", File (Present 10));
              ("nested", Dir 4096 true
                           [("pubspec.yaml", File (Present 3))])]);
      reflexivity.
Defined.

(** ** Discovery *)

Section Discovery.

Context {Env : Type}.

Lemma emit_all_nil (s : State Env) : emit_all [] s = s.
Proof. destruct s. unfold emit_all. simpl. now rewrite app_nil_r. Qed.

Lemma emit_all_app (a b : list Event) (s : State Env) :
  emit_all (a ++ b) s = emit_all b (emit_all a s).
Proof. unfold emit_all. simpl. now rewrite app_assoc. Qed.

Lemma emit_emit_all (ev : Event) (s : State Env) :
  emit Env ev s = emit_all [ev] s.
Proof. reflexivity. Qed.

Lemma discover_item_keeps (parent_folder : path) (found : list path)
  (item : string) (s : State Env) :
  discover_item Env parent_folder found item s
  = if keeps (root (fs (world s))) parent_folder item
    then (emit Env (Printed (MsgFound item)) s,
          Ok (found ++ [os_path_join parent_folder item])%list)
    else (s, Ok found).
Proof.
  unfold discover_item, bind, with_fs, ret, print, keeps.
  destruct (os_path_isdir _ _); simpl; [|reflexivity].
  destruct (startswith "." item); simpl; [reflexivity|].
  destruct (is_flutter_project _ _); reflexivity.
Qed.

(** The loop over the items keeps the items that pass the test, in their
    order, and prints one line for each. *)
Lemma discover_loop (parent_folder : path) (items : list string) :
  forall (found : list path) (s : State Env),
    for_M Env (discover_item Env parent_folder) found items s
    = (emit_all
         (map (fun item => Printed (MsgFound item))
            (filter (keeps (root (fs (world s))) parent_folder) items)) s,
       Ok (found
           ++ map (os_path_join parent_folder)
                (filter (keeps (root (fs (world s))) parent_folder) items))%list).
Proof.
  induction items as [|item items IH]; intros found s.
  - simpl. now rewrite emit_all_nil, app_nil_r.
  - cbn [for_M filter]. unfold bind at 1.
    rewrite discover_item_keeps.
    destruct (keeps (root (fs (world s))) parent_folder item).
    + rewrite IH. simpl world.
      rewrite emit_emit_all, <- emit_all_app. simpl.
      now rewrite <- app_assoc.
    + apply IH.
Qed.

End Discovery.

Lemma keeps_keeps_entry (fs : node) (parent_folder : path) size r entries :
  lookup fs parent_folder = Some (Dir size r entries) ->
  nodupb (map fst entries) = true ->
  forall e, In e entries -> keeps fs parent_folder (fst e) = keeps_entry e.
Proof.
  intros Hp Hnd [name n] Hin. unfold keeps, keeps_entry, os_path_isdir.
  cbn [fst snd].
  assert (lookup fs (os_path_join parent_folder name) = Some (resolve n))
    as E.
  { rewrite (lookup_join fs parent_folder name size r entries Hp).
    now rewrite (entry_lookup_nodup entries name n Hnd Hin). }
  now rewrite E, (is_flutter_project_has_marker _ _ _ E), is_dir_resolve,
    has_marker_resolve.
Qed.

Lemma filter_keeps_entries (fs : node) (parent_folder : path)
  (entries : list (string * node)) :
  (forall e, In e entries -> keeps fs parent_folder (fst e) = keeps_entry e) ->
  map (os_path_join parent_folder)
    (filter (keeps fs parent_folder) (map fst entries))
  = map (fun e => os_path_join parent_folder (fst e))
      (filter keeps_entry entries).
Proof.
  induction entries as [|e entries IH]; intros H; [reflexivity|].
  simpl. rewrite (H e) by now left.
  destruct (keeps_entry e); simpl; rewrite IH; auto;
    intros; apply H; now right.
Qed.

Lemma discover_projects_listed {Env : Type} (s : State Env)
  (parent_folder : path) (items : list string) :
  os_listdir (root (fs (world s))) parent_folder = Ok items ->
  discover_projects Env parent_folder s
  = (emit_all
       (map (fun item => Printed (MsgFound item))
          (filter (keeps (root (fs (world s))) parent_folder) items)) s,
     Ok (map (os_path_join parent_folder)
           (filter (keeps (root (fs (world s))) parent_folder) items))).
Proof.
  intros H. unfold discover_projects, bind, with_fs, lift.
  rewrite H. now rewrite discover_loop.
Qed.

(** C5.  Discovery looks at the names that the parent folder lists and at
    nothing below them: it returns, in the order of the listing, the path
    of every name that is a directory, does not begin with a point and
    passes [is_flutter_project], and of no other.  On a volume these are
    the entries of the parent that are directories, do not begin with a
    point and hold a [pubspec.yaml] of their own.  With the children [A]
    (marker), [B] (no marker), [.hidden] (marker) and [C] (a file) it
    returns [A] alone. *)
Theorem discovery_contract {Env : Type} (s : State Env)
  (parent_folder : path) :
  (forall items,
     os_listdir (root (fs (world s))) parent_folder = Ok items ->
     discover_projects Env parent_folder s
     = (emit_all
          (map (fun item => Printed (MsgFound item))
             (filter (keeps (root (fs (world s))) parent_folder) items)) s,
        Ok (map (os_path_join parent_folder)
              (filter (fun item =>
                         os_path_isdir (root (fs (world s)))
                           (os_path_join parent_folder item)
                         && negb (startswith "." item)
                         && is_flutter_project (root (fs (world s)))
                              (os_path_join parent_folder item))
                 items))))
  /\ (forall size entries,
        lookup (root (fs (world s))) parent_folder
        = Some (Dir size true entries) ->
        snd (discover_projects Env parent_folder s)
        = Ok (map (fun e => os_path_join parent_folder (fst e))
                (filter (fun e =>
                           is_dir (snd e)
                           && negb (startswith "." (fst e))
                           && has_marker (snd e))
                   entries)))
  /\ (root (fs (world s)) = demo_root ->
      snd (discover_projects Env ["work"] s) = Ok [["work"; "A"]]).
Proof.
  split; [|split].
  - intros items H. now apply discover_projects_listed.
  - intros size entries H.
    assert (os_listdir (root (fs (world s))) parent_folder
            = Ok (map fst entries)) as Hl.
    { unfold os_listdir. now rewrite H. }
    rewrite (discover_projects_listed _ _ _ Hl). cbn [snd]. f_equal.
    apply filter_keeps_entries.
    apply (keeps_keeps_entry _ _ _ _ _ H).
    assert (wf_node (Dir size true entries) = true) as Hwf.
    { apply (lookup_wf parent_folder (root (fs (world s)))); [|assumption].
      apply root_wf. }
    apply (wf_node_entries _ _ _ Hwf).
  - intros H.
    assert (os_listdir (root (fs (world s))) ["work"]
            = Ok ["A"; "B"; ".hidden"; "C"]) as Hl.
    { rewrite H. reflexivity. }
    rewrite (discover_projects_listed _ _ _ Hl). cbn [snd].
    rewrite H. reflexivity.
Qed.

Lemma discovery_contract_witness :
  snd (discover_projects unit ["work"] (demo_state [])) = Ok [["work"; "A"]].
Proof.
  exact (proj2 (proj2 (discovery_contract (demo_state []) ["work"])) eq_refl).
Defined.

(** ** clean_flutter_project *)

Lemma invocations_app (a b : list Event) :
  invocations (a ++ b) = (invocations a ++ invocations b)%list.
Proof.
  induction a as [|ev a IH]; [reflexivity|].
  destruct ev; simpl; now rewrite IH.
Qed.

Lemma inputs_app (a b : list Event) :
  inputs (a ++ b) = (inputs a ++ inputs b)%list.
Proof.
  induction a as [|ev a IH]; [reflexivity|].
  destruct ev; simpl; now rewrite IH.
Qed.

(** Ends a case of a run: the state is the one computed, and its trace
    shows the invocation. *)
Ltac finish_run :=
  eexists; repeat split; try reflexivity; try assumption; try lia;
  cbn [out emit]; rewrite ?invocations_app, ?inputs_app; simpl;
  now rewrite ?app_nil_r.

Section CleanOne.

Context {Env : Type}.
Variable spawn : list string -> path -> World Env -> World Env * Res ProcessExit.

(** A call of [clean_flutter_project]: the two measures succeed, the
    command is run once, and the end of the child process decides the
    rest. *)
Lemma clean_flutter_project_run (project_path : path) (use_fvm : bool)
  (s : State Env) (w' : World Env) (r : Res ProcessExit) :
  spawn (clean_command use_fvm) project_path (world s) = (w', r) ->
  exists before after s',
    get_folder_size (root (fs (world s))) project_path = Ok before
    /\ 0 <= before < 2 ^ 64
    /\ get_folder_size (root (fs w')) project_path = Ok after
    /\ 0 <= after < 2 ^ 64
    /\ clean_flutter_project Env spawn project_path use_fvm s
       = (s', outcome_of r before after)
    /\ stdin s' = stdin s
    /\ world s' = w'
    /\ invocations (out s')
       = (invocations (out s) ++ [(clean_command use_fvm, project_path)])%list
    /\ inputs (out s') = inputs (out s).
Proof.
  intros Hsp.
  destruct (get_folder_size_bounded (fs (world s)) project_path)
    as (before & Hb & Bb).
  destruct (get_folder_size_bounded (fs w') project_path)
    as (after & Ha & Ba).
  assert (2 ^ 64 < 2 ^ 1024 - 2 ^ 970) as Hc by reflexivity.
  destruct (format_size_ok before) as (tb & Htb); [lia|].
  destruct (format_size_ok after) as (ta & Hta); [lia|].
  destruct (format_size_ok (before - after)) as (ts & Hts); [lia|].
  exists before, after.
  unfold clean_flutter_project, try_except, bind, print, with_fs, lift, ret,
    subprocess_run.
  cbn [emit world stdin out].
  rewrite Hb, Htb.
  fold (clean_command use_fvm). rewrite Hsp.
  destruct r as [result|e]; cbn [outcome_of].
  - destruct (returncode result =? 0).
    + cbn [emit world stdin out fs]. rewrite Ha, Hta, Hts.
      destruct (nonempty (strip (stdout result)));
        finish_run.
    + destruct (nonempty (stderr result));
        finish_run.
  - destruct e as [k|code err| | | | |msg];
      try finish_run.
    + destruct k;
        try finish_run.
      destruct use_fvm;
        finish_run.
    + destruct (nonempty err);
        finish_run.
Qed.

End CleanOne.

Section CleanOneContract.

Context {Env : Type}.
Variable spawn : list string -> path -> World Env -> World Env * Res ProcessExit.

(** C1 (as amended).  For every project path and mode
    [clean_flutter_project] measures the folder before and after the
    command; when the command ends with status 0 it returns success with
    [size_before], [size_after] and [size_saved = size_before - size_after]
    (negative when the folder grew); when the command ends with another
    status, or cannot be found, it returns failure with the three sizes 0.
    Any other exception raised when the command is started is not caught:
    it leaves [clean_flutter_project]. *)
Theorem clean_flutter_project_contract (project_path : path)
  (use_fvm : bool) (s : State Env) (w' : World Env) (r : Res ProcessExit) :
  spawn (if use_fvm then ["fvm"; "flutter"; "clean"]
         else ["flutter"; "clean"]) project_path (world s) = (w', r) ->
  exists before after,
    get_folder_size (root (fs (world s))) project_path = Ok before
    /\ get_folder_size (root (fs w')) project_path = Ok after
    /\ (forall exit,
          r = Ok exit -> returncode exit = 0 ->
          snd (clean_flutter_project Env spawn project_path use_fvm s)
          = Ok {| success := true; size_before := before;
                  size_after := after; size_saved := before - after |})
    /\ (forall exit,
          r = Ok exit -> returncode exit <> 0 ->
          snd (clean_flutter_project Env spawn project_path use_fvm s)
          = Ok {| success := false; size_before := 0; size_after := 0;
                  size_saved := 0 |})
    /\ (r = Raise (OSError FileNotFoundError) ->
        snd (clean_flutter_project Env spawn project_path use_fvm s)
        = Ok {| success := false; size_before := 0; size_after := 0;
                size_saved := 0 |})
    /\ (forall e,
          r = Raise e ->
          is_CalledProcessError e = false ->
          is_FileNotFoundError e = false ->
          snd (clean_flutter_project Env spawn project_path use_fvm s)
          = Raise e).
Proof.
  intros Hsp.
  destruct (clean_flutter_project_run spawn project_path use_fvm s w' r Hsp)
    as (before & after & s' & Hb & _ & Ha & _ & Hrun & _).
  exists before, after. rewrite Hrun. cbn [snd].
  repeat split; try assumption.
  - intros exit -> Hz. simpl. now rewrite Hz.
  - intros exit -> Hz. simpl. apply Z.eqb_neq in Hz. now rewrite Hz.
  - intros ->. reflexivity.
  - intros e -> H1 H2. destruct e as [k| | | | | |]; try reflexivity;
      try discriminate. destruct k; try reflexivity; discriminate.
Qed.

End CleanOneContract.

Lemma clean_flutter_project_contract_witness :
  demo_spawn ["fvm"; "flutter"; "clean"] ["work"; "A"]
    (world (demo_state []))
  = ({| fs := demo_fs_cleaned; env := tt |},
     Ok {| returncode := 0; stdout := "Deleting build..."; stderr := EmptyString |})
  /\ snd (clean_flutter_project unit demo_spawn ["work"; "A"] true
            (demo_state []))
     = Ok {| success := true; size_before := 1120; size_after := 120;
             size_saved := 1000 |}.
Proof.
  split; [reflexivity|].
  destruct (clean_flutter_project_contract demo_spawn ["work"; "A"] true
              (demo_state []) _ _ eq_refl)
    as (before & after & Hb & Ha & Hok & _).
  rewrite (Hok _ eq_refl eq_refl).
  vm_compute in Hb. vm_compute in Ha.
  inversion Hb. inversion Ha. reflexivity.
Defined.

(** C1 as stated fails: when the command cannot be started because
    permission is denied, the exception leaves [clean_flutter_project]. *)
Lemma clean_flutter_project_propagates :
  snd (demo_spawn_denied ["fvm"; "flutter"; "clean"] ["work"; "A"]
         (world (demo_state [])))
  = Raise (OSError PermissionError)
  /\ snd (clean_flutter_project unit demo_spawn_denied ["work"; "A"] true
            (demo_state []))
     = Raise (OSError PermissionError).
Proof. split; vm_compute; reflexivity. Qed.

(** A folder that grew: the size saved is negative. *)
Example clean_flutter_project_grew :
  snd (clean_flutter_project unit demo_spawn ["work"; ".hidden"] false
         (demo_state []))
  = Ok {| success := true; size_before := 5; size_after := 2005;
          size_saved := -2000 |}.
Proof. vm_compute. reflexivity. Qed.

(** ** The loop over the projects *)

Lemma outcome_of_consistent (r : Res ProcessExit) (before after : Z)
  (o : CleanOutcome) :
  outcome_of r before after = Ok o ->
  size_saved o = size_before o - size_after o.
Proof.
  unfold outcome_of. intros H.
  destruct r as [exit|e].
  - destruct (returncode exit =? 0); inversion H; reflexivity.
  - destruct e as [k| | | | | |]; try discriminate;
      [destruct k; try discriminate|]; inversion H; reflexivity.
Qed.

Lemma outcome_of_raise (r : Res ProcessExit) (before after : Z) (e : PyExn) :
  outcome_of r before after = Raise e ->
  r = Raise e /\ handled r = false.
Proof.
  unfold outcome_of. intros H.
  destruct r as [exit|e'].
  - destruct (returncode exit =? 0); discriminate.
  - destruct e' as [k| | | | | |]; try discriminate;
      try (inversion H; subst; split; reflexivity).
    destruct k; try discriminate; inversion H; subst; split; reflexivity.
Qed.

Lemma add_outcome_consistent (t : BatchTotals) (o : CleanOutcome) (k : nat) :
  totals_consistent t k ->
  size_saved o = size_before o - size_after o ->
  totals_consistent (add_outcome t o) (S k).
Proof.
  unfold totals_consistent, add_outcome. intros [H1 H2] Ho. simpl.
  destruct (success o); lia.
Qed.

Section Loop.

Context {Env : Type}.
Variable spawn : list string -> path -> World Env -> World Env * Res ProcessExit.

Lemma for_M_app {A S : Type} (body : S -> A -> M Env S) (l1 l2 : list A) :
  forall (acc : S) (s : State Env),
    for_M Env body acc (l1 ++ l2) s
    = bind Env (for_M Env body acc l1) (fun acc' => for_M Env body acc' l2) s.
Proof.
  induction l1 as [|x l1 IH]; intros acc s; [reflexivity|].
  cbn [for_M app]. unfold bind.
  destruct (body acc x s) as [s1 [acc1|e]]; [|reflexivity].
  rewrite IH. reflexivity.
Qed.

(** One round of the loop. *)
Lemma clean_one_run (use_fvm : bool) (count i : nat) (t : BatchTotals)
  (project_path : path) (s : State Env) :
  exists before after s',
    clean_one Env spawn use_fvm count (i, t) project_path s
    = (s',
       match outcome_of (snd (spawn (clean_command use_fvm) project_path
                                (world s))) before after with
       | Ok o => Ok (S i, add_outcome t o)
       | Raise e => Raise e
       end)
    /\ stdin s' = stdin s
    /\ world s' = fst (spawn (clean_command use_fvm) project_path (world s))
    /\ invocations (out s')
       = (invocations (out s) ++ [(clean_command use_fvm, project_path)])%list
    /\ inputs (out s') = inputs (out s).
Proof.
  destruct (spawn (clean_command use_fvm) project_path (world s))
    as [w' r] eqn:Hsp.
  destruct (clean_flutter_project_run spawn project_path use_fvm
              (emit Env (Printed (MsgProcessing i count)) s) w' r Hsp)
    as (before & after & s' & _ & _ & _ & _ & Hrun & Hin & Hw & Hinv & Hinp).
  exists before, after, s'.
  unfold clean_one, bind, print, ret. rewrite Hrun. cbn [snd fst].
  repeat split; try assumption.
  - destruct (outcome_of r before after); reflexivity.
  - rewrite Hinv. cbn [out emit]. rewrite invocations_app. simpl.
    now rewrite app_nil_r.
  - rewrite Hinp. cbn [out emit]. rewrite inputs_app. simpl.
    now rewrite app_nil_r.
Qed.

(** The loop from any point: the invariant is kept to the end; the
    command is run on the projects in order, on all of them when the
    loop ends and up to the one whose call raised otherwise. *)
Lemma clean_loop_run (use_fvm : bool) (count : nat) (projects : list path) :
  forall (i k : nat) (t : BatchTotals) (s : State Env),
    totals_consistent t k ->
    exists s' res,
      clean_loop Env spawn use_fvm count i t projects s = (s', res)
      /\ (stdin s' = stdin s /\ inputs (out s') = inputs (out s))
      /\ match res with
         | Ok (i', t') =>
             i' = (i + List.length projects)%nat
             /\ totals_consistent t' (k + List.length projects)
             /\ invocations (out s')
                = (invocations (out s)
                   ++ map (fun p => (clean_command use_fvm, p)) projects)%list
         | Raise e =>
             exists done p rest w,
               projects = (done ++ p :: rest)%list
               /\ handled (snd (spawn (clean_command use_fvm) p w)) = false
               /\ snd (spawn (clean_command use_fvm) p w) = Raise e
               /\ invocations (out s')
                  = (invocations (out s)
                     ++ map (fun p => (clean_command use_fvm, p))
                          (done ++ [p]))%list
         end.
Proof.
  induction projects as [|p projects IH]; intros i k t s Ht.
  - exists s, (Ok (i, t)). split; [reflexivity|]. split; [now split|].
    simpl. rewrite !Nat.add_0_r, app_nil_r. repeat split; apply Ht.
  - destruct (clean_one_run use_fvm count i t p s)
      as (before & after & s1 & Hone & Hin1 & Hw1 & Hinv1 & Hinp1).
    unfold clean_loop in *. cbn [for_M]. unfold bind. rewrite Hone.
    destruct (outcome_of _ before after) as [o|e] eqn:Ho.
    + pose proof (add_outcome_consistent t o k Ht
                    (outcome_of_consistent _ _ _ _ Ho)) as Ht'.
      destruct (IH (S i) (S k) (add_outcome t o) s1 Ht')
        as (s' & res & Hrun & [Hin Hinp] & Hres).
      exists s', res. rewrite Hrun.
      split; [reflexivity|]. split; [split; congruence|].
      destruct res as [[i' t']|e].
      * destruct Hres as (Hi & Hc & Hinv). cbn [List.length].
        repeat split.
        -- lia.
        -- replace (k + S (List.length projects))%nat
             with (S k + List.length projects)%nat by lia. apply Hc.
        -- replace (k + S (List.length projects))%nat
             with (S k + List.length projects)%nat by lia. apply Hc.
        -- rewrite Hinv, Hinv1. simpl. now rewrite <- app_assoc.
      * destruct Hres as (done & p' & rest & w & Hp & Hh & He & Hinv).
        exists (p :: done), p', rest, w. repeat split; try assumption.
        -- simpl. now rewrite Hp.
        -- rewrite Hinv, Hinv1. simpl. now rewrite <- app_assoc.
    + exists s1, (Raise e).
      split; [reflexivity|]. split; [now split|].
      destruct (outcome_of_raise _ _ _ _ Ho) as [He Hh].
      exists [], p, projects, (world s). repeat split; try assumption.
Qed.

Lemma fold_outcomes_consistent (results : list CleanOutcome) :
  Forall (fun result =>
            size_saved result = size_before result - size_after result)
    results ->
  forall (t : BatchTotals) (k : nat),
    totals_consistent t k ->
    totals_consistent (fold_left add_outcome results t)
      (k + List.length results).
Proof.
  induction 1 as [|o results Ho Hall IH]; intros t k Ht; simpl.
  - now rewrite Nat.add_0_r.
  - replace (k + S (List.length results))%nat
      with (S k + List.length results)%nat by lia.
    apply IH. now apply add_outcome_consistent.
Qed.

(** C2.  The state of the loop over the projects after the rounds for
    [done] is the result of the loop over [done] alone, and in that state
    [total_size_saved = total_size_before - total_size_after] and
    [successful_cleans + failed_cleans] is the number of the projects
    processed, whatever the results of the projects were: every result
    that [clean_flutter_project] returns has
    [size_saved = size_before - size_after], and the totals of every
    sequence of such results are consistent. *)
Theorem batch_totals_invariant (use_fvm : bool) (count : nat)
  (done rest : list path) (s : State Env) :
  clean_loop Env spawn use_fvm count 1 no_totals (done ++ rest) s
  = bind Env (clean_loop Env spawn use_fvm count 1 no_totals done)
      (fun acc => clean_loop Env spawn use_fvm count (fst acc) (snd acc) rest)
      s
  /\ (forall s' i t,
        clean_loop Env spawn use_fvm count 1 no_totals done s
        = (s', Ok (i, t)) ->
        total_size_saved t = total_size_before t - total_size_after t
        /\ successful_cleans t + failed_cleans t
           = Z.of_nat (List.length done)
        /\ i = S (List.length done))
  /\ (forall project_path s0 s1 result,
        clean_flutter_project Env spawn project_path use_fvm s0
        = (s1, Ok result) ->
        size_saved result = size_before result - size_after result)
  /\ (forall results : list CleanOutcome,
        Forall (fun result =>
                  size_saved result
                  = size_before result - size_after result) results ->
        let t := fold_left add_outcome results no_totals in
        total_size_saved t = total_size_before t - total_size_after t
        /\ successful_cleans t + failed_cleans t
           = Z.of_nat (List.length results)).
Proof.
  split; [|split; [|split]].
  - unfold clean_loop. rewrite for_M_app. unfold bind.
    destruct (for_M Env _ _ done s) as [s1 [[i t]|e]]; reflexivity.
  - intros s' i t H.
    assert (totals_consistent no_totals 0) as H0 by (split; reflexivity).
    destruct (clean_loop_run use_fvm count done 1 0 no_totals s H0)
      as (s1 & res & Hrun & _ & Hres).
    rewrite H in Hrun. inversion Hrun; subst.
    destruct Hres as (Hi & [Hc1 Hc2] & _). repeat split; try assumption.
  - intros p s0 s1 o H.
    destruct (spawn (clean_command use_fvm) p (world s0)) as [w' r] eqn:Hsp.
    destruct (clean_flutter_project_run spawn p use_fvm s0 w' r Hsp)
      as (before & after & s2 & _ & _ & _ & _ & Hrun & _).
    rewrite H in Hrun. inversion Hrun as [[Hs Ho]].
    symmetry in Ho. apply (outcome_of_consistent _ _ _ _ Ho).
  - intros results Hall.
    apply (fold_outcomes_consistent results Hall no_totals 0).
    split; reflexivity.
Qed.

End Loop.

Lemma batch_totals_invariant_witness :
  exists s' i t,
    clean_loop unit demo_spawn true 2 1 no_totals
      [["work"; "A"]; ["work"; ".hidden"]] (demo_state [])
    = (s', Ok (i, t))
    /\ total_size_saved t = total_size_before t - total_size_after t
    /\ successful_cleans t + failed_cleans t = 2
    /\ i = 3%nat.
Proof.
  destruct (clean_loop unit demo_spawn true 2 1 no_totals
              [["work"; "A"]; ["work"; ".hidden"]] (demo_state []))
    as [s' [[i t]|e]] eqn:E.
  - exists s', i, t. split; [reflexivity|].
    exact (proj1 (proj2 (batch_totals_invariant demo_spawn true 2
                           [["work"; "A"]; ["work"; ".hidden"]] []
                           (demo_state [])))
             s' i t E).
  - exfalso. vm_compute in E. discriminate E.
Defined.

(** ** The summary *)

Lemma format_size_raises (n : Z) (e : PyExn) :
  format_size n = Raise e -> e = OverflowError.
Proof.
  unfold format_size, float_of_int.
  destruct (n =? 0); [discriminate|].
  destruct (2 ^ 1024 <=? Z.abs (round_to_binary64 n)).
  - intros H. now inversion H.
  - destruct (convert_loop _ _ _) as [size k].
    destruct (k =? 0)%nat; discriminate.
Qed.

Lemma format_size_range (n : Z) (text : string) :
  format_size n = Ok text -> Z.abs n < 2 ^ 1024 - 2 ^ 970.
Proof.
  intros H. destruct (Z_lt_le_dec (Z.abs n) (2 ^ 1024 - 2 ^ 970)) as [|Hge];
    [assumption|exfalso].
  unfold format_size in H.
  assert (0 < 2 ^ 1024 - 2 ^ 970) as Hpos by reflexivity.
  destruct (Z.eqb_spec n 0) as [->|_]; [simpl in Hge; lia|].
  rewrite (float_of_int_overflow n Hge) in H. discriminate H.
Qed.

(** ** Rounding to binary64 *)

Lemma pow2_pos (k : Z) : (0 < 2 ^ k)%Q.
Proof. apply Qpower_0_lt. reflexivity. Qed.

Lemma pow2_plus (a b : Z) : (2 ^ (a + b) == 2 ^ a * 2 ^ b)%Q.
Proof. apply Qpower_plus. discriminate. Qed.

Lemma pow2_le (a b : Z) : a <= b -> (2 ^ a <= 2 ^ b)%Q.
Proof. intros H. apply Qpower_le_compat_l; [exact H|discriminate]. Qed.

Lemma pow2_lt_inv (a b : Z) : (2 ^ a < 2 ^ b)%Q -> a < b.
Proof. intros H. apply (Qpower_lt_compat_l_inv 2); [exact H|reflexivity]. Qed.

Lemma pow2_inject (k : Z) : 0 <= k -> (inject_Z (2 ^ k) == 2 ^ k)%Q.
Proof. intros H. now apply Zpower_Qpower. Qed.

(** [exponent_of] is the exponent. *)
Lemma exponent_of_spec (x : Q) :
  (0 < x)%Q ->
  (2 ^ exponent_of x <= x)%Q /\ (x < 2 ^ (exponent_of x + 1))%Q.
Proof.
  intros Hx. unfold exponent_of.
  set (ln := Z.log2 (Qnum x)). set (ld := Z.log2 (Z.pos (Qden x))).
  set (k := ln - ld).
  assert (0 < Qnum x) as Hn by (unfold Qlt in Hx; simpl in Hx; lia).
  destruct (Z.log2_spec (Qnum x) Hn) as [Hn1 Hn2]. fold ln in Hn1, Hn2.
  destruct (Z.log2_spec (Z.pos (Qden x)) (Pos2Z.is_pos _)) as [Hd1 Hd2].
  fold ld in Hd1, Hd2.
  assert (0 <= ln) as Hln by apply Z.log2_nonneg.
  assert (0 <= ld) as Hld by apply Z.log2_nonneg.
  set (N := inject_Z (Qnum x)). set (D := inject_Z (Z.pos (Qden x))).
  set (A := (2 ^ ln)%Q). set (B := (2 ^ ld)%Q). set (P := (2 ^ k)%Q).
  assert (x * D == N)%Q as HxD.
  { unfold D, N. destruct x as [n d]. unfold Qeq. simpl.
    rewrite ?Pos2Z.inj_mul. ring. }
  assert (P * B == A)%Q as HPB.
  { unfold P, B, A. rewrite <- pow2_plus. unfold k.
    now replace (ln - ld + ld) with ln by ring. }
  assert (A <= N /\ N < 2 * A)%Q as [HA1 HA2].
  { unfold A, N. rewrite <- (pow2_inject ln Hln). split.
    - now rewrite <- Zle_Qle.
    - change 2%Q with (inject_Z 2). rewrite <- inject_Z_mult, <- Zlt_Qlt.
      replace (2 * 2 ^ ln) with (2 ^ Z.succ ln)
        by (rewrite Z.pow_succ_r by assumption; ring).
      exact Hn2. }
  assert (B <= D /\ D < 2 * B)%Q as [HB1 HB2].
  { unfold B, D. rewrite <- (pow2_inject ld Hld). split.
    - now rewrite <- Zle_Qle.
    - change 2%Q with (inject_Z 2). rewrite <- inject_Z_mult, <- Zlt_Qlt.
      replace (2 * 2 ^ ld) with (2 ^ Z.succ ld)
        by (rewrite Z.pow_succ_r by assumption; ring).
      exact Hd2. }
  assert (0 < P)%Q as HP by apply pow2_pos.
  assert (0 < B)%Q as HB by apply pow2_pos.
  assert (2 ^ (k + 1) == 2 * P)%Q as Hsucc.
  { rewrite pow2_plus. unfold P. change (2 ^ 1)%Q with 2%Q. ring. }
  assert (2 ^ (k - 1) == P * (1 # 2))%Q as Hpred.
  { unfold Z.sub. rewrite pow2_plus. reflexivity. }
  destruct (Qle_bool P x) eqn:Hc.
  - apply Qle_bool_iff in Hc. split; [exact Hc|].
    rewrite Hsucc. apply Qnot_le_lt. intros Hge.
    assert (0 <= (x - 2 * P) * D)%Q as H1
        by (apply Qmult_le_0_compat; lra).
    assert (0 <= P * (D - B))%Q as H2
        by (apply Qmult_le_0_compat; lra).
    lra.
  - apply Qle_bool_false in Hc.
    replace (k - 1 + 1) with k by ring. fold P.
    split; [|exact Hc].
    rewrite Hpred. apply Qnot_lt_le. intros Hlt.
    assert (0 <= (P * (1 # 2) - x) * D)%Q as H1
        by (apply Qmult_le_0_compat; lra).
    assert (0 < P * (2 * B - D))%Q as H2
        by (apply Qmult_lt_0_compat; lra).
    lra.
Qed.

Lemma ulp_pos (x : Q) : (0 < ulp x)%Q.
Proof. apply pow2_pos. Qed.

(** From [2^-1022] on the step is at most [x] times [2^-52]. *)
Lemma ulp_normal (x : Q) :
  (2 ^ (-1022) <= x)%Q -> (ulp x <= x * 2 ^ (-52))%Q.
Proof.
  intros Hx.
  assert (0 < x)%Q as Hpos
      by (apply (Qlt_le_trans _ (2 ^ (-1022))); [apply pow2_pos|exact Hx]).
  destruct (exponent_of_spec x Hpos) as [He1 He2].
  assert (-1022 < exponent_of x + 1) as He.
  { apply pow2_lt_inv. apply (Qle_lt_trans _ x); assumption. }
  unfold ulp. rewrite Z.max_l by lia.
  replace (exponent_of x - 52) with (exponent_of x + (-52)) by ring.
  rewrite pow2_plus.
  apply Qmult_le_compat_r; [exact He1|apply Qlt_le_weak, pow2_pos].
Qed.

(** Below [2^1024] it is at most [2^971]. *)
Lemma ulp_finite (x : Q) :
  (0 < x)%Q -> (x < 2 ^ 1024)%Q -> (ulp x <= 2 ^ 971)%Q.
Proof.
  intros Hpos Hx.
  destruct (exponent_of_spec x Hpos) as [He1 _].
  assert (exponent_of x < 1024) as He.
  { apply pow2_lt_inv. apply (Qle_lt_trans _ x); assumption. }
  unfold ulp. apply pow2_le. lia.
Qed.

(** The integer nearest to [y] is half a unit away at most. *)
Lemma round_half_even_error (y : Q) :
  (y - (1 # 2) <= inject_Z (round_half_even y) <= y + (1 # 2))%Q.
Proof.
  unfold round_half_even.
  pose proof (Qfloor_le y) as Hlo. pose proof (Qlt_floor y) as Hhi.
  rewrite inject_Z_plus in Hhi. change (inject_Z 1) with 1%Q in Hhi.
  destruct (Qcompare_spec (y - inject_Z (Qfloor y)) (1 # 2)) as [E|E|E].
  - destruct (Z.even (Qfloor y));
      rewrite ?inject_Z_plus; change (inject_Z 1) with 1%Q; lra.
  - lra.
  - rewrite inject_Z_plus. change (inject_Z 1) with 1%Q. lra.
Qed.

(** The binary64 value nearest to [x] is half a step away at most. *)
Lemma nearest_binary64_error (x : Q) :
  (0 < x)%Q ->
  (x - ulp x * (1 # 2) <= nearest_binary64 x <= x + ulp x * (1 # 2))%Q.
Proof.
  intros Hpos. unfold nearest_binary64.
  assert (Qle_bool x 0 = false) as ->.
  { destruct (Qle_bool x 0) eqn:E; [|reflexivity].
    apply Qle_bool_iff in E. lra. }
  rewrite Qred_correct.
  pose proof (ulp_pos x) as Hu. set (u := ulp x) in *.
  pose proof (round_half_even_error (x / u)) as [H1 H2].
  set (m := inject_Z (round_half_even (x / u))) in *.
  assert (x / u * u == x)%Q as Hq by (field; lra).
  set (q := (x / u)%Q) in *.
  assert (0 <= (m - q + (1 # 2)) * u)%Q as G1
      by (apply Qmult_le_0_compat; lra).
  assert (0 <= (q + (1 # 2) - m) * u)%Q as G2
      by (apply Qmult_le_0_compat; lra).
  split; lra.
Qed.

Lemma nearest_binary64_zero (x : Q) :
  (x <= 0)%Q -> nearest_binary64 x = 0%Q.
Proof.
  intros H. unfold nearest_binary64.
  apply Qle_bool_iff in H. now rewrite H.
Qed.

(** What is below [2^1024 - 2^970] is rounded to a finite value. *)
Lemma nearest_binary64_finite (x : Q) :
  (x < inject_Z (2 ^ 1024 - 2 ^ 970))%Q ->
  Qle_bool (2 ^ 1024) (nearest_binary64 x) = false.
Proof.
  intros Hx.
  destruct (Qlt_le_dec 0 x) as [Hpos|Hneg].
  - destruct (Qle_bool (2 ^ 1024) (nearest_binary64 x)) eqn:E;
      [exfalso|reflexivity].
    apply Qle_bool_iff in E.
    pose proof (nearest_binary64_error x Hpos) as [_ Hhi].
    assert (inject_Z (2 ^ 1024 - 2 ^ 970) + 2 ^ 971 * (1 # 2) == 2 ^ 1024)%Q
      as Hmax by reflexivity.
    assert (x < 2 ^ 1024)%Q as Hlt.
    { assert (0 <= 2 ^ 971 * (1 # 2))%Q by (vm_compute; discriminate). lra. }
    pose proof (ulp_finite x Hpos Hlt) as Hu.
    lra.
  - rewrite (nearest_binary64_zero x Hneg). reflexivity.
Qed.

(** From [2^-1022] on the relative error of the rounding is [2^-53] at
    most. *)
Lemma nearest_binary64_relative (x : Q) :
  (2 ^ (-1022) <= x)%Q ->
  (x * (1 - (1 # 2 ^ 53)) <= nearest_binary64 x <= x * (1 + (1 # 2 ^ 53)))%Q.
Proof.
  intros Hx.
  assert (0 < x)%Q as Hpos
      by (apply (Qlt_le_trans _ (2 ^ (-1022))); [apply pow2_pos|exact Hx]).
  pose proof (nearest_binary64_error x Hpos) as [H1 H2].
  pose proof (ulp_normal x Hx) as Hu.
  assert (2 ^ (-52) * (1 # 2) == 1 # 2 ^ 53)%Q as E by reflexivity.
  assert (x * 2 ^ (-52) * (1 # 2) == x * (1 # 2 ^ 53))%Q as E'
      by (rewrite <- E; ring).
  split; lra.
Qed.

(** ** The division of the summary *)

Lemma Qabs_quotient (a b : Z) :
  0 < b ->
  (Qabs (inject_Z a / inject_Z b) * inject_Z b == inject_Z (Z.abs a))%Q.
Proof.
  intros Hb.
  assert (0 < inject_Z b)%Q as HB
      by (change 0%Q with (inject_Z 0); now rewrite <- Zlt_Qlt).
  unfold Qdiv. rewrite Qabs_Qmult, Qabs_Qinv.
  rewrite (Qabs_pos (inject_Z b)) by lra.
  assert (Qabs (inject_Z a) == inject_Z (Z.abs a))%Q as -> by reflexivity.
  field. lra.
Qed.

(** With a positive divisor and a dividend that [float] accepts, the
    division returns the nearest binary64 value, with the sign of the
    dividend. *)
Lemma truediv_ok (a b : Z) :
  0 < b -> Z.abs a < 2 ^ 1024 - 2 ^ 970 ->
  truediv a b
  = Ok (Finite (a <? 0)
          (nearest_binary64 (Qabs (inject_Z a / inject_Z b)))).
Proof.
  intros Hb Ha. unfold truediv.
  destruct (Z.eqb_spec b 0) as [->|_]; [lia|].
  assert ((b <? 0) = false) as -> by (apply Z.ltb_ge; lia).
  rewrite xorb_false_r.
  rewrite nearest_binary64_finite; [reflexivity|].
  pose proof (Qabs_quotient a b Hb) as Hq.
  pose proof (Qabs_nonneg (inject_Z a / inject_Z b)) as H0.
  set (x := Qabs (inject_Z a / inject_Z b)) in *.
  assert (1 <= inject_Z b)%Q as HB
      by (change 1%Q with (inject_Z 1); rewrite <- Zle_Qle; lia).
  assert (inject_Z (Z.abs a) < inject_Z (2 ^ 1024 - 2 ^ 970))%Q as HA
      by (now rewrite <- Zlt_Qlt).
  assert (0 <= x * (inject_Z b - 1))%Q as G
      by (apply Qmult_le_0_compat; lra).
  lra.
Qed.

(** The percentage of totals below [2^1000]: two roundings, each of a
    relative error of [2^-53] at most. *)
Lemma percentage_accuracy (saved before : Z) :
  0 < before < 2 ^ 1000 -> Z.abs saved < 2 ^ 1000 ->
  exists ratio p,
    truediv saved before = Ok ratio
    /\ times_100 ratio = Finite (saved <? 0) p
    /\ (Qabs (p - Qabs (exact_percentage saved before))
        <= Qabs (exact_percentage saved before) * (1 # 2 ^ 51))%Q.
Proof.
  intros Hb Ha.
  assert (2 ^ 1000 < 2 ^ 1024 - 2 ^ 970) as Hbig by reflexivity.
  rewrite truediv_ok by lia.
  pose proof (Qabs_quotient saved before (proj1 Hb)) as Hq.
  pose proof (Qabs_nonneg (inject_Z saved / inject_Z before)) as H0.
  set (x := Qabs (inject_Z saved / inject_Z before)) in *.
  assert (Qabs (exact_percentage saved before) == 100 * x)%Q as Hexact.
  { unfold exact_percentage, x.
    assert (100 * inject_Z saved / inject_Z before
            == 100 * (inject_Z saved / inject_Z before))%Q as ->
        by (unfold Qdiv; ring).
    rewrite Qabs_Qmult. reflexivity. }
  assert (1 <= inject_Z before)%Q as HB1
      by (change 1%Q with (inject_Z 1); rewrite <- Zle_Qle; lia).
  assert (inject_Z before < inject_Z (2 ^ 1000))%Q as HB2
      by (rewrite <- Zlt_Qlt; lia).
  assert (inject_Z (Z.abs saved) < inject_Z (2 ^ 1000))%Q as HA
      by (now rewrite <- Zlt_Qlt).
  destruct (Z.eq_dec saved 0) as [->|Hne].
  { (* nothing saved: both roundings are exact *)
    assert (x == 0)%Q as Hx by reflexivity.
    exists (Finite false 0), 0%Q.
    split; [reflexivity|]. split; [reflexivity|].
    rewrite Hexact, Hx. vm_compute. discriminate. }
  eexists _, _. split; [reflexivity|]. cbn [times_100].
  assert (1 <= inject_Z (Z.abs saved))%Q as HA1
      by (change 1%Q with (inject_Z 1); rewrite <- Zle_Qle; lia).
  assert (inject_Z (2 ^ 1000) == 2 ^ 1000)%Q as E1000 by reflexivity.
  assert (2 ^ (-1000) * inject_Z (2 ^ 1000) == 1)%Q as Einv by reflexivity.
  assert (2 ^ (-1022) * 2 ^ 22 == 2 ^ (-1000))%Q as E22 by reflexivity.
  assert (0 < 2 ^ (-1000))%Q as Hp1000 by apply pow2_pos.
  assert (0 < 2 ^ (-1022))%Q as Hp1022 by apply pow2_pos.
  assert (2 ^ 22 == 4194304)%Q as E22' by reflexivity.
  (* the quotient is in the normal range *)
  assert (2 ^ (-1000) <= x)%Q as Hxlo.
  { apply Qnot_lt_le. intros Hlt.
    assert (0 <= (2 ^ (-1000) - x) * inject_Z before)%Q as G1
        by (apply Qmult_le_0_compat; lra).
    assert (0 <= 2 ^ (-1000) * (inject_Z (2 ^ 1000) - inject_Z before))%Q
      as G2 by (apply Qmult_le_0_compat; lra).
    lra. }
  assert (x <= inject_Z (Z.abs saved))%Q as Hxhi.
  { assert (0 <= x * (inject_Z before - 1))%Q as G
        by (apply Qmult_le_0_compat; lra).
    lra. }
  assert (2 ^ (-1022) <= x)%Q as Hnormal by lra.
  pose proof (nearest_binary64_relative x Hnormal) as [Hm1 Hm2].
  set (m := nearest_binary64 x) in *.
  change (1 # 2 ^ 53)%Q with (1 # 9007199254740992)%Q in Hm1, Hm2.
  (* and so is the product *)
  assert (2 ^ (-1022) <= m * 100)%Q as Hynormal by lra.
  pose proof (nearest_binary64_relative (m * 100) Hynormal) as [Hp1 Hp2].
  change (1 # 2 ^ 53)%Q with (1 # 9007199254740992)%Q in Hp1, Hp2.
  assert (m * 100 < inject_Z (2 ^ 1024 - 2 ^ 970))%Q as Hyfin.
  { assert (inject_Z (2 ^ 1000) * 200 < inject_Z (2 ^ 1024 - 2 ^ 970))%Q
      by reflexivity.
    lra. }
  rewrite (nearest_binary64_finite (m * 100) Hyfin).
  split; [reflexivity|]. rewrite Hexact.
  set (p := nearest_binary64 (m * 100)) in *.
  change (1 # 2 ^ 51)%Q with (1 # 2251799813685248)%Q.
  apply Qabs_Qle_condition.
  change (nearest_binary64 (nearest_binary64 x * 100)) with p.
  clearbody p m x. clear - H0 Hm1 Hm2 Hp1 Hp2.
  split; lra.
Qed.

Section Summary.

Context {Env : Type}.

(** What [print_summary] does: it only prints; the line of the percentage
    comes with a positive [total_size_before] only, and no division by 0
    is made. *)
Lemma print_summary_run (description : string) (count : nat)
  (t : BatchTotals) (s : State Env) :
  exists evs r,
    print_summary Env description count t s = (emit_all evs s, r)
    /\ (invocations evs = [] /\ inputs evs = [])
    /\ (forall text,
          In (Printed (MsgReduction text)) evs ->
          0 < total_size_before t
          /\ exists ratio,
               truediv (total_size_saved t) (total_size_before t) = Ok ratio
               /\ text = format_fixed1 (times_100 ratio))
    /\ (total_size_before t = 0 ->
        forall text, ~ In (Printed (MsgReduction text)) evs)
    /\ r <> Raise ZeroDivisionError
    /\ ((exists tb ta ts,
           format_size (total_size_before t) = Ok tb
           /\ format_size (total_size_after t) = Ok ta
           /\ format_size (total_size_saved t) = Ok ts) ->
        r = Ok tt
        /\ (0 < total_size_before t ->
            exists ratio,
              truediv (total_size_saved t) (total_size_before t) = Ok ratio
              /\ In (Printed (MsgReduction
                                (format_fixed1 (times_100 ratio)))) evs)).
Proof.
  assert (0 < total_size_before t ->
          forall e,
            truediv (total_size_saved t) (total_size_before t) = Raise e ->
            e = OverflowError) as Hdiv.
  { intros Hpos e. unfold truediv.
    destruct (Z.eqb_spec (total_size_before t) 0); [lia|].
    destruct (Qle_bool _ _); [intros E; now inversion E|discriminate]. }
  assert (forall ts,
            0 < total_size_before t ->
            format_size (total_size_saved t) = Ok ts ->
            exists ratio,
              truediv (total_size_saved t) (total_size_before t) = Ok ratio)
    as Hfin.
  { intros ts Hpos Hs. eexists.
    apply truediv_ok; [exact Hpos|exact (format_size_range _ _ Hs)]. }
  unfold print_summary, bind, print, lift, ret.
  destruct (0 <? failed_cleans t);
    destruct (format_size (total_size_before t)) as [tb|eb] eqn:Eb;
    try destruct (format_size (total_size_after t)) as [ta|ea] eqn:Ea;
    try destruct (format_size (total_size_saved t)) as [ts|es] eqn:Es;
    try (pose proof (format_size_raises _ _ Eb); subst eb);
    try (pose proof (format_size_raises _ _ Ea); subst ea);
    try (pose proof (format_size_raises _ _ Es); subst es);
    destruct (Z.ltb_spec 0 (total_size_before t)) as [Hpos|Hneg];
    try (destruct (truediv (total_size_saved t) (total_size_before t))
           as [ratio|e] eqn:Ediv;
         [|pose proof (Hdiv Hpos e eq_refl); subst e]);
    (eexists _, _; split;
     [unfold emit_all, emit; cbn [stdin world out];
      rewrite <- ?app_assoc; reflexivity|]);
    (split; [split; reflexivity|]);
    (split;
     [intros text Hq; simpl in Hq;
      repeat (destruct Hq as [Hq|Hq]; try discriminate Hq);
      try contradiction;
      inversion Hq; subst text;
      (split; [assumption|eexists; split; reflexivity])
     |split;
      [intros Hz text Hq; simpl in Hq;
       repeat (destruct Hq as [Hq|Hq]; try discriminate Hq);
       try contradiction; lia
      |split;
       [discriminate
       |intros (tb' & ta' & ts' & H1 & H2 & H3);
        try congruence;
        try (destruct (Hfin _ Hpos H3) as (ratio' & Hr'); congruence);
        (split;
         [reflexivity
         |intros Hp; try lia;
          (eexists; split; [reflexivity|simpl; tauto])])]]]).
Qed.

(** C8.  What [print_summary] adds to the trace holds the line of the
    percentage only when [total_size_before > 0], and then with the
    binary64 value of [(total_size_saved / total_size_before) * 100],
    shown with one decimal: the quotient is rounded to the nearest
    binary64 value, and so is its product by 100.  With
    [total_size_before = 0] the line is left out; and no
    [ZeroDivisionError] is raised, the division being made under the test
    only.  When [format_size] accepts the three totals the summary is
    printed to its end, with the line if [total_size_before > 0].  For
    totals below [2^1000] the value has the sign of [total_size_saved]
    and is away from [100 * total_size_saved / total_size_before] by
    [2^-51] of it at most. *)
Theorem print_summary_percentage (description : string) (count : nat)
  (t : BatchTotals) (s : State Env) :
  exists evs r,
    print_summary Env description count t s = (emit_all evs s, r)
    /\ (forall text,
          In (Printed (MsgReduction text)) evs ->
          0 < total_size_before t
          /\ exists ratio,
               truediv (total_size_saved t) (total_size_before t) = Ok ratio
               /\ text = format_fixed1 (times_100 ratio))
    /\ (total_size_before t = 0 ->
        forall text, ~ In (Printed (MsgReduction text)) evs)
    /\ r <> Raise ZeroDivisionError
    /\ ((exists tb ta ts,
           format_size (total_size_before t) = Ok tb
           /\ format_size (total_size_after t) = Ok ta
           /\ format_size (total_size_saved t) = Ok ts) ->
        r = Ok tt
        /\ (0 < total_size_before t ->
            exists ratio,
              truediv (total_size_saved t) (total_size_before t) = Ok ratio
              /\ In (Printed (MsgReduction
                                (format_fixed1 (times_100 ratio)))) evs))
    /\ (0 < total_size_before t < 2 ^ 1000 ->
        Z.abs (total_size_saved t) < 2 ^ 1000 ->
        exists ratio p,
          truediv (total_size_saved t) (total_size_before t) = Ok ratio
          /\ times_100 ratio = Finite (total_size_saved t <? 0) p
          /\ (Qabs (p - Qabs (exact_percentage (total_size_saved t)
                                (total_size_before t)))
              <= Qabs (exact_percentage (total_size_saved t)
                         (total_size_before t)) * (1 # 2 ^ 51))%Q).
Proof.
  destruct (print_summary_run description count t s)
    as (evs & r & Hrun & _ & H1 & H2 & H3 & H4).
  exists evs, r.
  split; [exact Hrun|]. split; [exact H1|]. split; [exact H2|].
  split; [exact H3|]. split; [exact H4|].
  apply percentage_accuracy.
Qed.

End Summary.

Lemma print_summary_percentage_witness :
  exists evs r,
    print_summary unit "flutter clean" 2 demo_totals (demo_state [])
    = (emit_all evs (demo_state []), r)
    /\ r = Ok tt
    /\ In (Printed (MsgReduction "60.0")) evs.
Proof.
  destruct (print_summary_percentage "flutter clean" 2 demo_totals
              (demo_state []))
    as (evs & r & Hrun & _ & _ & _ & Hok & _).
  exists evs, r. split; [exact Hrun|].
  destruct Hok as [Hr Hin].
  { exists "100 B", "40 B", "60 B". repeat split; vm_compute; reflexivity. }
  split; [exact Hr|].
  destruct (Hin eq_refl) as (ratio & Hratio & Hline).
  vm_compute in Hratio. inversion Hratio; subst ratio. exact Hline.
Defined.

(** C8 as stated fails for 23 bytes saved of 80: the code computes
    [(23 / 80) * 100], which is [28.749999999999996] and not
    [100 * 23 / 80 = 28.75], and the summary shows 28.7. *)
Lemma print_summary_percentage_rounded :
  exists p,
    option_map times_100
      (match truediv 23 80 with Ok ratio => Some ratio | Raise _ => None end)
    = Some (Finite false p)
    /\ ~ (p == exact_percentage 23 80)%Q
    /\ (p < exact_percentage 23 80)%Q
    /\ In (Printed (MsgReduction "28.7"))
         (out (fst (print_summary unit "flutter clean" 1 rounded_totals
                      (demo_state []))))
    /\ format_fixed1 (Finite false (exact_percentage 23 80)) = "28.8".
Proof.
  exists (8092405580431359 # 281474976710656)%Q.
  split; [vm_compute; reflexivity|].
  split; [vm_compute; discriminate|].
  split; [vm_compute; reflexivity|].
  split; [vm_compute; tauto|vm_compute; reflexivity].
Qed.

(** ** The confirmation *)

Section Confirmation.

Context {Env : Type}.
Variable spawn : list string -> path -> World Env -> World Env * Res ProcessExit.

(** An answer that is not a yes cancels. *)
Lemma confirm_no (use_fvm : bool) (projects : list path) (s : State Env)
  (answer : string) (keys : list Keyboard) :
  stdin s = Line answer :: keys ->
  affirmative answer = false ->
  confirm_and_clean Env spawn use_fvm projects s
  = (emit Env (Printed MsgCancelled)
       (answered use_fvm (List.length projects) answer keys s), Ok tt).
Proof.
  intros Hin Ha.
  unfold confirm_and_clean, bind, print, input. cbn [emit stdin world out].
  rewrite Hin. unfold affirmative in Ha. rewrite Ha. cbn [negb].
  unfold answered, confirm_events, emit, command_description.
  cbn [stdin world out]. rewrite <- !app_assoc. reflexivity.
Qed.

(** A yes starts the loop over the projects and then the summary. *)
Lemma confirm_yes (use_fvm : bool) (projects : list path) (s : State Env)
  (answer : string) (keys : list Keyboard) :
  stdin s = Line answer :: keys ->
  affirmative answer = true ->
  confirm_and_clean Env spawn use_fvm projects s
  = bind Env
      (clean_loop Env spawn use_fvm (List.length projects) 1 no_totals
         projects)
      (fun totals =>
         print_summary Env (command_description use_fvm)
           (List.length projects) (snd totals))
      (emit Env (Printed (MsgRule 60))
         (emit Env (Printed MsgStarting)
            (answered use_fvm (List.length projects) answer keys s))).
Proof.
  intros Hin Ha.
  unfold confirm_and_clean, print, input.
  unfold bind at 1 2 3 4. cbn [emit stdin world out].
  rewrite Hin. unfold affirmative in Ha. rewrite Ha. cbn [negb].
  unfold bind at 1 2.
  unfold answered, confirm_events, emit, command_description.
  cbn [stdin world out]. rewrite <- !app_assoc. reflexivity.
Qed.

End Confirmation.

(** ** The whole run up to the confirmation *)

Lemma quiet_app (a b : list Event) : quiet (a ++ b) = quiet a && quiet b.
Proof. apply forallb_app. Qed.

Lemma quiet_found (items : list string) :
  quiet (map (fun item => Printed (MsgFound item)) items) = true.
Proof. induction items as [|item items IH]; [reflexivity|exact IH]. Qed.

Lemma In_inputs (evs : list Event) (p : Prompt) (k : option Keyboard) :
  In (Input p k) evs <-> In (p, k) (inputs evs).
Proof.
  induction evs as [|ev evs IH]; simpl; [tauto|].
  destruct ev as [m|p' k'|c cwd]; simpl; rewrite <- IH.
  - split; [intros [H|H]; [discriminate H|exact H]|now right].
  - split; (intros [H|H]; [inversion H; subst; now left|now right]).
  - split; [intros [H|H]; [discriminate H|exact H]|now right].
Qed.

Lemma quiet_spec (evs : list Event) :
  quiet evs = true ->
  invocations evs = []
  /\ (forall m, In (Printed m) evs -> is_summary m = false)
  /\ (forall c n a, ~ In (PromptConfirm c n, Some (Line a)) (inputs evs)).
Proof.
  induction evs as [|ev evs IH]; intros H.
  - split; [reflexivity|]. split; [intros m []|intros c n a []].
  - cbn [quiet forallb] in H. apply andb_true_iff in H as [Hev H].
    destruct (IH H) as (H1 & H2 & H3).
    destruct ev as [m|p k|c cwd]; simpl in Hev; try discriminate Hev.
    + repeat split; simpl; try assumption.
      intros m' [E|Hin]; [|now apply H2].
      inversion E; subst. now apply negb_true_iff.
    + repeat split; simpl; try assumption.
      * intros m' [E|Hin]; [discriminate E|now apply H2].
      * intros c' n' a' [E|Hin]; [|now apply (H3 c' n' a')].
        inversion E; subst. discriminate Hev.
Qed.

Section WholeRun.

Context {Env : Type}.
Variable spawn : list string -> path -> World Env -> World Env * Res ProcessExit.
Variable resolve_path : string -> path.

Lemma choice_loop_quiet (keys : list Keyboard) (w : World Env) :
  forall o : list Event,
  exists evs keys' r,
    choice_loop Env keys w o
    = ({| stdin := keys'; world := w; out := (o ++ evs)%list |}, r)
    /\ quiet evs = true.
Proof.
  induction keys as [|[text|] keys IH]; intros o; cbn [choice_loop].
  - eexists _, _, _. split; reflexivity.
  - destruct (String.eqb (strip text) "1").
    { eexists _, _, _. split; [rewrite <- app_assoc; reflexivity|reflexivity]. }
    destruct (String.eqb (strip text) "2").
    { eexists _, _, _. split; [rewrite <- app_assoc; reflexivity|reflexivity]. }
    destruct (IH ((o ++ [Input PromptChoice (Some (Line text))])
                    ++ [Printed MsgInvalidChoice])%list)
      as (evs & keys' & r & Hrun & Hq).
    exists ([Input PromptChoice (Some (Line text)); Printed MsgInvalidChoice]
              ++ evs)%list, keys', r.
    split; [rewrite Hrun, <- !app_assoc; reflexivity|exact Hq].
  - eexists _, _, _. split; reflexivity.
Qed.

Lemma ask_fvm_preference_quiet (s : State Env) :
  exists evs keys' r,
    ask_fvm_preference Env s
    = ({| stdin := keys'; world := world s; out := (out s ++ evs)%list |}, r)
    /\ quiet evs = true.
Proof.
  unfold ask_fvm_preference, bind, print. cbn [emit stdin world out].
  destruct (choice_loop_quiet (stdin s) (world s)
              (out s ++ [Printed MsgModeMenu])%list)
    as (evs & keys' & r & Hrun & Hq).
  exists ([Printed MsgModeMenu] ++ evs)%list, keys', r.
  split; [rewrite Hrun, <- app_assoc; reflexivity|exact Hq].
Qed.

(** Rewrites a state reached by printing and reading into the state at the
    start with a list of events after its trace. *)
Ltac as_extension :=
  unfold emit, emit_all; cbn [stdin world out];
  rewrite <- ?app_assoc; reflexivity.

Ltac is_quiet H :=
  unfold quiet in *; rewrite ?forallb_app; cbn [forallb quiet_event];
  rewrite ?H; try rewrite (quiet_found : forall l, forallb _ _ = true);
  reflexivity.

Ltac ends_here H :=
  eexists _, _, (fun s1 => (s1, _));
  split; [cbv beta; as_extension|];
  split; [is_quiet H|left; eexists; reflexivity].

(** A run either ends before the confirmation, or comes to it with the
    projects found; up to there its trace is quiet. *)
Lemma scan_body_cases (s : State Env) :
  exists evs keys' next,
    scan_body Env spawn resolve_path s
    = next {| stdin := keys'; world := world s;
              out := (out s ++ evs)%list |}
    /\ quiet evs = true
    /\ ((exists r, next = fun s1 => (s1, r))
        \/ (exists use_fvm projects,
              next = confirm_and_clean Env spawn use_fvm projects)).
Proof.
  unfold scan_body. unfold bind at 1.
  destruct (ask_fvm_preference_quiet s) as (evs1 & keys1 & r1 & Hask & Hq1).
  rewrite Hask. destruct r1 as [use_fvm|e].
  2:{ exists evs1, keys1, (fun s1 => (s1, Raise e)).
      split; [reflexivity|]. split; [exact Hq1|left; now eexists]. }
  unfold bind at 1. unfold print at 1.
  unfold bind at 1. unfold input at 1. cbn [emit stdin world out].
  destruct keys1 as [|[text|] keys2].
  1:{ ends_here Hq1. }
  2:{ ends_here Hq1. }
  unfold nonempty.
  destruct (String.eqb (strip text) EmptyString); cbn [negb].
  1:{ unfold print. ends_here Hq1. }
  unfold bind at 1. unfold with_fs at 1. cbn [world].
  destruct (os_path_exists _ _); cbn [negb].
  2:{ unfold print. ends_here Hq1. }
  unfold bind at 1. unfold with_fs at 1. cbn [world].
  destruct (os_path_isdir _ _); cbn [negb].
  2:{ unfold print. ends_here Hq1. }
  unfold bind at 1. unfold print at 1.
  unfold bind at 1. unfold print at 1.
  unfold bind at 1. unfold try_except at 1.
  unfold bind at 1. unfold discover_projects.
  unfold bind at 1 2. unfold with_fs at 1. unfold lift at 1.
  cbn [emit stdin world out].
  destruct (os_listdir _ _) as [items|e].
  2:{ destruct (is_PermissionError e).
      - unfold bind, print, ret. ends_here Hq1.
      - ends_here Hq1. }
  rewrite discover_loop. unfold ret at 1. cbn [app world].
  match goal with
  | |- context [filter ?f items] => destruct (filter f items) as [|p ps]
  end.
  - cbn [map]. unfold print. ends_here Hq1.
  - cbn [map].
    eexists _, _, (confirm_and_clean Env spawn use_fvm _).
    split; [apply (f_equal (confirm_and_clean Env spawn use_fvm _));
            as_extension|].
    split; [is_quiet Hq1|right; eexists _, _; reflexivity].
Qed.


(** The handlers at the top add one line of report at most. *)
Lemma top_level_handler (s : State Env) :
  exists tail,
    out (fst (scan_and_clean_flutter_projects Env spawn resolve_path s))
    = (out (fst (scan_body Env spawn resolve_path s)) ++ tail)%list
    /\ quiet tail = true
    /\ (forall u, snd (scan_body Env spawn resolve_path s) = Ok u ->
        tail = []).
Proof.
  unfold scan_and_clean_flutter_projects, try_except.
  destruct (scan_body Env spawn resolve_path s) as [s' [u|e]]; cbn [fst snd].
  - exists []. rewrite app_nil_r. repeat split.
  - destruct e; cbn [is_Exception]; unfold print; cbn [fst out emit];
      (eexists; split; [reflexivity|split; [reflexivity|discriminate]]).
Qed.

(** The three ways through the confirmation. *)
Lemma confirm_and_clean_cases (use_fvm : bool) (projects : list path)
  (s : State Env) :
  (exists evs,
      out (fst (confirm_and_clean Env spawn use_fvm projects s))
      = (out s ++ evs)%list
      /\ quiet evs = true)
  \/ (exists answer,
        affirmative answer = false
        /\ confirm_and_clean Env spawn use_fvm projects s
           = ({| stdin := tl (stdin s); world := world s;
                 out := (out s
                         ++ confirm_events use_fvm (List.length projects)
                              answer
                         ++ [Printed MsgCancelled])%list |}, Ok tt))
  \/ (exists answer,
        affirmative answer = true
        /\ inputs (out (fst (confirm_and_clean Env spawn use_fvm projects s)))
           = (inputs (out s)
              ++ [(PromptConfirm (command_description use_fvm)
                     (List.length projects), Some (Line answer))])%list).
Proof.
  destruct (stdin s) as [|[answer|] keys] eqn:Hin.
  - left. unfold confirm_and_clean, bind, print, input.
    cbn [emit stdin world out]. rewrite Hin. cbn [fst out emit].
    eexists. split; [rewrite <- !app_assoc; reflexivity|reflexivity].
  - destruct (affirmative answer) eqn:Ha.
    + right. right. exists answer. split; [exact Ha|].
      rewrite (confirm_yes spawn _ _ _ _ _ Hin Ha).
      set (s2 := emit Env (Printed (MsgRule 60)) _).
      assert (inputs (out s2)
              = (inputs (out s)
                 ++ [(PromptConfirm (command_description use_fvm)
                        (List.length projects), Some (Line answer))])%list)
        as Hs2.
      { unfold s2, answered, confirm_events. cbn [out emit].
        rewrite !inputs_app. simpl. now rewrite !app_nil_r. }
      assert (totals_consistent no_totals 0) as H0 by (split; reflexivity).
      destruct (clean_loop_run spawn use_fvm (List.length projects) projects
                  1 0 no_totals s2 H0)
        as (s3 & res & Hrun & [_ Hinp] & _).
      unfold bind. rewrite Hrun. destruct res as [[i t]|e].
      * destruct (print_summary_run (command_description use_fvm)
                    (List.length projects) t s3)
          as (evs & r & Hsum & [_ Hnone] & _).
        cbn [snd]. rewrite Hsum. cbn [fst]. unfold emit_all. cbn [out].
        now rewrite inputs_app, Hnone, app_nil_r, Hinp, Hs2.
      * cbn [fst]. now rewrite Hinp, Hs2.
    + right. left. exists answer. split; [exact Ha|].
      rewrite (confirm_no spawn _ _ _ _ _ Hin Ha).
      unfold answered, emit. cbn [stdin world out tl].
      now rewrite <- app_assoc.
  - left. unfold confirm_and_clean, bind, print, input.
    cbn [emit stdin world out]. rewrite Hin. cbn [fst out emit].
    eexists. split; [rewrite <- !app_assoc; reflexivity|reflexivity].
Qed.

(** In a whole run, an answer to the confirmation that is not a yes is the
    end: no child process was or is started and no line of the summary was
    or is printed. *)
Lemma whole_run_cancelled (keys : list Keyboard) (w : World Env)
  (c : string) (n : nat) (answer : string) :
  In (Input (PromptConfirm c n) (Some (Line answer)))
    (out (fst (scan_and_clean_flutter_projects Env spawn resolve_path
                 (start keys w)))) ->
  affirmative answer = false ->
  invocations
    (out (fst (scan_and_clean_flutter_projects Env spawn resolve_path
                 (start keys w)))) = []
  /\ (forall m,
        In (Printed m)
          (out (fst (scan_and_clean_flutter_projects Env spawn resolve_path
                       (start keys w)))) ->
        is_summary m = false).
Proof.
  intros Hin Ha.
  destruct (top_level_handler (start keys w)) as (tail & Hout & Hqt & Htail).
  rewrite Hout in *. clear Hout.
  destruct (scan_body_cases (start keys w))
    as (evs & keys' & next & Hbody & Hq & Hnext).
  rewrite Hbody in *. cbn [start out world app] in *.
  assert (forall l, quiet l = true ->
            In (Input (PromptConfirm c n) (Some (Line answer))) l -> False)
    as Hno.
  { intros l Hl H. apply In_inputs in H.
    now apply (proj2 (proj2 (quiet_spec l Hl)) c n answer). }
  assert (forall l, quiet l = true ->
            invocations l = []
            /\ (forall m, In (Printed m) l -> is_summary m = false)) as Hyes.
  { intros l Hl. destruct (quiet_spec l Hl) as (H1 & H2 & _). now split. }
  destruct Hnext as [[r ->]|(use_fvm & projects & ->)].
  - cbn [fst out] in *. exfalso.
    apply (Hno (evs ++ tail)%list); [|exact Hin].
    now rewrite quiet_app, Hq, Hqt.
  - set (s1 := {| stdin := keys'; world := w; out := evs |}) in *.
    destruct (confirm_and_clean_cases use_fvm projects s1)
      as [(evs2 & Hout & Hq2)|[(a & Ha' & Hrun)|(a & Ha' & Hinp)]].
    + exfalso. rewrite Hout in Hin. cbn [s1 out] in Hin.
      apply (Hno ((evs ++ evs2) ++ tail)%list); [|exact Hin].
      now rewrite !quiet_app, Hq, Hq2, Hqt.
    + rewrite Hrun in *. cbn [fst snd out s1] in *.
      rewrite (Htail tt eq_refl), app_nil_r.
      destruct (Hyes evs Hq) as [H1 H2]. split.
      * rewrite !invocations_app, H1. reflexivity.
      * intros m Hm. apply in_app_or in Hm as [Hm|Hm]; [now apply H2|].
        unfold confirm_events in Hm. simpl in Hm.
        repeat (destruct Hm as [Hm|Hm]; try discriminate Hm;
                try (inversion Hm; subst m; reflexivity)).
    + exfalso. apply In_inputs in Hin.
      rewrite inputs_app, Hinp in Hin. cbn [s1 out] in Hin.
      apply in_app_or in Hin as [Hin|Hin].
      * apply in_app_or in Hin as [Hin|Hin].
        -- now apply (proj2 (proj2 (quiet_spec evs Hq)) c n answer).
        -- destruct Hin as [E|[]]. inversion E; subst. congruence.
      * now apply (proj2 (proj2 (quiet_spec tail Hqt)) c n answer).
Qed.

End WholeRun.

Section ConfirmationGate.

Context {Env : Type}.
Variable spawn : list string -> path -> World Env -> World Env * Res ProcessExit.
Variable resolve_path : string -> path.

Lemma affirmative_cases (answer : string) :
  (affirmative answer = true <->
   lower (strip answer) = "y" \/ lower (strip answer) = "yes")
  /\ (affirmative answer = false <->
      lower (strip answer) <> "y" /\ lower (strip answer) <> "yes").
Proof.
  unfold affirmative.
  destruct (String.eqb_spec (lower (strip answer)) "y") as [E1|E1];
    destruct (String.eqb_spec (lower (strip answer)) "yes") as [E2|E2];
    simpl; intuition congruence.
Qed.

(** After a yes: the command is run on the projects in order, from the
    first one, up to the last one or to the one for which starting the
    command raises an exception without a clause. *)
Lemma confirm_yes_run (use_fvm : bool) (projects : list path)
  (s : State Env) (answer : string) (keys : list Keyboard) :
  stdin s = Line answer :: keys ->
  affirmative answer = true ->
  exists done rest,
    projects = (done ++ rest)%list
    /\ invocations
         (out (fst (confirm_and_clean Env spawn use_fvm projects s)))
       = (invocations (out s)
          ++ map (fun p => (clean_command use_fvm, p)) done)%list
    /\ (rest <> [] ->
        exists done' p w e,
          done = (done' ++ [p])%list
          /\ snd (spawn (clean_command use_fvm) p w) = Raise e
          /\ handled (snd (spawn (clean_command use_fvm) p w)) = false
          /\ snd (confirm_and_clean Env spawn use_fvm projects s) = Raise e)
    /\ (projects <> [] -> done <> []).
Proof.
  intros Hin Ha. rewrite (confirm_yes spawn _ _ _ _ _ Hin Ha).
  set (s2 := emit Env (Printed (MsgRule 60)) _).
  assert (invocations (out s2) = invocations (out s)) as Hs2.
  { unfold s2, answered, confirm_events. cbn [out emit].
    rewrite !invocations_app. simpl. now rewrite !app_nil_r. }
  assert (totals_consistent no_totals 0) as H0 by (split; reflexivity).
  destruct (clean_loop_run spawn use_fvm (List.length projects) projects
              1 0 no_totals s2 H0)
    as (s3 & res & Hrun & _ & Hres).
  unfold bind. rewrite Hrun.
  destruct res as [[i t]|e].
  - destruct Hres as (_ & _ & Hinv).
    destruct (print_summary_run (command_description use_fvm)
                (List.length projects) t s3)
      as (evs & r & Hsum & [Hnone _] & _).
    exists projects, []. cbn [snd]. rewrite Hsum. cbn [fst].
    repeat split.
    + now rewrite app_nil_r.
    + unfold emit_all. cbn [out]. rewrite invocations_app, Hnone, app_nil_r.
      now rewrite Hinv, Hs2.
    + congruence.
    + auto.
  - destruct Hres as (done' & p & rest & w & Hp & Hh & He & Hinv).
    exists (done' ++ [p])%list, rest. cbn [fst snd].
    repeat split.
    + rewrite Hp, <- app_assoc. reflexivity.
    + now rewrite Hinv, Hs2.
    + intros _. now exists done', p, w, e.
    + intros _ Hnil. now apply app_eq_nil in Hnil as [_ Hnil].
Qed.

(** C7 (as amended).  At the confirmation, an answer that after [strip]
    and [lower] is neither "y" nor "yes" (the empty answer is one) cancels
    the run: nothing is read or printed after the line of the
    cancellation, the command is not run, the summary is not printed; and
    in a whole run with such an answer no command was or is run and no
    line of the summary was or is printed.  An answer that after [strip]
    and [lower] is "y" or "yes" (white space around it does not count)
    starts the loop: the command is run on the projects found, in their
    order and from the first, on all of them when every start of the
    command ends or raises an exception that [clean_flutter_project] has
    a clause for, and otherwise up to the project at which another
    exception is raised, which ends the run. *)
Theorem confirmation_gate :
  (forall (use_fvm : bool) (projects : list path) (s : State Env)
          (answer : string) (keys : list Keyboard),
      stdin s = Line answer :: keys ->
      (lower (strip answer) <> "y" ->
       lower (strip answer) <> "yes" ->
       confirm_and_clean Env spawn use_fvm projects s
       = ({| stdin := keys; world := world s;
             out := (out s
                     ++ confirm_events use_fvm (List.length projects) answer
                     ++ [Printed MsgCancelled])%list |}, Ok tt)
       /\ invocations
            (out (fst (confirm_and_clean Env spawn use_fvm projects s)))
          = invocations (out s)
       /\ (forall m,
             In (Printed m)
               (confirm_events use_fvm (List.length projects) answer
                ++ [Printed MsgCancelled]) ->
             is_summary m = false))
      /\ (lower (strip answer) = "y" \/ lower (strip answer) = "yes" ->
          exists done rest,
            projects = (done ++ rest)%list
            /\ invocations
                 (out (fst (confirm_and_clean Env spawn use_fvm projects s)))
               = (invocations (out s)
                  ++ map (fun p => (clean_command use_fvm, p)) done)%list
            /\ (projects <> [] -> done <> [])
            /\ (rest <> [] ->
                exists done' p w e,
                  done = (done' ++ [p])%list
                  /\ snd (spawn (clean_command use_fvm) p w) = Raise e
                  /\ handled (snd (spawn (clean_command use_fvm) p w))
                     = false
                  /\ snd (confirm_and_clean Env spawn use_fvm projects s)
                     = Raise e)
            /\ ((forall p w,
                   handled (snd (spawn (clean_command use_fvm) p w))
                   = true) ->
                rest = [])))
  /\ (forall (keys : list Keyboard) (w : World Env) (c : string) (n : nat)
             (answer : string),
        In (Input (PromptConfirm c n) (Some (Line answer)))
          (out (fst (scan_and_clean_flutter_projects Env spawn resolve_path
                       (start keys w)))) ->
        lower (strip answer) <> "y" ->
        lower (strip answer) <> "yes" ->
        invocations
          (out (fst (scan_and_clean_flutter_projects Env spawn resolve_path
                       (start keys w)))) = []
        /\ (forall m,
              In (Printed m)
                (out (fst (scan_and_clean_flutter_projects Env spawn
                             resolve_path (start keys w)))) ->
              is_summary m = false)).
Proof.
  split.
  - intros use_fvm projects s answer keys Hin. split.
    + intros H1 H2.
      assert (affirmative answer = false) as Ha
          by (apply affirmative_cases; now split).
      rewrite (confirm_no spawn _ _ _ _ _ Hin Ha).
      unfold answered, emit. cbn [stdin world out fst].
      rewrite <- app_assoc. split; [reflexivity|split].
      * rewrite !invocations_app. unfold confirm_events. simpl.
        now rewrite app_nil_r.
      * intros m Hm. unfold confirm_events in Hm. simpl in Hm.
        repeat (destruct Hm as [Hm|Hm]; try discriminate Hm;
                try (inversion Hm; subst m; reflexivity)).
    + intros Hyes.
      assert (affirmative answer = true) as Ha
          by (now apply affirmative_cases).
      destruct (confirm_yes_run use_fvm projects s answer keys Hin Ha)
        as (done & rest & Hp & Hinv & Hrest & Hfirst).
      exists done, rest. repeat split; try assumption.
      intros Hall. destruct rest as [|p0 rest]; [reflexivity|].
      destruct Hrest as (done' & p & w & e & _ & _ & Hh & _); [discriminate|].
      rewrite Hall in Hh. discriminate.
  - intros keys w c n answer Hin H1 H2.
    apply (whole_run_cancelled spawn resolve_path keys w c n answer Hin).
    apply affirmative_cases. now split.
Qed.

End ConfirmationGate.

Lemma confirmation_gate_witness :
  confirm_and_clean unit demo_spawn true [["work"; "A"]]
    (demo_state [Line "no"])
  = ({| stdin := []; world := demo_world;
        out := confirm_events true 1 "no" ++ [Printed MsgCancelled] |}, Ok tt)
  /\ (exists done rest,
        [["work"; "A"]] = (done ++ rest)%list
        /\ invocations
             (out (fst (confirm_and_clean unit demo_spawn true
                          [["work"; "A"]] (demo_state [Line " YES "]))))
           = map (fun p => (clean_command true, p)) done
        /\ rest = [])
  /\ invocations
       (out (fst (scan_and_clean_flutter_projects unit demo_spawn
                    demo_resolve
                    (start [Line "1"; Line "work"; Line "n"] demo_world))))
     = [].
Proof.
  split; [|split].
  - apply (proj1 (proj1 (confirmation_gate demo_spawn demo_resolve)
                    true [["work"; "A"]] (demo_state [Line "no"]) "no" []
                    eq_refl));
      vm_compute; discriminate.
  - destruct (proj2 (proj1 (confirmation_gate demo_spawn demo_resolve)
                       true [["work"; "A"]] (demo_state [Line " YES "])
                       " YES " [] eq_refl))
      as (done & rest & Hp & Hinv & _ & _ & Hall).
    { right. vm_compute. reflexivity. }
    exists done, rest. repeat split; try assumption.
    apply Hall. intros p w. reflexivity.
  - apply (proj2 (confirmation_gate demo_spawn demo_resolve)
             [Line "1"; Line "work"; Line "n"] demo_world
             "fvm flutter clean" 1%nat "n").
    + vm_compute. tauto.
    + vm_compute. discriminate.
    + vm_compute. discriminate.
Defined.

(** C7 as stated fails: the answer " y", with a space before it, is not
    "y" whatever the case of its letters, and it does not cancel the run:
    the command is run. *)
Lemma confirmation_gate_white_space :
  lower " y" <> "y" /\ lower " y" <> "yes"
  /\ invocations
       (out (fst (confirm_and_clean unit demo_spawn true [["work"; "A"]]
                    (demo_state [Line " y"]))))
     = [(["fvm"; "flutter"; "clean"], ["work"; "A"])].
Proof. repeat split; try (vm_compute; discriminate). Qed.

(** ** The prompts *)

Section Prompts.

Context {Env : Type}.
Variable spawn : list string -> path -> World Env -> World Env * Res ProcessExit.
Variable resolve_path : string -> path.

(** The choice of the mode asks again after every answer that is not
    accepted, and returns at the first that is. *)
Lemma choice_loop_run (bad : list string) (good : string)
  (keys : list Keyboard) (w : World Env) :
  forallb invalid_choice bad = true ->
  invalid_choice good = false ->
  forall o : list Event,
    choice_loop Env (map Line bad ++ Line good :: keys) w o
    = ({| stdin := keys; world := w;
          out := (o ++ flat_map rejected_choice bad
                    ++ accepted_choice good)%list |},
       Ok (String.eqb (strip good) "1")).
Proof.
  intros Hbad Hgood. induction bad as [|text bad IH]; intros o.
  - cbn [map app choice_loop flat_map]. unfold invalid_choice in Hgood.
    unfold accepted_choice.
    destruct (String.eqb (strip good) "1").
    + now rewrite <- app_assoc.
    + destruct (String.eqb (strip good) "2"); [|discriminate].
      now rewrite <- app_assoc.
  - cbn [forallb] in Hbad. apply andb_true_iff in Hbad as [Ht Hbad].
    cbn [map app choice_loop flat_map]. unfold invalid_choice in Ht.
    destruct (String.eqb (strip text) "1"); [discriminate|].
    destruct (String.eqb (strip text) "2"); [discriminate|].
    rewrite (IH Hbad). unfold rejected_choice at 2.
    now rewrite <- !app_assoc.
Qed.

Lemma ask_fvm_preference_run (bad : list string) (good : string)
  (keys : list Keyboard) (s : State Env) :
  stdin s = (map Line bad ++ Line good :: keys)%list ->
  forallb invalid_choice bad = true ->
  invalid_choice good = false ->
  ask_fvm_preference Env s
  = ({| stdin := keys; world := world s;
        out := (out s ++ [Printed MsgModeMenu] ++ flat_map rejected_choice bad
                  ++ accepted_choice good)%list |},
     Ok (String.eqb (strip good) "1")).
Proof.
  intros Hin Hbad Hgood. unfold ask_fvm_preference, bind, print.
  cbn [emit stdin world out]. rewrite Hin.
  rewrite (choice_loop_run bad good keys (world s) Hbad Hgood).
  now rewrite <- !app_assoc.
Qed.

(** The entry of the parent folder is read once: an answer that is empty,
    or that names nothing, or that names a file, ends the run. *)
Lemma parent_entry_run (choice text : string) (keys : list Keyboard)
  (s : State Env) :
  stdin s = Line choice :: Line text :: keys ->
  invalid_choice choice = false ->
  strip text = EmptyString
  \/ os_path_exists (root (fs (world s))) (resolve_path (strip text)) = false
  \/ os_path_isdir (root (fs (world s))) (resolve_path (strip text)) = false ->
  exists m,
    scan_and_clean_flutter_projects Env spawn resolve_path s
    = ({| stdin := keys; world := world s;
          out := (out s ++ [Printed MsgModeMenu] ++ accepted_choice choice
                    ++ [Printed MsgBlank;
                        Input PromptParent (Some (Line text));
                        Printed m])%list |}, Ok tt)
    /\ (m = MsgNoPath
        \/ m = MsgNotExist (resolve_path (strip text))
        \/ m = MsgNotDir (resolve_path (strip text))).
Proof.
  intros Hin Hchoice Hbad.
  unfold scan_and_clean_flutter_projects, try_except, scan_body.
  unfold bind at 1.
  rewrite (ask_fvm_preference_run [] choice (Line text :: keys) s Hin
             eq_refl Hchoice).
  unfold bind, print, input, with_fs. cbn [emit stdin world out flat_map app].
  unfold nonempty.
  destruct (String.eqb_spec (strip text) EmptyString) as [Hempty|Hfull]; cbn [negb].
  { exists MsgNoPath. split; [|now left].
    unfold emit. cbn [stdin world out].
    now rewrite <- !app_assoc. }
  destruct (os_path_exists _ (resolve_path (strip text))) eqn:Hex;
    cbn [negb].
  2:{ exists (MsgNotExist (resolve_path (strip text))).
      split; [|right; now left].
      unfold emit. cbn [stdin world out].
    now rewrite <- !app_assoc. }
  destruct (os_path_isdir _ (resolve_path (strip text))) eqn:Hdir;
    cbn [negb].
  2:{ exists (MsgNotDir (resolve_path (strip text))).
      split; [|right; now right].
      unfold emit. cbn [stdin world out].
    now rewrite <- !app_assoc. }
  destruct Hbad as [H|[H|H]]; congruence.
Qed.

(** C9 (as amended).  At the choice of the mode an answer that is not "1"
    or "2" (white space around it apart) is followed by a complaint and
    the same prompt, until an answer is accepted.  The entry of the parent
    folder is not asked again: an empty answer, a path that does not
    exist and a path that is not a directory each end the run after one
    line of report.  The confirmation is not asked again either: an
    answer that is not a yes cancels the run. *)
Theorem prompts_contract :
  (forall (bad : list string) (good : string) (keys : list Keyboard)
          (s : State Env),
      stdin s = (map Line bad ++ Line good :: keys)%list ->
      forallb invalid_choice bad = true ->
      invalid_choice good = false ->
      ask_fvm_preference Env s
      = ({| stdin := keys; world := world s;
            out := (out s ++ [Printed MsgModeMenu]
                      ++ flat_map (fun text =>
                                     [Input PromptChoice (Some (Line text));
                                      Printed MsgInvalidChoice]) bad
                      ++ accepted_choice good)%list |},
         Ok (String.eqb (strip good) "1")))
  /\ (forall (choice text : string) (keys : list Keyboard) (s : State Env),
        stdin s = Line choice :: Line text :: keys ->
        invalid_choice choice = false ->
        strip text = EmptyString
        \/ os_path_exists (root (fs (world s))) (resolve_path (strip text))
           = false
        \/ os_path_isdir (root (fs (world s))) (resolve_path (strip text))
           = false ->
        exists m,
          scan_and_clean_flutter_projects Env spawn resolve_path s
          = ({| stdin := keys; world := world s;
                out := (out s ++ [Printed MsgModeMenu]
                          ++ accepted_choice choice
                          ++ [Printed MsgBlank;
                              Input PromptParent (Some (Line text));
                              Printed m])%list |}, Ok tt)
          /\ (m = MsgNoPath
              \/ m = MsgNotExist (resolve_path (strip text))
              \/ m = MsgNotDir (resolve_path (strip text))))
  /\ (forall (use_fvm : bool) (projects : list path) (answer : string)
             (keys : list Keyboard) (s : State Env),
        stdin s = Line answer :: keys ->
        affirmative answer = false ->
        confirm_and_clean Env spawn use_fvm projects s
        = ({| stdin := keys; world := world s;
              out := (out s
                      ++ confirm_events use_fvm (List.length projects) answer
                      ++ [Printed MsgCancelled])%list |}, Ok tt)).
Proof.
  split; [|split].
  - intros bad good keys s. apply ask_fvm_preference_run.
  - intros choice text keys s. apply parent_entry_run.
  - intros use_fvm projects answer keys s Hin Ha.
    rewrite (confirm_no spawn _ _ _ _ _ Hin Ha).
    unfold answered, emit. cbn [stdin world out].
    now rewrite <- app_assoc.
Qed.

End Prompts.

Lemma prompts_contract_witness :
  ask_fvm_preference unit (demo_state [Line "3"; Line EmptyString; Line " 2 "; Line "x"])
  = ({| stdin := [Line "x"]; world := demo_world;
        out := [Printed MsgModeMenu;
                Input PromptChoice (Some (Line "3")); Printed MsgInvalidChoice;
                Input PromptChoice (Some (Line EmptyString)); Printed MsgInvalidChoice;
                Input PromptChoice (Some (Line " 2 "));
                Printed MsgUsingFlutter] |}, Ok false)
  /\ (exists m,
        scan_and_clean_flutter_projects unit demo_spawn demo_resolve
          (demo_state [Line "1"; Line "nowhere"; Line "work"])
        = ({| stdin := [Line "work"]; world := demo_world;
              out := [Printed MsgModeMenu;
                      Input PromptChoice (Some (Line "1")); Printed MsgUsingFvm;
                      Printed MsgBlank;
                      Input PromptParent (Some (Line "nowhere"));
                      Printed m] |}, Ok tt)
        /\ (m = MsgNoPath
            \/ m = MsgNotExist (demo_resolve (strip "nowhere"))
            \/ m = MsgNotDir (demo_resolve (strip "nowhere"))))
  /\ confirm_and_clean unit demo_spawn false [["work"; "A"]]
       (demo_state [Line EmptyString; Line "y"])
     = ({| stdin := [Line "y"]; world := demo_world;
           out := confirm_events false 1 EmptyString ++ [Printed MsgCancelled] |},
        Ok tt).
Proof.
  split; [|split].
  - exact (proj1 (prompts_contract demo_spawn demo_resolve)
             ["3"; EmptyString] " 2 " [Line "x"]
             (demo_state [Line "3"; Line EmptyString; Line " 2 "; Line "x"])
             eq_refl eq_refl eq_refl).
  - apply (proj1 (proj2 (prompts_contract demo_spawn demo_resolve))
             "1" "nowhere" [Line "work"]
             (demo_state [Line "1"; Line "nowhere"; Line "work"])
             eq_refl eq_refl).
    right. left. reflexivity.
  - exact (proj2 (proj2 (prompts_contract demo_spawn demo_resolve))
             false [["work"; "A"]] EmptyString [Line "y"]
             (demo_state [Line EmptyString; Line "y"]) eq_refl eq_refl).
Defined.

(** C9 as stated fails: an empty answer to the entry of the parent folder
    is not followed by the prompt again; the run ends, the next line
    unread. *)
Lemma parent_entry_not_asked_again :
  scan_and_clean_flutter_projects unit demo_spawn demo_resolve
    (demo_state [Line "1"; Line EmptyString; Line "work"])
  = ({| stdin := [Line "work"]; world := demo_world;
        out := [Printed MsgModeMenu;
                Input PromptChoice (Some (Line "1")); Printed MsgUsingFvm;
                Printed MsgBlank;
                Input PromptParent (Some (Line EmptyString));
                Printed MsgNoPath] |}, Ok tt).
Proof. vm_compute. reflexivity. Qed.

(** ** A whole run *)

(** On the demonstration volume the operator chooses the plain command,
    names [work] and answers yes: one project is found and cleaned. *)
Example whole_run :
  let run := scan_and_clean_flutter_projects unit demo_spawn demo_resolve
               (demo_state [Line "2"; Line "work"; Line "yes"]) in
  snd run = Ok tt
  /\ invocations (out (fst run)) = [(["flutter"; "clean"], ["work"; "A"])]
  /\ In (Printed (MsgSizeBefore "1.09 KB")) (out (fst run))
  /\ In (Printed (MsgTotalSaved "1000 B")) (out (fst run))
  /\ In (Printed (MsgReduction "89.3")) (out (fst run)).
Proof. vm_compute. intuition. Qed.

(** When the command cannot be started for want of permission, the run
    ends at the first project with the report of an unexpected error and
    without a summary. *)
Example whole_run_denied :
  let run := scan_and_clean_flutter_projects unit demo_spawn_denied
               demo_resolve
               (demo_state [Line "1"; Line "work"; Line "y"]) in
  snd run = Ok tt
  /\ last (out (fst run)) (Printed MsgBlank)
     = Printed (MsgUnexpected (OSError PermissionError))
  /\ ~ In (Printed MsgSummaryTitle) (out (fst run)).
Proof.
  vm_compute. repeat split; try reflexivity.
  intros H. repeat (destruct H as [H|H]; try discriminate H). exact H.
Qed.

(** * Further properties *)

(** ** The handlers at the top *)

Section TopLevel.

Context {Env : Type}.
Variable spawn : list string -> path -> World Env -> World Env * Res ProcessExit.
Variable resolve_path : string -> path.

(** X1.  [scan_and_clean_flutter_projects] ends normally whatever the
    keyboard, the file system and the child processes do: an exception
    that leaves its body is caught, and reported by one line, the
    cancellation for [KeyboardInterrupt] and the unexpected error with the
    exception for every other; when the body ends normally nothing is
    added.  The handlers read nothing and leave the world as it is. *)
Theorem run_never_raises (s : State Env) :
  snd (scan_and_clean_flutter_projects Env spawn resolve_path s) = Ok tt
  /\ out (fst (scan_and_clean_flutter_projects Env spawn resolve_path s))
     = (out (fst (scan_body Env spawn resolve_path s))
        ++ report_of (snd (scan_body Env spawn resolve_path s)))%list
  /\ stdin (fst (scan_and_clean_flutter_projects Env spawn resolve_path s))
     = stdin (fst (scan_body Env spawn resolve_path s))
  /\ world (fst (scan_and_clean_flutter_projects Env spawn resolve_path s))
     = world (fst (scan_body Env spawn resolve_path s)).
Proof.
  unfold scan_and_clean_flutter_projects, try_except.
  destruct (scan_body Env spawn resolve_path s) as [s' [[]|e]];
    cbn [fst snd report_of].
  - rewrite app_nil_r. repeat split.
  - destruct e; cbn [is_Exception]; unfold print; cbn [fst snd out emit];
      repeat split.
Qed.

End TopLevel.

(** ** The choice of the mode without a valid answer *)

Section ChoiceWithoutAnswer.

Context {Env : Type}.

Lemma choice_loop_rejected (bad : list string) (rest : list Keyboard)
  (w : World Env) :
  forallb invalid_choice bad = true ->
  forall o : list Event,
    choice_loop Env (map Line bad ++ rest) w o
    = choice_loop Env rest w (o ++ flat_map rejected_choice bad)%list.
Proof.
  intros Hbad. induction bad as [|text bad IH]; intros o.
  - simpl. now rewrite app_nil_r.
  - cbn [forallb] in Hbad. apply andb_true_iff in Hbad as [Ht Hbad].
    cbn [map app choice_loop flat_map]. unfold invalid_choice in Ht.
    destruct (String.eqb (strip text) "1"); [discriminate|].
    destruct (String.eqb (strip text) "2"); [discriminate|].
    rewrite (IH Hbad). unfold rejected_choice at 2.
    now rewrite <- !app_assoc.
Qed.

(** X2.  When the keyboard gives answers that are not accepted and then
    ends, [ask_fvm_preference] has complained once for each and raises
    [EOFError]; when they are followed by an interrupt it raises
    [KeyboardInterrupt], the lines after the interrupt unread.  It
    returns no mode in either case, and leaves the world as it is. *)
Theorem ask_fvm_preference_without_answer (bad : list string)
  (keys : list Keyboard) (s : State Env) :
  forallb invalid_choice bad = true ->
  (stdin s = map Line bad ->
   ask_fvm_preference Env s
   = ({| stdin := []; world := world s;
         out := (out s ++ [Printed MsgModeMenu]
                   ++ flat_map rejected_choice bad
                   ++ [Input PromptChoice None])%list |}, Raise EOFError))
  /\ (stdin s = (map Line bad ++ CtrlC :: keys)%list ->
      ask_fvm_preference Env s
      = ({| stdin := keys; world := world s;
            out := (out s ++ [Printed MsgModeMenu]
                      ++ flat_map rejected_choice bad
                      ++ [Input PromptChoice (Some CtrlC)])%list |},
         Raise KeyboardInterrupt)).
Proof.
  intros Hbad. split; intros Hin;
    unfold ask_fvm_preference, bind, print; cbn [emit stdin world out];
    rewrite Hin.
  - rewrite <- (app_nil_r (map Line bad)).
    rewrite (choice_loop_rejected bad [] (world s) Hbad).
    cbn [choice_loop]. now rewrite <- !app_assoc.
  - rewrite (choice_loop_rejected bad (CtrlC :: keys) (world s) Hbad).
    cbn [choice_loop]. now rewrite <- !app_assoc.
Qed.

End ChoiceWithoutAnswer.

Lemma ask_fvm_preference_without_answer_witness :
  ask_fvm_preference unit (demo_state [Line "3"; Line "yes"])
  = ({| stdin := []; world := demo_world;
        out := [Printed MsgModeMenu;
                Input PromptChoice (Some (Line "3"));
                Printed MsgInvalidChoice;
                Input PromptChoice (Some (Line "yes"));
                Printed MsgInvalidChoice;
                Input PromptChoice None] |}, Raise EOFError)
  /\ snd (ask_fvm_preference unit (demo_state [Line "0"; CtrlC; Line "1"]))
     = Raise KeyboardInterrupt.
Proof.
  split.
  - exact (proj1 (ask_fvm_preference_without_answer ["3"; "yes"] []
                    (demo_state [Line "3"; Line "yes"]) eq_refl) eq_refl).
  - rewrite (proj2 (ask_fvm_preference_without_answer ["0"] [Line "1"]
                      (demo_state [Line "0"; CtrlC; Line "1"]) eq_refl)
               eq_refl).
    reflexivity.
Defined.

(** ** The effects of clean_flutter_project *)

Section CleanEffects.

Context {Env : Type}.
Variable spawn : list string -> path -> World Env -> World Env * Res ProcessExit.


End CleanEffects.

(** ** get_folder_size, folder by folder *)

(** X4.  On a volume the size of a folder that can be listed is the sum of
    the sizes of the files it lists that can be measured, a link to a file
    counting for the file it leads to, and of the sizes that
    [get_folder_size] gives for each of its entries that is not a link.
    For an entry that is a file, and for any path that leads to a file,
    that size is 0; for a link to a folder it is the measure of the folder
    the link leads to, which the folder that lists the link does not
    count.  [get_folder_size] does not count what a directory itself
    takes. *)
Theorem get_folder_size_by_folder (fs : FileSystem) (p : path) :
  (forall size entries,
     lookup (root fs) p = Some (Dir size true entries) ->
     exists subfolders,
       Forall2 (fun e total =>
                  get_folder_size (root fs) (os_path_join p (fst e))
                  = Ok total
                  /\ total = walk_bytes (resolve (snd e))
                  /\ (is_dir (snd e) = false -> total = 0))
         entries subfolders
       /\ get_folder_size (root fs) p
          = Ok (zsum (map (fun e => entry_file_bytes (snd e)) entries)
                + zsum (own_folders entries subfolders)))
  /\ (forall st,
        lookup (root fs) p = Some (File st) ->
        get_folder_size (root fs) p = Ok 0).
Proof.
  pose proof (root_wf fs) as Hwf. split.
  - intros size entries Hp.
    exists (map (fun e => walk_bytes (resolve (snd e))) entries). split.
    + assert (wf_node (Dir size true entries) = true) as Hd
          by (apply (lookup_wf p (root fs)); assumption).
      destruct (wf_node_entries _ _ _ Hd) as [Hnd _].
      assert (forall l, incl l entries ->
                Forall2 (fun e total =>
                           get_folder_size (root fs) (os_path_join p (fst e))
                           = Ok total
                           /\ total = walk_bytes (resolve (snd e))
                           /\ (is_dir (snd e) = false -> total = 0))
                  l (map (fun e => walk_bytes (resolve (snd e))) l)) as G.
      { induction l as [|[name n] l IH]; intros Hl; [constructor|].
        simpl map. constructor.
        - cbn [fst snd]. rewrite get_folder_size_walk by assumption.
          rewrite (lookup_join (root fs) p name size true entries Hp).
          rewrite (entry_lookup_nodup entries name n Hnd)
            by (apply Hl; now left).
          split; [reflexivity|]. split; [reflexivity|].
          unfold is_dir.
          destruct (resolve n); [reflexivity|discriminate|reflexivity].
        - apply IH. intros x Hx. apply Hl. now right. }
      apply G, incl_refl.
    + rewrite get_folder_size_walk by assumption. rewrite Hp.
      cbn [walk_bytes]. do 2 f_equal. unfold own_folders.
      clear Hp. induction entries as [|[name n] entries IH];
        [reflexivity|].
      cbn [map combine zsum fold_right fst snd]. unfold zsum in IH.
      rewrite IH. destruct n; reflexivity.
  - intros st Hp. rewrite get_folder_size_walk by assumption.
    now rewrite Hp.
Qed.

Lemma get_folder_size_by_folder_witness :
  get_folder_size (root demo_fs) ["work"; "C"] = Ok 0
  /\ exists subfolders,
       Forall2 (fun e total =>
                  get_folder_size (root linked_fs)
                    (os_path_join ["T"] (fst e)) = Ok total
                  /\ total = walk_bytes (resolve (snd e))
                  /\ (is_dir (snd e) = false -> total = 0))
         [("a.bin", File (Present 1000));
          ("link_out", Link (File (Present 6000)));
          ("dirlink", Link (Dir 4096 true [("c.bin", File (Present 300))]));
          ("sub", Dir 4096 true [])]
         subfolders
       /\ get_folder_size (root linked_fs) ["T"]
          = Ok (7000
                + zsum (own_folders
                          [("a.bin", File (Present 1000));
                           ("link_out", Link (File (Present 6000)));
                           ("dirlink",
                            Link (Dir 4096 true
                                    [("c.bin", File (Present 300))]));
                           ("sub", Dir 4096 true [])]
                          subfolders)).
Proof.
  split.
  - exact (proj2 (get_folder_size_by_folder demo_fs ["work"; "C"])
             (Present 7) eq_refl).
  - exact (proj1 (get_folder_size_by_folder linked_fs ["T"])
             4096%N
             [("a.bin", File (Present 1000));
              ("link_out", Link (File (Present 6000)));
              ("dirlink", Link (Dir 4096 true [("c.bin", File (Present 300))]));
              ("sub", Dir 4096 true [])]
             eq_refl).
Defined.

(** ** The unit that format_size chooses *)

Lemma scale_bounds (m : Z) (k : nat) :
  (1 <= k <= 4)%nat ->
  ((1 <= scale (inject_Z m) k)%Q -> 1024 ^ Z.of_nat k <= m)
  /\ ((scale (inject_Z m) k < 1024)%Q -> m < 1024 ^ Z.of_nat (S k)).
Proof.
  intros Hk.
  assert (k = 1 \/ k = 2 \/ k = 3 \/ k = 4)%nat as E by lia.
  destruct E as [-> | [-> | [-> | ->]]]; split; intros H;
    unfold scale, Qle, Qlt in H; simpl in H; lia.
Qed.

(** X5.  For an integer [n] that is not negative and that [float]
    accepts, the unit that [format_size] shows is fixed by [n] alone: B
    below 1024, KB below 1024^2, MB below 1024^3, GB below 1024^4 and TB
    from there on, the rounding of [float] moving no size across one of
    these bounds. *)
Theorem format_size_unit (n : Z) :
  0 <= n < 2 ^ 1024 - 2 ^ 970 ->
  exists value,
    format_size n = Ok (value ++ " " ++ unit_for n)
    /\ (n < 1024 -> value = str_of_int n).
Proof.
  intros H.
  destruct (format_size_nonneg n H)
    as (x & k & value & Hx & Hf & Hk & H0 & Hpos & Hlt).
  rewrite float_of_int_ok in Hx by lia. inversion Hx as [Ex]. clear Hx.
  exists value. rewrite Hf.
  destruct (Nat.eq_dec k 0) as [->|Hk0].
  - destruct (H0 eq_refl) as (Hn & Hv & _).
    unfold unit_for. apply Z.ltb_lt in Hn. rewrite Hn.
    split; [reflexivity|intros _; exact Hv].
  - destruct (Hpos Hk0) as (H1 & _ & _). subst x.
    cbn [List.length size_units] in Hk.
    assert (1 <= k <= 4)%nat as Hk14 by lia.
    destruct (scale_bounds (round_to_binary64 n) k Hk14) as [Blo Bhi].
    specialize (Blo H1).
    assert (1024 ^ Z.of_nat k <= n
            /\ ((k < 4)%nat -> n < 1024 ^ Z.of_nat (S k))) as [Hlo Hhi].
    { destruct (float_range_cases n) as [Hs|Hl].
      - rewrite round_to_binary64_small in * by assumption.
        split; [assumption|]. intros Hk4. apply Bhi, Hlt, Hk4.
      - destruct (round_to_binary64_sign n) as [_ Hbig].
        specialize (Hbig Hl).
        assert (k = 4)%nat as ->.
        { destruct (Nat.eq_dec k 4) as [E|E]; [assumption|exfalso].
          assert (k < 4)%nat as Hk4 by lia.
          specialize (Bhi (Hlt Hk4)).
          assert (1024 ^ Z.of_nat (S k) <= 1024 ^ 4) as Hp
              by (apply Z.pow_le_mono_r; lia).
          assert (1024 ^ 4 < 2 ^ 53) as Hc by reflexivity.
          lia. }
        split; [|lia].
        assert (1024 ^ Z.of_nat 4 < 2 ^ 53) as Hc by reflexivity.
        lia. }
    assert (k = 1 \/ k = 2 \/ k = 3 \/ k = 4)%nat as E by lia.
    unfold unit_for.
    destruct E as [-> | [-> | [-> | ->]]].
    + specialize (Hhi ltac:(lia)). change (Z.of_nat 1) with 1 in Hlo.
      change (Z.of_nat 2) with 2 in Hhi.
      destruct (Z.ltb_spec n 1024); [lia|].
      destruct (Z.ltb_spec n (1024 ^ 2)); [|lia].
      split; [reflexivity|lia].
    + specialize (Hhi ltac:(lia)). change (Z.of_nat 2) with 2 in Hlo.
      change (Z.of_nat 3) with 3 in Hhi.
      assert (1024 < 1024 ^ 2) by reflexivity.
      destruct (Z.ltb_spec n 1024); [lia|].
      destruct (Z.ltb_spec n (1024 ^ 2)); [lia|].
      destruct (Z.ltb_spec n (1024 ^ 3)); [|lia].
      split; [reflexivity|lia].
    + specialize (Hhi ltac:(lia)). change (Z.of_nat 3) with 3 in Hlo.
      change (Z.of_nat 4) with 4 in Hhi.
      assert (1024 < 1024 ^ 2) by reflexivity.
      assert (1024 ^ 2 < 1024 ^ 3) by reflexivity.
      destruct (Z.ltb_spec n 1024); [lia|].
      destruct (Z.ltb_spec n (1024 ^ 2)); [lia|].
      destruct (Z.ltb_spec n (1024 ^ 3)); [lia|].
      destruct (Z.ltb_spec n (1024 ^ 4)); [|lia].
      split; [reflexivity|lia].
    + change (Z.of_nat 4) with 4 in Hlo.
      assert (1024 < 1024 ^ 2) by reflexivity.
      assert (1024 ^ 2 < 1024 ^ 3) by reflexivity.
      assert (1024 ^ 3 < 1024 ^ 4) by reflexivity.
      destruct (Z.ltb_spec n 1024); [lia|].
      destruct (Z.ltb_spec n (1024 ^ 2)); [lia|].
      destruct (Z.ltb_spec n (1024 ^ 3)); [lia|].
      destruct (Z.ltb_spec n (1024 ^ 4)); [lia|].
      split; [reflexivity|lia].
Qed.

Lemma format_size_unit_witness :
  exists value,
    format_size (5 * 1024 ^ 3 + 7) = Ok (value ++ " GB")
    /\ (5 * 1024 ^ 3 + 7 < 1024 -> value = str_of_int (5 * 1024 ^ 3 + 7)).
Proof.
  apply (format_size_unit (5 * 1024 ^ 3 + 7)).
  split; [discriminate|reflexivity].
Defined.

(** ** What clean_flutter_project shows *)

Section CleanNarration.

Context {Env : Type}.
Variable spawn : list string -> path -> World Env -> World Env * Res ProcessExit.

(** X6.  [clean_flutter_project] shows the size before, then starts the
    command.  When the command ends with status 0 it measures again and
    shows the size after, the space saved, the output of the command if
    there is some beside white space, and the success.  When the command
    ends with another status it shows the error, and its error stream
    if there is one, and when the command is not found it shows which
    tool is missing: in both cases the folder is not measured again and
    no size after is shown. *)
Theorem clean_flutter_project_narration (project_path : path)
  (use_fvm : bool) (s : State Env) (w' : World Env) (r : Res ProcessExit) :
  spawn (clean_command use_fvm) project_path (world s) = (w', r) ->
  exists before after tb ta ts,
    get_folder_size (root (fs (world s))) project_path = Ok before
    /\ get_folder_size (root (fs w')) project_path = Ok after
    /\ format_size before = Ok tb
    /\ format_size after = Ok ta
    /\ format_size (before - after) = Ok ts
    /\ (forall exit,
          r = Ok exit -> returncode exit = 0 ->
          out (fst (clean_flutter_project Env spawn project_path use_fvm s))
          = (out s ++ narration_before project_path use_fvm tb
               ++ [Printed MsgMeasuringAfter;
                   Printed (MsgSizeAfter ta);
                   Printed (MsgSpaceSaved ts)]
               ++ (if nonempty (strip (stdout exit))
                   then [Printed (MsgFlutterOutput (strip (stdout exit)))]
                   else [])
               ++ [Printed (MsgCleaned (os_path_basename project_path))])%list)
    /\ (forall exit,
          r = Ok exit -> returncode exit <> 0 ->
          out (fst (clean_flutter_project Env spawn project_path use_fvm s))
          = (out s ++ narration_before project_path use_fvm tb
               ++ [Printed (MsgErrorCleaning
                              (os_path_basename project_path)
                              (CalledProcessError (returncode exit)
                                 (stderr exit)))]
               ++ (if nonempty (stderr exit)
                   then [Printed (MsgErrorDetails (strip (stderr exit)))]
                   else []))%list)
    /\ (r = Raise (OSError FileNotFoundError) ->
        out (fst (clean_flutter_project Env spawn project_path use_fvm s))
        = (out s ++ narration_before project_path use_fvm tb
             ++ [Printed (if use_fvm then MsgFvmNotFound
                          else MsgFlutterNotFound)])%list).
Proof.
  intros Hsp.
  destruct (get_folder_size_bounded (fs (world s)) project_path)
    as (before & Hb & Bb).
  destruct (get_folder_size_bounded (fs w') project_path)
    as (after & Ha & Ba).
  assert (2 ^ 64 < 2 ^ 1024 - 2 ^ 970) as Hc by reflexivity.
  destruct (format_size_ok before) as (tb & Htb); [lia|].
  destruct (format_size_ok after) as (ta & Hta); [lia|].
  destruct (format_size_ok (before - after)) as (ts & Hts); [lia|].
  exists before, after, tb, ta, ts.
  do 5 (split; [assumption|]).
  unfold clean_flutter_project, try_except, bind, print, with_fs, lift, ret,
    subprocess_run, narration_before, command_description.
  cbn [emit world stdin out].
  rewrite Hb, Htb.
  fold (clean_command use_fvm). rewrite Hsp.
  split; [|split].
  - intros exit -> Hz. rewrite Hz. cbn [Z.eqb emit world stdin out fs].
    rewrite Ha, Hta, Hts.
    destruct (nonempty (strip (stdout exit))); cbn [fst out emit];
      now rewrite <- !app_assoc.
  - intros exit -> Hz. apply Z.eqb_neq in Hz. rewrite Hz.
    destruct (nonempty (stderr exit)); cbn [fst out emit];
      now rewrite <- !app_assoc.
  - intros ->. destruct use_fvm; cbn [fst out emit];
      now rewrite <- !app_assoc.
Qed.

End CleanNarration.

Lemma clean_flutter_project_narration_witness :
  out (fst (clean_flutter_project unit demo_spawn ["work"; "A"] false
              (demo_state [])))
  = [Printed (MsgCleaning "A");
     Printed MsgMeasuringBefore;
     Printed (MsgSizeBefore "1.09 KB");
     Printed (MsgRunning "flutter clean");
     Run ["flutter"; "clean"] ["work"; "A"];
     Printed MsgMeasuringAfter;
     Printed (MsgSizeAfter "120 B");
     Printed (MsgSpaceSaved "1000 B");
     Printed (MsgFlutterOutput "Deleting build...");
     Printed (MsgCleaned "A")].
Proof.
  destruct (clean_flutter_project_narration demo_spawn ["work"; "A"] false
              (demo_state []) _ _ eq_refl)
    as (before & after & tb & ta & ts & Hb & Ha & Htb & Hta & Hts & Hok & _).
  rewrite (Hok _ eq_refl eq_refl).
  vm_compute in Hb. vm_compute in Ha.
  inversion Hb; inversion Ha; subst.
  vm_compute in Htb. vm_compute in Hta. vm_compute in Hts.
  inversion Htb; inversion Hta; inversion Hts; subst.
  reflexivity.
Defined.

(** ** What the totals count *)

Section TotalsCount.

Context {Env : Type}.
Variable spawn : list string -> path -> World Env -> World Env * Res ProcessExit.

Lemma totals_sane_step (use_fvm : bool) (count i : nat) (t : BatchTotals)
  (project_path : path) (s s' : State Env) (i' : nat) (t' : BatchTotals) :
  clean_one Env spawn use_fvm count (i, t) project_path s
  = (s', Ok (i', t')) ->
  totals_sane t -> totals_sane t'.
Proof.
  intros Hrun Ht.
  destruct (spawn (clean_command use_fvm) project_path
              (world (emit Env (Printed (MsgProcessing i count)) s)))
    as [w' r] eqn:Hsp.
  destruct (clean_flutter_project_run spawn project_path use_fvm
              (emit Env (Printed (MsgProcessing i count)) s) w' r Hsp)
    as (before & after & s1 & _ & Bb & _ & Ba & Hclean & _).
  unfold clean_one, bind, print, ret in Hrun. rewrite Hclean in Hrun.
  destruct Ht as (H1 & H2 & H3 & H4 & H5).
  assert (forall o, outcome_of r before after = Ok o ->
            totals_sane (add_outcome t o)) as G.
  { intros o Ho. unfold outcome_of in Ho.
    assert (totals_sane (add_outcome t failed_outcome)) as Gf.
    { unfold totals_sane, add_outcome. simpl. repeat split; try lia.
      all: destruct (H5 ltac:(assumption)) as (? & ? & ?); lia. }
    destruct r as [exit|e].
    - destruct (returncode exit =? 0); inversion Ho; subst; [|exact Gf].
      unfold totals_sane, add_outcome. simpl. repeat split; lia.
    - destruct e as [k| | | | | |]; try discriminate;
        [destruct k; try discriminate|]; inversion Ho; subst; exact Gf. }
  destruct (outcome_of r before after) as [o|e]; [|discriminate].
  inversion Hrun; subst. now apply G.
Qed.

Lemma totals_sane_loop (use_fvm : bool) (count : nat)
  (projects : list path) :
  forall (i : nat) (t : BatchTotals) (s s' : State Env) (i' : nat)
         (t' : BatchTotals),
    clean_loop Env spawn use_fvm count i t projects s = (s', Ok (i', t')) ->
    totals_sane t -> totals_sane t'.
Proof.
  unfold clean_loop.
  induction projects as [|p projects IH]; intros i t s s' i' t' Hrun Ht.
  - inversion Hrun; subst. exact Ht.
  - cbn [for_M] in Hrun. unfold bind in Hrun.
    destruct (clean_one Env spawn use_fvm count (i, t) p s)
      as [s1 [[i1 t1]|e]] eqn:Hone; [|discriminate].
    apply (IH i1 t1 s1 s' i' t' Hrun).
    apply (totals_sane_step use_fvm count i t p s s1 i1 t1 Hone Ht).
Qed.

(** X7.  When the loop over the projects ends, the counts and the sizes
    before and after in the totals are not negative, and when no project
    was cleaned with success the three sizes of the summary are 0: a
    project whose command failed adds nothing to them, though its size
    was measured and shown. *)
Theorem totals_count_successes (use_fvm : bool) (count : nat)
  (projects : list path) (s s' : State Env) (i : nat) (t : BatchTotals) :
  clean_loop Env spawn use_fvm count 1 no_totals projects s
  = (s', Ok (i, t)) ->
  0 <= successful_cleans t
  /\ 0 <= failed_cleans t
  /\ 0 <= total_size_before t
  /\ 0 <= total_size_after t
  /\ (successful_cleans t = 0 ->
      total_size_before t = 0 /\ total_size_after t = 0
      /\ total_size_saved t = 0).
Proof.
  intros Hrun.
  apply (totals_sane_loop use_fvm count projects 1 no_totals s s' i t Hrun).
  unfold totals_sane, no_totals. simpl. repeat split; lia.
Qed.

End TotalsCount.

Lemma totals_count_successes_witness :
  exists s' i t,
    clean_loop unit demo_spawn true 2 1 no_totals
      [["work"; "A"]; ["work"; ".hidden"]] (demo_state [])
    = (s', Ok (i, t))
    /\ 0 <= total_size_before t
    /\ 0 <= total_size_after t.
Proof.
  destruct (clean_loop unit demo_spawn true 2 1 no_totals
              [["work"; "A"]; ["work"; ".hidden"]] (demo_state []))
    as [s' [[i t]|e]] eqn:E.
  - exists s', i, t. split; [reflexivity|].
    destruct (totals_count_successes demo_spawn true 2
                [["work"; "A"]; ["work"; ".hidden"]] (demo_state [])
                s' i t E) as (_ & _ & Hb & Ha & _).
    split; assumption.
  - exfalso. vm_compute in E. discriminate E.
Defined.

(** ** Where and when the command is run *)



Section RunScope.

Context {Env : Type}.
Variable spawn : list string -> path -> World Env -> World Env * Res ProcessExit.
Variable resolve_path : string -> path.

Lemma calm_app (a b : list Event) : calm (a ++ b) = calm a && calm b.
Proof. unfold calm. now rewrite inputs_app, forallb_app. Qed.

Lemma calm_In (evs : list Event) (p : Prompt) (k : option Keyboard) :
  calm evs = true -> In (Input p k) evs -> answer_given k = true.
Proof.
  unfold calm. intros Hc Hin. apply In_inputs in Hin.
  rewrite forallb_forall in Hc. exact (Hc (p, k) Hin).
Qed.

Lemma calm_found (items : list string) :
  calm (map (fun item => Printed (MsgFound item)) items) = true.
Proof. induction items as [|item items IH]; [reflexivity|exact IH]. Qed.

Lemma stops_after {A : Type} (a b : list Event) (r : Res A) :
  calm a = true -> stops b r -> stops (a ++ b) r.
Proof.
  intros Ha [Hb|(pre & p & k & -> & Hpre & Hk & ->)].
  - left. now rewrite calm_app, Ha, Hb.
  - right. exists (a ++ pre)%list, p, k.
    rewrite app_assoc, calm_app, Ha, Hpre. now repeat split.
Qed.

Lemma choice_loop_stops (keys : list Keyboard) (w : World Env) :
  forall o : list Event,
  exists evs keys' r,
    choice_loop Env keys w o
    = ({| stdin := keys'; world := w; out := (o ++ evs)%list |}, r)
    /\ quiet evs = true
    /\ stops evs r.
Proof.
  induction keys as [|[text|] keys IH]; intros o; cbn [choice_loop].
  - eexists _, _, _. split; [reflexivity|]. split; [reflexivity|].
    right. exists [], PromptChoice, None. now repeat split.
  - destruct (String.eqb (strip text) "1").
    { eexists _, _, _. split; [rewrite <- app_assoc; reflexivity|].
      split; [reflexivity|left; reflexivity]. }
    destruct (String.eqb (strip text) "2").
    { eexists _, _, _. split; [rewrite <- app_assoc; reflexivity|].
      split; [reflexivity|left; reflexivity]. }
    destruct (IH ((o ++ [Input PromptChoice (Some (Line text))])
                    ++ [Printed MsgInvalidChoice])%list)
      as (evs & keys' & r & Hrun & Hq & Hst).
    exists ([Input PromptChoice (Some (Line text)); Printed MsgInvalidChoice]
              ++ evs)%list, keys', r.
    split; [rewrite Hrun, <- !app_assoc; reflexivity|].
    split; [exact Hq|]. now apply stops_after.
  - eexists _, _, _. split; [reflexivity|]. split; [reflexivity|].
    right. exists [], PromptChoice, (Some CtrlC). now repeat split.
Qed.

Lemma ask_fvm_preference_stops (s : State Env) :
  exists evs keys' r,
    ask_fvm_preference Env s
    = ({| stdin := keys'; world := world s; out := (out s ++ evs)%list |}, r)
    /\ quiet evs = true
    /\ stops evs r.
Proof.
  unfold ask_fvm_preference, bind, print. cbn [emit stdin world out].
  destruct (choice_loop_stops (stdin s) (world s)
              (out s ++ [Printed MsgModeMenu])%list)
    as (evs & keys' & r & Hrun & Hq & Hst).
  exists ([Printed MsgModeMenu] ++ evs)%list, keys', r.
  split; [rewrite Hrun, <- app_assoc; reflexivity|].
  split; [exact Hq|]. now apply stops_after.
Qed.

(** Once the confirmation is given, no prompt follows. *)
Lemma confirm_yes_inputs (use_fvm : bool) (projects : list path)
  (s : State Env) (answer : string) (keys : list Keyboard) :
  stdin s = Line answer :: keys ->
  affirmative answer = true ->
  inputs (out (fst (confirm_and_clean Env spawn use_fvm projects s)))
  = (inputs (out s)
     ++ [(PromptConfirm (command_description use_fvm)
            (List.length projects), Some (Line answer))])%list.
Proof.
  intros Hin Ha.
  rewrite (confirm_yes spawn use_fvm projects s answer keys Hin Ha).
  set (s2 := emit Env (Printed (MsgRule 60)) _).
  assert (inputs (out s2)
          = (inputs (out s)
             ++ [(PromptConfirm (command_description use_fvm)
                    (List.length projects), Some (Line answer))])%list)
    as Hs2.
  { unfold s2, answered, confirm_events. cbn [out emit].
    rewrite !inputs_app. simpl. now rewrite !app_nil_r. }
  assert (totals_consistent no_totals 0) as H0 by (split; reflexivity).
  destruct (clean_loop_run spawn use_fvm (List.length projects) projects
              1 0 no_totals s2 H0)
    as (s3 & res & Hrun & [_ Hinp] & _).
  unfold bind. rewrite Hrun. destruct res as [[i t]|e].
  - destruct (print_summary_run (command_description use_fvm)
                (List.length projects) t s3)
      as (evs3 & r & Hsum & [_ Hnone] & _).
    cbn [snd]. rewrite Hsum. cbn [fst]. unfold emit_all. cbn [out].
    now rewrite inputs_app, Hnone, app_nil_r, Hinp, Hs2.
  - cbn [fst]. now rewrite Hinp, Hs2.
Qed.

Ltac extends_trace :=
  unfold emit, emit_all; cbn [stdin world out];
  rewrite <- ?app_assoc; reflexivity.

Ltac stays_quiet H :=
  unfold quiet in *; rewrite ?forallb_app; cbn [forallb quiet_event];
  rewrite ?H; try rewrite (quiet_found : forall l, forallb _ _ = true);
  reflexivity.

Ltac stays_calm H :=
  rewrite ?calm_app, ?H, ?calm_found; reflexivity.

(** The run ends here, every prompt answered. *)
Ltac stops_here H C :=
  eexists _, _, (fun s1 => (s1, _));
  split; [cbv beta; extends_trace|];
  split; [stays_quiet H|];
  left; eexists; split; [reflexivity|left; stays_calm C].

(** A run that comes to the confirmation has read a parent folder and has
    listed it; the projects it asks about are the items kept.  A run that
    ends before has answered every prompt, or ends at the first prompt
    that is not answered. *)
Lemma scan_body_discovers (s : State Env) :
  exists evs keys' next,
    scan_body Env spawn resolve_path s
    = next {| stdin := keys'; world := world s;
              out := (out s ++ evs)%list |}
    /\ quiet evs = true
    /\ ((exists r, next = (fun s1 => (s1, r)) /\ stops evs r)
        \/ (exists use_fvm text items,
              calm evs = true
              /\ In (Input PromptParent (Some (Line text))) evs
              /\ os_listdir (root (fs (world s))) (resolve_path (strip text))
                 = Ok items
              /\ next
                 = confirm_and_clean Env spawn use_fvm
                     (map (os_path_join (resolve_path (strip text)))
                        (filter (keeps (root (fs (world s)))
                                   (resolve_path (strip text))) items)))).
Proof.
  unfold scan_body. unfold bind at 1.
  destruct (ask_fvm_preference_stops s)
    as (evs1 & keys1 & r1 & Hask & Hq1 & Hst1).
  rewrite Hask. destruct r1 as [use_fvm|e].
  2:{ exists evs1, keys1, (fun s1 => (s1, Raise e)).
      split; [reflexivity|]. split; [exact Hq1|].
      left. eexists. split; [reflexivity|].
      destruct Hst1 as [Hc|(pre & p & k & -> & Hpre & Hk & Hr)].
      - now left.
      - right. exists pre, p, k. repeat split; try assumption.
        now inversion Hr. }
  assert (calm evs1 = true) as Hc1.
  { destruct Hst1 as [Hc|(pre & p & k & _ & _ & _ & Hr)];
      [exact Hc|discriminate Hr]. }
  unfold bind at 1. unfold print at 1.
  unfold bind at 1. unfold input at 1. cbn [emit stdin world out].
  destruct keys1 as [|[text|] keys2].
  1:{ eexists _, _, (fun s1 => (s1, _)).
      split; [cbv beta; extends_trace|].
      split; [stays_quiet Hq1|].
      left. eexists. split; [reflexivity|].
      right. exists (evs1 ++ [Printed MsgBlank])%list, PromptParent, None.
      split; [now rewrite <- app_assoc|].
      split; [stays_calm Hc1|split; reflexivity]. }
  2:{ eexists _, _, (fun s1 => (s1, _)).
      split; [cbv beta; extends_trace|].
      split; [stays_quiet Hq1|].
      left. eexists. split; [reflexivity|].
      right.
      exists (evs1 ++ [Printed MsgBlank])%list, PromptParent, (Some CtrlC).
      split; [now rewrite <- app_assoc|].
      split; [stays_calm Hc1|split; reflexivity]. }
  unfold nonempty.
  destruct (String.eqb (strip text) EmptyString); cbn [negb].
  1:{ unfold print. stops_here Hq1 Hc1. }
  unfold bind at 1. unfold with_fs at 1. cbn [world].
  destruct (os_path_exists _ _); cbn [negb].
  2:{ unfold print. stops_here Hq1 Hc1. }
  unfold bind at 1. unfold with_fs at 1. cbn [world].
  destruct (os_path_isdir _ _); cbn [negb].
  2:{ unfold print. stops_here Hq1 Hc1. }
  unfold bind at 1. unfold print at 1.
  unfold bind at 1. unfold print at 1.
  unfold bind at 1. unfold try_except at 1.
  unfold bind at 1. unfold discover_projects.
  unfold bind at 1 2. unfold with_fs at 1. unfold lift at 1.
  cbn [emit stdin world out].
  destruct (os_listdir _ _) as [items|e] eqn:Hlist.
  2:{ destruct (is_PermissionError e).
      - unfold bind, print, ret. stops_here Hq1 Hc1.
      - stops_here Hq1 Hc1. }
  rewrite discover_loop. unfold ret at 1. cbn [app world].
  match goal with
  | |- context [filter ?f items] =>
      destruct (filter f items) as [|p ps] eqn:Hkept
  end; cbn [world emit] in Hkept.
  - cbn [map]. unfold print. stops_here Hq1 Hc1.
  - eexists _, _, (confirm_and_clean Env spawn use_fvm _).
    split; [apply (f_equal (confirm_and_clean Env spawn use_fvm _));
            extends_trace|].
    split; [cbn [map]; stays_quiet Hq1|].
    right. exists use_fvm, text, items.
    split; [stays_calm Hc1|].
    split; [|split; [exact Hlist|now rewrite Hkept]].
    apply in_or_app. right. simpl. tauto.
Qed.


(** X9.  When the parent folder typed is a directory that may not be
    listed, or one in which no entry is a directory with a name not
    starting with a dot and a [pubspec.yaml] of its own, the run ends
    after the scan with one message, permission denied or no project
    found: it returns without an exception, asks no confirmation and
    leaves the rest of the keyboard input unread, starts no command and
    leaves the volume as it is. *)
Theorem run_without_projects (choice text : string) (keys : list Keyboard)
  (s : State Env) (size : N) (readable : bool)
  (entries : list (string * node)) :
  stdin s = Line choice :: Line text :: keys ->
  invalid_choice choice = false ->
  strip text <> EmptyString ->
  lookup (root (fs (world s))) (resolve_path (strip text))
  = Some (Dir size readable entries) ->
  (readable = true -> filter keeps_entry entries = []) ->
  scan_and_clean_flutter_projects Env spawn resolve_path s
  = ({| stdin := keys; world := world s;
        out := (out s ++ [Printed MsgModeMenu] ++ accepted_choice choice
                  ++ [Printed MsgBlank;
                      Input PromptParent (Some (Line text));
                      Printed (MsgScanning (resolve_path (strip text)));
                      Printed (MsgRule 60);
                      Printed (if readable then MsgNoProjects
                               else MsgPermissionDenied
                                      (resolve_path (strip text)))])%list |},
     Ok tt).
Proof.
  intros Hin Hchoice Hfull Hlook Hnone.
  unfold scan_and_clean_flutter_projects, try_except, scan_body.
  unfold bind at 1.
  rewrite (ask_fvm_preference_run [] choice (Line text :: keys) s Hin
             eq_refl Hchoice).
  unfold bind at 1. unfold print at 1.
  unfold bind at 1. unfold input at 1.
  cbn [emit stdin world out flat_map app].
  unfold nonempty.
  destruct (String.eqb_spec (strip text) EmptyString) as [Hempty|_];
    [contradiction|]. cbn [negb].
  unfold bind at 1. unfold with_fs at 1. cbn [world].
  unfold os_path_exists. rewrite Hlook.
  unfold node_exists. cbn [resolve negb].
  unfold bind at 1. unfold with_fs at 1. cbn [world].
  unfold os_path_isdir. rewrite Hlook. unfold is_dir. cbn [resolve negb].
  unfold bind at 1. unfold print at 1.
  unfold bind at 1. unfold print at 1.
  unfold bind at 1. unfold try_except at 1.
  unfold bind at 1. unfold discover_projects.
  unfold bind at 1 2. unfold with_fs at 1. unfold lift at 1.
  cbn [emit stdin world out].
  unfold os_listdir. rewrite Hlook.
  destruct readable.
  - rewrite discover_loop. unfold ret at 1. cbn [app world emit].
    assert (map (os_path_join (resolve_path (strip text)))
              (filter (keeps (root (fs (world s)))
                         (resolve_path (strip text))) (map fst entries))
            = []) as Hkept.
    { rewrite filter_keeps_entries.
      - now rewrite (Hnone eq_refl).
      - apply (keeps_keeps_entry _ _ size true entries Hlook).
        apply (wf_node_entries size true entries).
        apply (lookup_wf _ _ _ (root_wf (fs (world s))) Hlook). }
    rewrite Hkept.
    apply map_eq_nil in Hkept. rewrite Hkept. cbn [map].
    unfold print, emit_all, emit. cbn [stdin world out].
    now rewrite <- ?app_assoc, ?app_nil_r.
  - cbn [is_PermissionError]. unfold bind, print, ret, emit.
    cbn [stdin world out]. now rewrite <- !app_assoc.
Qed.

End RunScope.

Lemma run_without_projects_witness :
  scan_and_clean_flutter_projects unit demo_spawn
    (fun text => ["work"; text])
    (demo_state [Line "2"; Line " A "; Line "y"])
  = ({| stdin := [Line "y"]; world := demo_world;
        out := [Printed MsgModeMenu;
                Input PromptChoice (Some (Line "2"));
                Printed MsgUsingFlutter;
                Printed MsgBlank;
                Input PromptParent (Some (Line " A "));
                Printed (MsgScanning ["work"; "A"]);
                Printed (MsgRule 60);
                Printed MsgNoProjects] |}, Ok tt).
Proof.
  apply (run_without_projects demo_spawn (fun text => ["work"; text])
           "2" " A " [Line "y"]
           (demo_state [Line "2"; Line " A "; Line "y"])
           4096%N true
           [("pubspec.yaml", File (Present 120));
            ("build", Dir 4096 true [("app.bin", File (Present 1000))])]).
  - reflexivity.
  - reflexivity.
  - vm_compute. discriminate.
  - reflexivity.
  - intros _. reflexivity.
Defined.

(** ** The mode that is chosen *)

Section Choice.

Context {Env : Type}.

Lemma choice_loop_returns (keys : list Keyboard) (w : World Env) :
  forall (o : list Event) (s' : State Env) (use_fvm : bool),
    choice_loop Env keys w o = (s', Ok use_fvm) ->
    exists bad good,
      keys = (map Line bad ++ Line good :: stdin s')%list
      /\ forallb invalid_choice bad = true
      /\ strip good = (if use_fvm then "1" else "2")
      /\ world s' = w
      /\ out s' = (o ++ flat_map rejected_choice bad
                     ++ accepted_choice good)%list.
Proof.
  induction keys as [|[text|] keys IH]; intros o s' use_fvm Hrun;
    cbn [choice_loop] in Hrun; try discriminate.
  destruct (String.eqb_spec (strip text) "1") as [H1|H1].
  { inversion Hrun; subst. exists [], text. cbn [map app flat_map stdin world out].
    unfold accepted_choice. rewrite H1. cbn [String.eqb Ascii.eqb Bool.eqb].
    repeat split. now rewrite <- app_assoc. }
  destruct (String.eqb_spec (strip text) "2") as [H2|H2].
  { inversion Hrun; subst. exists [], text. cbn [map app flat_map stdin world out].
    unfold accepted_choice. rewrite H2. cbn [String.eqb Ascii.eqb Bool.eqb].
    repeat split. now rewrite <- app_assoc. }
  destruct (IH _ _ _ Hrun) as (bad & good & Hkeys & Hbad & Hgood & Hw & Hout).
  exists (text :: bad), good. cbn [map app flat_map forallb].
  split; [now rewrite Hkeys|].
  split.
  { unfold invalid_choice at 1.
    apply String.eqb_neq in H1, H2. now rewrite H1, H2. }
  split; [exact Hgood|]. split; [exact Hw|].
  rewrite Hout. unfold rejected_choice at 2. now rewrite <- !app_assoc.
Qed.

(** X10.  [ask_fvm_preference] returns only on a line that, white space
    apart, is [1] or [2]: every line before it was another answer and got
    one complaint, the result is [True] (FVM) exactly when the line is
    [1], and the lines after it are left unread.  No input makes it
    return a mode that was not typed. *)
Theorem ask_fvm_preference_choice (s s' : State Env) (use_fvm : bool) :
  ask_fvm_preference Env s = (s', Ok use_fvm) ->
  exists bad good,
    stdin s = (map Line bad ++ Line good :: stdin s')%list
    /\ forallb invalid_choice bad = true
    /\ strip good = (if use_fvm then "1" else "2")
    /\ world s' = world s
    /\ out s' = (out s ++ [Printed MsgModeMenu]
                   ++ flat_map rejected_choice bad
                   ++ accepted_choice good)%list.
Proof.
  unfold ask_fvm_preference, bind, print. cbn [emit stdin world out].
  intros Hrun.
  destruct (choice_loop_returns _ _ _ _ _ Hrun)
    as (bad & good & Hkeys & Hbad & Hgood & Hw & Hout).
  exists bad, good. rewrite Hout, <- app_assoc. now repeat split.
Qed.

End Choice.

Lemma ask_fvm_preference_choice_witness :
  exists bad good,
    [Line "3"; Line " 1 "; Line "rest"]
    = (map Line bad ++ [Line good; Line "rest"])%list
    /\ forallb invalid_choice bad = true
    /\ strip good = "1".
Proof.
  destruct (ask_fvm_preference unit
              (demo_state [Line "3"; Line " 1 "; Line "rest"]))
    as [s' [use_fvm|e]] eqn:E.
  - destruct (ask_fvm_preference_choice _ s' use_fvm E)
      as (bad & good & Hin & Hbad & Hgood & _ & _).
    vm_compute in E. inversion E; subst.
    exists bad, good. split; [exact Hin|]. split; [exact Hbad|exact Hgood].
  - exfalso. vm_compute in E. discriminate E.
Defined.

(** ** What changes the volume *)

Section Replay.

Context {Env : Type}.
Variable spawn : list string -> path -> World Env -> World Env * Res ProcessExit.
Variable resolve_path : string -> path.

Lemma replay_app (a b : list (list string * path)) (w : World Env) :
  replay spawn (a ++ b) w = replay spawn b (replay spawn a w).
Proof. apply fold_left_app. Qed.

Lemma clean_loop_replay (use_fvm : bool) (count : nat)
  (projects : list path) :
  forall (i : nat) (t : BatchTotals) (s : State Env),
    exists new,
      invocations
        (out (fst (clean_loop Env spawn use_fvm count i t projects s)))
      = (invocations (out s) ++ new)%list
      /\ world (fst (clean_loop Env spawn use_fvm count i t projects s))
         = replay spawn new (world s).
Proof.
  unfold clean_loop.
  induction projects as [|p projects IH]; intros i t s.
  - exists []. cbn [for_M ret fst]. now rewrite app_nil_r.
  - cbn [for_M]. unfold bind.
    destruct (clean_one_run spawn use_fvm count i t p s)
      as (before & after & s1 & Hone & _ & Hw & Hinv & _).
    rewrite Hone.
    destruct (outcome_of _ before after) as [o|e].
    + destruct (IH (S i) (add_outcome t o) s1) as (new & Hnew & Hworld).
      exists ((clean_command use_fvm, p) :: new).
      rewrite Hnew, Hworld, Hinv, Hw, <- app_assoc. split; reflexivity.
    + exists [(clean_command use_fvm, p)]. cbn [fst].
      rewrite Hinv, Hw. split; reflexivity.
Qed.

(** X11.  The script itself changes nothing on the volume: whatever is
    typed, the world at the end of a run is the world at its start after
    the child processes that the trace shows, each started in the world
    that the one before it left; a run that starts no command leaves the
    world as it was. *)
Theorem run_changes_world_by_commands_only (keys : list Keyboard)
  (w : World Env) :
  world (fst (scan_and_clean_flutter_projects Env spawn resolve_path
                (start keys w)))
  = replay spawn
      (invocations
         (out (fst (scan_and_clean_flutter_projects Env spawn resolve_path
                      (start keys w))))) w.
Proof.
  assert (world (fst (scan_body Env spawn resolve_path (start keys w)))
          = replay spawn
              (invocations
                 (out (fst (scan_body Env spawn resolve_path
                              (start keys w))))) w) as Hbody.
  { destruct (scan_body_cases spawn resolve_path (start keys w))
      as (evs & keys' & next & Hb & Hq & Hnext).
    rewrite Hb. cbn [start out world app].
    destruct (quiet_spec evs Hq) as (He & _ & _).
    destruct Hnext as [[r' ->]|(use_fvm & projects & ->)].
    { cbn [fst world out]. now rewrite He. }
    destruct keys' as [|[answer|] keys2].
    1,3: unfold confirm_and_clean, bind, print, input, emit;
         cbn [fst stdin world out];
         rewrite !invocations_app, He; reflexivity.
    set (s1 := {| stdin := Line answer :: keys2; world := w; out := evs |}).
    destruct (affirmative answer) eqn:Ha.
    2:{ rewrite (confirm_no spawn use_fvm projects s1 answer keys2
                   eq_refl Ha).
        unfold answered, confirm_events. cbn [fst world out emit s1].
        rewrite !invocations_app, He. reflexivity. }
    rewrite (confirm_yes spawn use_fvm projects s1 answer keys2 eq_refl Ha).
    set (s2 := emit Env (Printed (MsgRule 60)) _).
    assert (invocations (out s2) = [] /\ world s2 = w) as [Hi2 Hw2].
    { unfold s2, answered, confirm_events. cbn [out emit world s1].
      rewrite !invocations_app, He. split; reflexivity. }
    destruct (clean_loop_replay use_fvm (List.length projects) projects
                1 no_totals s2) as (new & Hnew & Hworld).
    unfold bind.
    destruct (clean_loop Env spawn use_fvm (List.length projects) 1
                no_totals projects s2) as [s3 [[i t]|e]];
      cbn [fst] in Hnew, Hworld.
    - destruct (print_summary_run (command_description use_fvm)
                  (List.length projects) t s3)
        as (evs3 & r3 & Hsum & [Hnone _] & _).
      cbn [snd]. rewrite Hsum. unfold emit_all. cbn [fst world out].
      now rewrite invocations_app, Hnone, app_nil_r, Hnew, Hi2, Hworld, Hw2.
    - cbn [fst]. now rewrite Hnew, Hi2, Hworld, Hw2. }
  unfold scan_and_clean_flutter_projects, try_except.
  destruct (scan_body Env spawn resolve_path (start keys w)) as [s' [u|e]];
    cbn [fst] in *.
  - exact Hbody.
  - destruct e; cbn [is_Exception]; unfold print; cbn [fst out emit world];
      rewrite ?invocations_app, ?app_nil_r; exact Hbody.
Qed.

End Replay.

(** ** What the sizes shown measure *)

Section Measures.

Context {Env : Type}.
Variable spawn : list string -> path -> World Env -> World Env * Res ProcessExit.

(** X12.  The sizes that [clean_flutter_project] returns depend on what
    the path of the project leads to only, links followed: on success
    they are the bytes that a walk reaches from there, the files that its
    links lead to among them, in the volume before the command and in the
    volume that the command left, and the space saved is their
    difference.  So a command that ends with status 0 and leaves what the
    path leads to as it was saves 0 bytes, whatever it changed in the
    rest of the volume. *)
Theorem clean_flutter_project_measures (project_path : path)
  (use_fvm : bool) (s : State Env) (w' : World Env) (r : Res ProcessExit) :
  spawn (clean_command use_fvm) project_path (world s) = (w', r) ->
  snd (clean_flutter_project Env spawn project_path use_fvm s)
  = outcome_of r (reachable_bytes (root (fs (world s))) project_path)
      (reachable_bytes (root (fs w')) project_path)
  /\ (forall exit,
        r = Ok exit -> returncode exit = 0 ->
        lookup (root (fs w')) project_path
        = lookup (root (fs (world s))) project_path ->
        exists size,
          snd (clean_flutter_project Env spawn project_path use_fvm s)
          = Ok {| success := true; size_before := size; size_after := size;
                  size_saved := 0 |}).
Proof.
  intros Hsp.
  destruct (clean_flutter_project_run spawn project_path use_fvm s w' r Hsp)
    as (before & after & s1 & Hb & _ & Ha & _ & Hrun & _).
  rewrite (get_folder_size_walk _ _ (root_wf (fs (world s)))) in Hb.
  rewrite (get_folder_size_walk _ _ (root_wf (fs w'))) in Ha.
  inversion Hb as [Hb']. inversion Ha as [Ha'].
  fold (reachable_bytes (root (fs (world s))) project_path) in *.
  fold (reachable_bytes (root (fs w')) project_path) in *.
  rewrite Hrun, <- Hb', <- Ha'. cbn [snd]. split; [reflexivity|].
  intros exit -> Hz Hsame.
  exists (reachable_bytes (root (fs (world s))) project_path).
  unfold outcome_of. rewrite Hz. cbn [Z.eqb].
  unfold reachable_bytes. rewrite Hsame. now rewrite Z.sub_diag.
Qed.

End Measures.

Lemma clean_flutter_project_measures_witness :
  snd (clean_flutter_project unit demo_spawn ["work"; "B"] false
         (demo_state []))
  = Ok {| success := true; size_before := 13; size_after := 13;
          size_saved := 0 |}.
Proof.
  destruct (proj2 (clean_flutter_project_measures demo_spawn ["work"; "B"]
                     false (demo_state []) _ _ eq_refl)
              _ eq_refl eq_refl eq_refl) as (size & Hsize).
  rewrite Hsize. vm_compute in Hsize. inversion Hsize. reflexivity.
Defined.

(** ** The counts of the summary *)

Section SummaryCounts.

Context {Env : Type}.

(** X13.  The summary prints, without reading the keyboard or touching
    the world, the number of successes and the number of projects in
    every case, and the line of the failures exactly when at least one
    project failed, with their number; all of them come before the sizes,
    so they are shown even if a size cannot be formatted. *)
Theorem print_summary_counts (description : string) (count : nat)
  (t : BatchTotals) (s : State Env) :
  exists evs,
    fst (print_summary Env description count t s) = emit_all evs s
    /\ In (Printed (MsgCommandUsed description)) evs
    /\ In (Printed (MsgSucceeded (successful_cleans t))) evs
    /\ In (Printed (MsgTotalProjects count)) evs
    /\ (forall k, In (Printed (MsgFailed k)) evs
                  <-> k = failed_cleans t /\ 0 < k).
Proof.
  unfold print_summary, bind, print, lift, ret.
  destruct (Z.ltb_spec 0 (failed_cleans t)) as [Hf|Hf];
    destruct (format_size (total_size_before t)) as [tb|eb];
    try destruct (format_size (total_size_after t)) as [ta|ea];
    try destruct (format_size (total_size_saved t)) as [ts|es];
    destruct (Z.ltb_spec 0 (total_size_before t)) as [Hpos|Hneg];
    try destruct (truediv (total_size_saved t) (total_size_before t))
          as [ratio|e];
    (eexists; split;
     [unfold emit_all, emit; cbn [fst stdin world out];
      rewrite <- ?app_assoc; reflexivity|]);
    (split; [simpl; tauto|]);
    (split; [simpl; tauto|]);
    (split; [simpl; tauto|]);
    (intros k; split;
     [intros Hk; simpl in Hk;
      repeat (destruct Hk as [Hk|Hk]; try discriminate Hk);
      try contradiction;
      inversion Hk; subst k; (split; [reflexivity|assumption])
     |intros [-> Hk]; try lia; simpl; tauto]).
Qed.

End SummaryCounts.

(** ** A prompt that is not answered *)

Section Unanswered.

Context {Env : Type}.
Variable spawn : list string -> path -> World Env -> World Env * Res ProcessExit.
Variable resolve_path : string -> path.

(** What the handlers at the top make of a body that answered every
    prompt or stopped at one. *)
Lemma top_level_unanswered (s s' : State Env) (r : Res unit) :
  scan_body Env spawn resolve_path s = (s', r) ->
  calm (out s') = true
  \/ (invocations (out s') = [] /\ stops (out s') r) ->
  forall p k,
    In (Input p k)
      (out (fst (scan_and_clean_flutter_projects Env spawn resolve_path s))) ->
    answer_given k = false ->
    exists pre,
      out (fst (scan_and_clean_flutter_projects Env spawn resolve_path s))
      = (pre ++ [Input p k; Printed (last_words (input_failure k))])%list
      /\ calm pre = true
      /\ invocations
           (out (fst (scan_and_clean_flutter_projects Env spawn
                        resolve_path s))) = [].
Proof.
  intros Hbody Hend p k.
  assert (out (fst (scan_and_clean_flutter_projects Env spawn resolve_path s))
          = (out s' ++ report_of r)%list) as Hfinal.
  { unfold scan_and_clean_flutter_projects, try_except. rewrite Hbody.
    destruct r as [u|e]; [cbn [fst report_of]; now rewrite app_nil_r|].
    destruct e; reflexivity. }
  rewrite Hfinal. clear Hfinal. intros Hin Hk.
  destruct Hend as [Hc|[Hinv [Hc|(pre & p' & k' & Hout & Hpre & Hk' & ->)]]].
  1,2: exfalso;
       assert (answer_given k = true) as E; [|congruence];
       apply (calm_In (out s' ++ report_of r)%list p k); [|exact Hin];
       rewrite calm_app, Hc; destruct r; reflexivity.
  cbn [report_of] in *. rewrite Hout, <- app_assoc in Hin.
  apply in_app_or in Hin as [Hin|Hin].
  { exfalso. rewrite (calm_In pre p k Hpre Hin) in Hk. discriminate Hk. }
  destruct Hin as [E|[E|[]]]; [|discriminate E].
  inversion E; subst p' k'.
  exists pre. split; [now rewrite Hout, <- app_assoc|].
  split; [exact Hpre|].
  rewrite invocations_app, Hinv. reflexivity.
Qed.

(** X14.  Ctrl-C or the end of the input at a prompt ends the run there:
    whichever of the three prompts it is, every prompt before it was
    answered, the prompt is followed by one line only, the notice of the
    interruption for Ctrl-C and the report of the unexpected [EOFError]
    for the end of the input, and no command was started. *)
Theorem run_stops_at_unanswered_prompt (keys : list Keyboard)
  (w : World Env) (p : Prompt) (k : option Keyboard) :
  In (Input p k)
    (out (fst (scan_and_clean_flutter_projects Env spawn resolve_path
                 (start keys w)))) ->
  answer_given k = false ->
  exists pre,
    out (fst (scan_and_clean_flutter_projects Env spawn resolve_path
                (start keys w)))
    = (pre ++ [Input p k; Printed (last_words (input_failure k))])%list
    /\ calm pre = true
    /\ invocations
         (out (fst (scan_and_clean_flutter_projects Env spawn resolve_path
                      (start keys w)))) = [].
Proof.
  destruct (scan_body_discovers spawn resolve_path (start keys w))
    as (evs & keys' & next & Hbody & Hq & Hnext).
  cbn [start out world app] in Hbody.
  destruct (quiet_spec evs Hq) as (He & _ & _).
  destruct Hnext
    as [(r & -> & Hst)|(use_fvm & text & items & Hc & _ & _ & ->)].
  { apply (top_level_unanswered _ _ _ Hbody). right. now split. }
  set (projects := map _ _) in Hbody.
  destruct keys' as [|[answer|] keys2].
  - unfold confirm_and_clean, bind, print, input, emit in Hbody.
    cbn [stdin world out] in Hbody.
    apply (top_level_unanswered _ _ _ Hbody). right. cbn [out].
    split; [now rewrite !invocations_app, He|].
    right. eexists _, _, None.
    split; [reflexivity|]. split; [|split; reflexivity].
    now rewrite !calm_app, Hc.
  - set (s1 := {| stdin := Line answer :: keys2; world := w; out := evs |})
      in Hbody.
    destruct (affirmative answer) eqn:Ha.
    + destruct (confirm_and_clean Env spawn use_fvm projects s1)
        as [s' r] eqn:Hrun.
      apply (top_level_unanswered _ _ _ Hbody). left.
      pose proof (confirm_yes_inputs spawn use_fvm projects s1 answer keys2
                    eq_refl Ha) as Hinp.
      rewrite Hrun in Hinp. cbn [fst s1 out] in Hinp.
      unfold calm in *. rewrite Hinp, forallb_app, Hc. reflexivity.
    + rewrite (confirm_no spawn use_fvm projects s1 answer keys2 eq_refl Ha)
        in Hbody.
      apply (top_level_unanswered _ _ _ Hbody). left.
      unfold answered, confirm_events. cbn [out emit s1].
      now rewrite !calm_app, Hc.
  - unfold confirm_and_clean, bind, print, input, emit in Hbody.
    cbn [stdin world out] in Hbody.
    apply (top_level_unanswered _ _ _ Hbody). right. cbn [out].
    split; [now rewrite !invocations_app, He|].
    right. eexists _, _, (Some CtrlC).
    split; [reflexivity|]. split; [|split; reflexivity].
    now rewrite !calm_app, Hc.
Qed.

End Unanswered.

Lemma run_stops_at_unanswered_prompt_witness :
  exists pre,
    out (fst (scan_and_clean_flutter_projects unit demo_spawn demo_resolve
                (start [Line "1"; Line "work"; CtrlC; Line "y"] demo_world)))
    = (pre ++ [Input (PromptConfirm "fvm flutter clean" 1) (Some CtrlC);
               Printed MsgInterrupted])%list
    /\ calm pre = true
    /\ invocations
         (out (fst (scan_and_clean_flutter_projects unit demo_spawn
                      demo_resolve
                      (start [Line "1"; Line "work"; CtrlC; Line "y"]
                         demo_world)))) = [].
Proof.
  apply (run_stops_at_unanswered_prompt demo_spawn demo_resolve
           [Line "1"; Line "work"; CtrlC; Line "y"] demo_world
           (PromptConfirm "fvm flutter clean" 1) (Some CtrlC)).
  - vm_compute. tauto.
  - reflexivity.
Defined.
